(** * Sinyalist seismic P-wave detector: a shallow embedding

    Source: [seismic_detector.hpp] (namespace [sinyalist::seismic]).

    The detector is a streaming pipeline over [float] samples.  The
    embedding keeps the shape of the C++:

    - [Ring<T, MAX_N>] is a template over its element type; here it is a
      record over any type [T] that provides the arithmetic of the class
      [Num].  The detector needs, on top of that, [std::sqrt], [std::abs],
      the conversion to [uint32_t] and the float literals: class [Flt].
    - Two instances are given.  [binary32] is IEEE-754 single precision
      (round to nearest even), built on the Standard Library's
      [SpecFloat]; it is what the compiled program computes with.
      [Qc] (canonical rationals) is exact arithmetic, used for the
      contract of the ring sums.
    - [uint32_t] and [uint64_t] are [N] with the wrap-around written out.
    - The two callbacks are invoked inline and may not call back into
      the detector, so an invocation is an element of the list of calls
      returned by [process_sample]; a null [std::function] is [false]. *)

From Stdlib Require Import ZArith NArith QArith Qcanon Bool List Lia.
From Stdlib Require Import Floats.SpecFloat.
From stdpp Require Import base list.

Set Default Proof Using "Type".
#[local] Open Scope N_scope.

(** ** Machine integers *)

Definition wrap32 (n : N) : N := n mod 2 ^ 32.
Definition wrap64 (n : N) : N := n mod 2 ^ 64.

(** ** Arithmetic interfaces *)

(** What [Ring<T, MAX_N>] asks of [T]: the literal [0], [+ - * /],
    [<] and the conversion [T(n)] of a [uint32_t]. *)
Class Num (T : Type) := {
  zero : T;
  add : T -> T -> T;
  sub : T -> T -> T;
  mul : T -> T -> T;
  div : T -> T -> T;
  ltb : T -> T -> bool;
  of_u32 : N -> T;
}.

(** What the detector asks of [float] beyond [Num]: [<=], [std::sqrt],
    [std::abs], the truncating conversion [uint32_t(x)], and literals.
    [lit p q] is the literal whose decimal value is [p / q]. *)
Class Flt (F : Type) `{Num F} := {
  leb : F -> F -> bool;
  sqrt : F -> F;
  fabs : F -> F;
  to_u32 : F -> N;
  lit : Z -> Z -> F;
}.

Declare Scope num_scope.
Delimit Scope num_scope with num.
Infix "+" := add : num_scope.
Infix "-" := sub : num_scope.
Infix "*" := mul : num_scope.
Infix "/" := div : num_scope.
Notation "a <? b" := (ltb a b) : num_scope.
Notation "a >? b" := (ltb b a) : num_scope.
Notation "a <=? b" := (leb a b) : num_scope.
Notation "a >=? b" := (leb b a) : num_scope.

(** [std::max(a, b)] and [std::min(a, b)]: [(a < b) ? b : a] and
    [(b < a) ? b : a]. *)
Definition fmax `{Num T} (a b : T) : T := if (a <? b)%num then b else a.
Definition fmin `{Num T} (a b : T) : T := if (b <? a)%num then b else a.

(** [std::max({a, b, c})] and [std::min({a, b, c})]: a left-to-right scan
    keeping the leftmost extremum. *)
Definition fmax3 `{Num T} (a b c : T) : T := fmax (fmax a b) c.
Definition fmin3 `{Num T} (a b c : T) : T := fmin (fmin a b) c.

(** [std::clamp(v, lo, hi)]: [lo] if [v < lo], [hi] if [hi < v], else [v]. *)
Definition clamp `{Num T} (v lo hi : T) : T :=
  if (v <? lo)%num then lo else if (hi <? v)%num then hi else v.

(** ** IEEE-754 binary32 *)

Module B32.
Definition prec : Z := 24.
Definition emax : Z := 128.
Definition t := spec_float.

Definition of_Z (z : Z) : t := binary_normalize prec emax z 0 false.

(** [uint32_t(x)]: truncation toward zero.  Out of range the C++ is
    undefined; the model saturates, as the AArch64 conversion does. *)
Definition trunc (x : t) : N :=
  match x with
  | S754_zero _ | S754_nan => 0
  | S754_infinity s => if s then 0 else 2 ^ 32 - 1
  | S754_finite true _ _ => 0
  | S754_finite false m e =>
      match e with
      | Z0 => N.min (Npos m) (2 ^ 32 - 1)
      | Zpos k => N.min (N.shiftl (Npos m) (Npos k)) (2 ^ 32 - 1)
      | Zneg k => N.shiftr (Npos m) (Npos k)
      end
  end.

#[export] Instance num : Num t := {|
  zero := S754_zero false;
  add := SFadd prec emax;
  sub := SFsub prec emax;
  mul := SFmul prec emax;
  div := SFdiv prec emax;
  ltb := SFltb;
  of_u32 := fun n => of_Z (Z.of_N n);
|}.

#[export] Instance flt : Flt t := {|
  leb := SFleb;
  sqrt := SFsqrt prec emax;
  fabs := SFabs;
  to_u32 := trunc;
  lit := fun p q => SFdiv prec emax (of_Z p) (of_Z q);
|}.
End B32.

(** ** Exact rational arithmetic *)

Module Exact.
Definition of_N (n : N) : Qc := Q2Qc (inject_Z (Z.of_N n)).
Definition lt (a b : Qc) : bool :=
  match (a ?= b)%Qc with Lt => true | _ => false end.

#[export] Instance num : Num Qc := {|
  zero := Q2Qc 0;
  add := Qcplus;
  sub := Qcminus;
  mul := Qcmult;
  div := Qcdiv;
  ltb := lt;
  of_u32 := of_N;
|}.
End Exact.

(** ** [Ring<T, MAX_N>] *)

Section Ring.
Context {T : Type} `{Num T}.
#[local] Open Scope num_scope.

(** [b_] is the [std::array<T, MAX_N>]; [h_] the next write slot, [n_]
    the number of live elements, [cap_] the bound capacity, [s_] and
    [sq_] the running sum and sum of squares. *)
Record Ring := mkRing {
  b_ : list T;
  h_ : N;
  n_ : N;
  cap_ : N;
  s_ : T;
  sq_ : T;
}.

(** [b_[i]]; the index is in range wherever the source reads. *)
Definition rd (b : list T) (i : N) : T := default zero (b !! N.to_nat i).

(** The member initialisers: [b_{}], [h_=0], [n_=0], [cap_=MAX_N]. *)
Definition ring_new (MAX_N : N) : Ring :=
  {| b_ := replicate (N.to_nat MAX_N) zero;
     h_ := 0; n_ := 0; cap_ := MAX_N; s_ := zero; sq_ := zero |}.

(** [reset]: [h_=n_=0; s_=sq_=0; b_.fill(0)]. *)
Definition ring_reset (r : Ring) : Ring :=
  {| b_ := replicate (length (b_ r)) zero;
     h_ := 0; n_ := 0; cap_ := cap_ r; s_ := zero; sq_ := zero |}.

(** [set_cap]: [cap_ = c>0 && c<=MAX_N ? c : MAX_N; reset();] *)
Definition set_cap (MAX_N c : N) (r : Ring) : Ring :=
  ring_reset
    {| b_ := b_ r; h_ := h_ r; n_ := n_ r;
       cap_ := if (0 <? c)%N && (c <=? MAX_N)%N then c else MAX_N;
       s_ := s_ r; sq_ := sq_ r |}.

(** [push]: evict when full, else count; store, add, advance. *)
Definition push (v : T) (r : Ring) : Ring :=
  let old := rd (b_ r) (h_ r) in
  let full := (n_ r =? cap_ r)%N in
  let s := if full then s_ r - old else s_ r in
  let sq := if full then sq_ r - old * old else sq_ r in
  let n := if full then n_ r else wrap32 (n_ r + 1) in
  {| b_ := <[N.to_nat (h_ r) := v]> (b_ r);
     h_ := wrap32 (h_ r + 1) mod cap_ r;
     n_ := n; cap_ := cap_ r;
     s_ := s + v; sq_ := sq + v * v |}.

Definition avg (r : Ring) : T :=
  if (0 <? n_ r)%N then s_ r / of_u32 (n_ r) else zero.

Definition var (r : Ring) : T :=
  if (n_ r <? 2)%N then zero
  else
    let m := avg r in
    let v := sq_ r / of_u32 (n_ r) - m * m in
    if v >? zero then v else zero.

Definition full (r : Ring) : bool := (n_ r =? cap_ r)%N.
Definition size (r : Ring) : N := n_ r.

(** [at(i)]: [i<n_ ? b_[(h_+cap_-n_+i)%cap_] : 0].  The index is
    computed in [uint32_t]: subtracting [n_] is adding [2^32 - n_]. *)
Definition at_ (r : Ring) (i : N) : T :=
  if (i <? n_ r)%N
  then rd (b_ r) (wrap32 (h_ r + cap_ r + 2 ^ 32 - n_ r + i) mod cap_ r)
  else zero.
End Ring.

Arguments Ring T : clear implicits.

(** ** The detector's data *)

Inductive AlertLevel := LVL_NONE | TREMOR | MODERATE | SEVERE | CRITICAL.
Inductive RejectCode := RC_NONE | AXIS_COHERENCE | FREQUENCY | PERIODICITY | ENERGY_DIST.

(** [enum class S : uint8_t { IDLE, CONFIRM, TRIGGERED }]; named [State]
    here, [S] being the successor of [nat]. *)
Inductive State := IDLE | CONFIRM | TRIGGERED.

(** [uint8_t(st_)] *)
Definition State_code (s : State) : N :=
  match s with IDLE => 0 | CONFIRM => 1 | TRIGGERED => 2 end.

Definition RejectCode_eqb (a b : RejectCode) : bool :=
  match a, b with
  | RC_NONE, RC_NONE | AXIS_COHERENCE, AXIS_COHERENCE | FREQUENCY, FREQUENCY
  | PERIODICITY, PERIODICITY | ENERGY_DIST, ENERGY_DIST => true
  | _, _ => false
  end.

Section Detector.
Context {F : Type} `{Flt F}.
#[local] Open Scope num_scope.

Record Config := mkConfig {
  sample_rate_hz : F;
  hp_alpha : F;
  sta_window : N;
  lta_window : N;
  sta_lta_trigger : F;
  sta_lta_detrigger : F;
  min_amplitude_g : F;
  min_sustained : N;
  axis_coherence_min : F;
  cooldown : N;
  pwave_freq_min : F;
  pwave_freq_max : F;
  calib_window : N;
  adaptive_trig_min : F;
  adaptive_trig_max : F;
  periodicity_thresh : F;
}.

(** The default member initialisers of [Config]. *)
Definition default_config : Config :=
  {| sample_rate_hz := lit 50 1;
     hp_alpha := lit 98 100;
     sta_window := 25;
     lta_window := 500;
     sta_lta_trigger := lit 45 10;
     sta_lta_detrigger := lit 15 10;
     min_amplitude_g := lit 12 1000;
     min_sustained := 15;
     axis_coherence_min := lit 4 10;
     cooldown := 500;
     pwave_freq_min := lit 1 1;
     pwave_freq_max := lit 15 1;
     calib_window := 2500;
     adaptive_trig_min := lit 35 10;
     adaptive_trig_max := lit 8 1;
     periodicity_thresh := lit 6 10 |}.

(** [dt()]: [1.0f / sample_rate_hz]. *)
Definition dt (c : Config) : F := lit 1 1 / sample_rate_hz c.

Record SeismicEvent := mkEvent {
  level : AlertLevel;
  peak_g : F;
  sta_lta : F;
  freq_hz : F;
  time_ms : N;
  duration : N;
}.

Record DebugTelemetry := mkTelemetry {
  raw_mag : F;
  filt_mag : F;
  sta : F;
  lta : F;
  ratio : F;
  baseline_var : F;
  adaptive_trigger : F;
  state : N;
  reject : RejectCode;
  ts_ : N;
}.

(** What one call of [process_sample] calls in turn, in order: the
    event callback, the debug callback, and the private
    [check_reject], recorded with the code it returned. *)
Inductive Call :=
| OnEvent (e : SeismicEvent)
| OnDebug (t : DebugTelemetry)
| Checked (rc : RejectCode).

Definition is_event (c : Call) : bool :=
  match c with OnEvent _ => true | _ => false end.
Definition is_debug (c : Call) : bool :=
  match c with OnDebug _ => true | _ => false end.
Definition is_checked (c : Call) : bool :=
  match c with Checked _ => true | _ => false end.

(** *** Filters *)

Record HighPassState := mkHP { prev_raw : F; prev_filt : F }.

Definition hp_new : HighPassState := {| prev_raw := zero; prev_filt := zero |}.

(** [HighPassState::process]: returns the output and the new state. *)
Definition hp_process (h : HighPassState) (raw a : F) : F * HighPassState :=
  let f := a * (prev_filt h + raw - prev_raw h) in
  (f, {| prev_raw := raw; prev_filt := f |}).

Definition hp_reset (h : HighPassState) : HighPassState := hp_new.

Record Biquad := mkBiquad { b0 : F; b1 : F; b2 : F; a1 : F; a2 : F; w1 : F; w2 : F }.

(** [Biquad::process], Direct Form II Transposed. *)
Definition bq_process (q : Biquad) (x : F) : F * Biquad :=
  let y := b0 q * x + w1 q in
  let w1' := b1 q * x - a1 q * y + w2 q in
  let w2' := b2 q * x - a2 q * y in
  (y, {| b0 := b0 q; b1 := b1 q; b2 := b2 q; a1 := a1 q; a2 := a2 q;
         w1 := w1'; w2 := w2' |}).

Definition bq_reset (q : Biquad) : Biquad :=
  {| b0 := b0 q; b1 := b1 q; b2 := b2 q; a1 := a1 q; a2 := a2 q;
     w1 := zero; w2 := zero |}.

Record BandPassFilter := mkBP { hp : Biquad; lp : Biquad }.

Definition bp_new : BandPassFilter :=
  {| hp := {| b0 := lit 9429 10000; b1 := lit (-18858) 10000; b2 := lit 9429 10000;
              a1 := lit (-18805) 10000; a2 := lit 8853 10000;
              w1 := zero; w2 := zero |};
     lp := {| b0 := lit 2929 10000; b1 := lit 5858 10000; b2 := lit 2929 10000;
              a1 := lit 0 1; a2 := lit 1716 10000;
              w1 := zero; w2 := zero |} |}.

(** [BandPassFilter::process]: [lp.process(hp.process(x))]. *)
Definition bp_process (f : BandPassFilter) (x : F) : F * BandPassFilter :=
  let h := bq_process (hp f) x in
  let l := bq_process (lp f) h.1 in
  (l.1, {| hp := h.2; lp := l.2 |}).

Definition bp_reset (f : BandPassFilter) : BandPassFilter :=
  {| hp := bq_reset (hp f); lp := bq_reset (lp f) |}.

Record GravityEstimator := mkGrav { gx : F; gy : F; gz : F }.

Definition kAlpha : F := lit 1245 100000.

Definition grav_new : GravityEstimator :=
  {| gx := zero; gy := zero; gz := lit (-1) 1 |}.

(** [GravityEstimator::update]: [g += kAlpha * (a - g)] per axis. *)
Definition grav_update (g : GravityEstimator) (ax ay az : F) : GravityEstimator :=
  {| gx := gx g + kAlpha * (ax - gx g);
     gy := gy g + kAlpha * (ay - gy g);
     gz := gz g + kAlpha * (az - gz g) |}.

Definition linX (g : GravityEstimator) (ax : F) : F := ax - gx g.
Definition linY (g : GravityEstimator) (ay : F) : F := ay - gy g.
Definition linZ (g : GravityEstimator) (az : F) : F := az - gz g.

Definition grav_reset (g : GravityEstimator) : GravityEstimator := grav_new.

(** *** [class SeismicDetector] *)

(** [float ap_[3]], [float ae_[3]]. *)
Record Arr3 := mkArr3 { e0 : F; e1 : F; e2 : F }.

Definition arr3_zero : Arr3 := {| e0 := zero; e1 := zero; e2 := zero |}.

(** The private members, under their own names.  [on_ev_] and [on_dbg_]
    hold whether the [std::function] is non-empty. *)
Record Detector := mkDetector {
  cfg_ : Config;
  hx_ : HighPassState; hy_ : HighPassState; hz_ : HighPassState;
  bpx_ : BandPassFilter; bpy_ : BandPassFilter; bpz_ : BandPassFilter;
  grav_ : GravityEstimator;
  sta_ : Ring F; lta_ : Ring F; cal_ : Ring F; per_ : Ring F;
  st_ : State; sc_ : N; dur_ : N; cd_ : N; zc_ : N;
  pk_ : F; t0_ : N; ps_ : bool;
  ap_ : Arr3; ae_ : Arr3;
  total_ : N; lr_ : RejectCode;
  on_ev_ : bool; on_dbg_ : bool;
}.

(** Assignments to one member. *)
Definition set_cfg_ (v : Config) (d : Detector) : Detector :=
  {| cfg_ := v; hx_ := hx_ d; hy_ := hy_ d; hz_ := hz_ d; bpx_ := bpx_ d;
     bpy_ := bpy_ d; bpz_ := bpz_ d; grav_ := grav_ d; sta_ := sta_ d;
     lta_ := lta_ d; cal_ := cal_ d; per_ := per_ d; st_ := st_ d;
     sc_ := sc_ d; dur_ := dur_ d; cd_ := cd_ d; zc_ := zc_ d;
     pk_ := pk_ d; t0_ := t0_ d; ps_ := ps_ d; ap_ := ap_ d;
     ae_ := ae_ d; total_ := total_ d; lr_ := lr_ d; on_ev_ := on_ev_ d;
     on_dbg_ := on_dbg_ d |}.

Definition set_hx_ (v : HighPassState) (d : Detector) : Detector :=
  {| cfg_ := cfg_ d; hx_ := v; hy_ := hy_ d; hz_ := hz_ d;
     bpx_ := bpx_ d; bpy_ := bpy_ d; bpz_ := bpz_ d; grav_ := grav_ d;
     sta_ := sta_ d; lta_ := lta_ d; cal_ := cal_ d; per_ := per_ d;
     st_ := st_ d; sc_ := sc_ d; dur_ := dur_ d; cd_ := cd_ d;
     zc_ := zc_ d; pk_ := pk_ d; t0_ := t0_ d; ps_ := ps_ d;
     ap_ := ap_ d; ae_ := ae_ d; total_ := total_ d; lr_ := lr_ d;
     on_ev_ := on_ev_ d; on_dbg_ := on_dbg_ d |}.

Definition set_hy_ (v : HighPassState) (d : Detector) : Detector :=
  {| cfg_ := cfg_ d; hx_ := hx_ d; hy_ := v; hz_ := hz_ d;
     bpx_ := bpx_ d; bpy_ := bpy_ d; bpz_ := bpz_ d; grav_ := grav_ d;
     sta_ := sta_ d; lta_ := lta_ d; cal_ := cal_ d; per_ := per_ d;
     st_ := st_ d; sc_ := sc_ d; dur_ := dur_ d; cd_ := cd_ d;
     zc_ := zc_ d; pk_ := pk_ d; t0_ := t0_ d; ps_ := ps_ d;
     ap_ := ap_ d; ae_ := ae_ d; total_ := total_ d; lr_ := lr_ d;
     on_ev_ := on_ev_ d; on_dbg_ := on_dbg_ d |}.

Definition set_hz_ (v : HighPassState) (d : Detector) : Detector :=
  {| cfg_ := cfg_ d; hx_ := hx_ d; hy_ := hy_ d; hz_ := v;
     bpx_ := bpx_ d; bpy_ := bpy_ d; bpz_ := bpz_ d; grav_ := grav_ d;
     sta_ := sta_ d; lta_ := lta_ d; cal_ := cal_ d; per_ := per_ d;
     st_ := st_ d; sc_ := sc_ d; dur_ := dur_ d; cd_ := cd_ d;
     zc_ := zc_ d; pk_ := pk_ d; t0_ := t0_ d; ps_ := ps_ d;
     ap_ := ap_ d; ae_ := ae_ d; total_ := total_ d; lr_ := lr_ d;
     on_ev_ := on_ev_ d; on_dbg_ := on_dbg_ d |}.

Definition set_bpx_ (v : BandPassFilter) (d : Detector) : Detector :=
  {| cfg_ := cfg_ d; hx_ := hx_ d; hy_ := hy_ d; hz_ := hz_ d; bpx_ := v;
     bpy_ := bpy_ d; bpz_ := bpz_ d; grav_ := grav_ d; sta_ := sta_ d;
     lta_ := lta_ d; cal_ := cal_ d; per_ := per_ d; st_ := st_ d;
     sc_ := sc_ d; dur_ := dur_ d; cd_ := cd_ d; zc_ := zc_ d;
     pk_ := pk_ d; t0_ := t0_ d; ps_ := ps_ d; ap_ := ap_ d;
     ae_ := ae_ d; total_ := total_ d; lr_ := lr_ d; on_ev_ := on_ev_ d;
     on_dbg_ := on_dbg_ d |}.

Definition set_bpy_ (v : BandPassFilter) (d : Detector) : Detector :=
  {| cfg_ := cfg_ d; hx_ := hx_ d; hy_ := hy_ d; hz_ := hz_ d;
     bpx_ := bpx_ d; bpy_ := v; bpz_ := bpz_ d; grav_ := grav_ d;
     sta_ := sta_ d; lta_ := lta_ d; cal_ := cal_ d; per_ := per_ d;
     st_ := st_ d; sc_ := sc_ d; dur_ := dur_ d; cd_ := cd_ d;
     zc_ := zc_ d; pk_ := pk_ d; t0_ := t0_ d; ps_ := ps_ d;
     ap_ := ap_ d; ae_ := ae_ d; total_ := total_ d; lr_ := lr_ d;
     on_ev_ := on_ev_ d; on_dbg_ := on_dbg_ d |}.

Definition set_bpz_ (v : BandPassFilter) (d : Detector) : Detector :=
  {| cfg_ := cfg_ d; hx_ := hx_ d; hy_ := hy_ d; hz_ := hz_ d;
     bpx_ := bpx_ d; bpy_ := bpy_ d; bpz_ := v; grav_ := grav_ d;
     sta_ := sta_ d; lta_ := lta_ d; cal_ := cal_ d; per_ := per_ d;
     st_ := st_ d; sc_ := sc_ d; dur_ := dur_ d; cd_ := cd_ d;
     zc_ := zc_ d; pk_ := pk_ d; t0_ := t0_ d; ps_ := ps_ d;
     ap_ := ap_ d; ae_ := ae_ d; total_ := total_ d; lr_ := lr_ d;
     on_ev_ := on_ev_ d; on_dbg_ := on_dbg_ d |}.

Definition set_grav_ (v : GravityEstimator) (d : Detector) : Detector :=
  {| cfg_ := cfg_ d; hx_ := hx_ d; hy_ := hy_ d; hz_ := hz_ d;
     bpx_ := bpx_ d; bpy_ := bpy_ d; bpz_ := bpz_ d; grav_ := v;
     sta_ := sta_ d; lta_ := lta_ d; cal_ := cal_ d; per_ := per_ d;
     st_ := st_ d; sc_ := sc_ d; dur_ := dur_ d; cd_ := cd_ d;
     zc_ := zc_ d; pk_ := pk_ d; t0_ := t0_ d; ps_ := ps_ d;
     ap_ := ap_ d; ae_ := ae_ d; total_ := total_ d; lr_ := lr_ d;
     on_ev_ := on_ev_ d; on_dbg_ := on_dbg_ d |}.

Definition set_sta_ (v : Ring F) (d : Detector) : Detector :=
  {| cfg_ := cfg_ d; hx_ := hx_ d; hy_ := hy_ d; hz_ := hz_ d;
     bpx_ := bpx_ d; bpy_ := bpy_ d; bpz_ := bpz_ d; grav_ := grav_ d;
     sta_ := v; lta_ := lta_ d; cal_ := cal_ d; per_ := per_ d;
     st_ := st_ d; sc_ := sc_ d; dur_ := dur_ d; cd_ := cd_ d;
     zc_ := zc_ d; pk_ := pk_ d; t0_ := t0_ d; ps_ := ps_ d;
     ap_ := ap_ d; ae_ := ae_ d; total_ := total_ d; lr_ := lr_ d;
     on_ev_ := on_ev_ d; on_dbg_ := on_dbg_ d |}.

Definition set_lta_ (v : Ring F) (d : Detector) : Detector :=
  {| cfg_ := cfg_ d; hx_ := hx_ d; hy_ := hy_ d; hz_ := hz_ d;
     bpx_ := bpx_ d; bpy_ := bpy_ d; bpz_ := bpz_ d; grav_ := grav_ d;
     sta_ := sta_ d; lta_ := v; cal_ := cal_ d; per_ := per_ d;
     st_ := st_ d; sc_ := sc_ d; dur_ := dur_ d; cd_ := cd_ d;
     zc_ := zc_ d; pk_ := pk_ d; t0_ := t0_ d; ps_ := ps_ d;
     ap_ := ap_ d; ae_ := ae_ d; total_ := total_ d; lr_ := lr_ d;
     on_ev_ := on_ev_ d; on_dbg_ := on_dbg_ d |}.

Definition set_cal_ (v : Ring F) (d : Detector) : Detector :=
  {| cfg_ := cfg_ d; hx_ := hx_ d; hy_ := hy_ d; hz_ := hz_ d;
     bpx_ := bpx_ d; bpy_ := bpy_ d; bpz_ := bpz_ d; grav_ := grav_ d;
     sta_ := sta_ d; lta_ := lta_ d; cal_ := v; per_ := per_ d;
     st_ := st_ d; sc_ := sc_ d; dur_ := dur_ d; cd_ := cd_ d;
     zc_ := zc_ d; pk_ := pk_ d; t0_ := t0_ d; ps_ := ps_ d;
     ap_ := ap_ d; ae_ := ae_ d; total_ := total_ d; lr_ := lr_ d;
     on_ev_ := on_ev_ d; on_dbg_ := on_dbg_ d |}.

Definition set_per_ (v : Ring F) (d : Detector) : Detector :=
  {| cfg_ := cfg_ d; hx_ := hx_ d; hy_ := hy_ d; hz_ := hz_ d;
     bpx_ := bpx_ d; bpy_ := bpy_ d; bpz_ := bpz_ d; grav_ := grav_ d;
     sta_ := sta_ d; lta_ := lta_ d; cal_ := cal_ d; per_ := v;
     st_ := st_ d; sc_ := sc_ d; dur_ := dur_ d; cd_ := cd_ d;
     zc_ := zc_ d; pk_ := pk_ d; t0_ := t0_ d; ps_ := ps_ d;
     ap_ := ap_ d; ae_ := ae_ d; total_ := total_ d; lr_ := lr_ d;
     on_ev_ := on_ev_ d; on_dbg_ := on_dbg_ d |}.

Definition set_st_ (v : State) (d : Detector) : Detector :=
  {| cfg_ := cfg_ d; hx_ := hx_ d; hy_ := hy_ d; hz_ := hz_ d;
     bpx_ := bpx_ d; bpy_ := bpy_ d; bpz_ := bpz_ d; grav_ := grav_ d;
     sta_ := sta_ d; lta_ := lta_ d; cal_ := cal_ d; per_ := per_ d;
     st_ := v; sc_ := sc_ d; dur_ := dur_ d; cd_ := cd_ d; zc_ := zc_ d;
     pk_ := pk_ d; t0_ := t0_ d; ps_ := ps_ d; ap_ := ap_ d;
     ae_ := ae_ d; total_ := total_ d; lr_ := lr_ d; on_ev_ := on_ev_ d;
     on_dbg_ := on_dbg_ d |}.

Definition set_sc_ (v : N) (d : Detector) : Detector :=
  {| cfg_ := cfg_ d; hx_ := hx_ d; hy_ := hy_ d; hz_ := hz_ d;
     bpx_ := bpx_ d; bpy_ := bpy_ d; bpz_ := bpz_ d; grav_ := grav_ d;
     sta_ := sta_ d; lta_ := lta_ d; cal_ := cal_ d; per_ := per_ d;
     st_ := st_ d; sc_ := v; dur_ := dur_ d; cd_ := cd_ d; zc_ := zc_ d;
     pk_ := pk_ d; t0_ := t0_ d; ps_ := ps_ d; ap_ := ap_ d;
     ae_ := ae_ d; total_ := total_ d; lr_ := lr_ d; on_ev_ := on_ev_ d;
     on_dbg_ := on_dbg_ d |}.

Definition set_dur_ (v : N) (d : Detector) : Detector :=
  {| cfg_ := cfg_ d; hx_ := hx_ d; hy_ := hy_ d; hz_ := hz_ d;
     bpx_ := bpx_ d; bpy_ := bpy_ d; bpz_ := bpz_ d; grav_ := grav_ d;
     sta_ := sta_ d; lta_ := lta_ d; cal_ := cal_ d; per_ := per_ d;
     st_ := st_ d; sc_ := sc_ d; dur_ := v; cd_ := cd_ d; zc_ := zc_ d;
     pk_ := pk_ d; t0_ := t0_ d; ps_ := ps_ d; ap_ := ap_ d;
     ae_ := ae_ d; total_ := total_ d; lr_ := lr_ d; on_ev_ := on_ev_ d;
     on_dbg_ := on_dbg_ d |}.

Definition set_cd_ (v : N) (d : Detector) : Detector :=
  {| cfg_ := cfg_ d; hx_ := hx_ d; hy_ := hy_ d; hz_ := hz_ d;
     bpx_ := bpx_ d; bpy_ := bpy_ d; bpz_ := bpz_ d; grav_ := grav_ d;
     sta_ := sta_ d; lta_ := lta_ d; cal_ := cal_ d; per_ := per_ d;
     st_ := st_ d; sc_ := sc_ d; dur_ := dur_ d; cd_ := v; zc_ := zc_ d;
     pk_ := pk_ d; t0_ := t0_ d; ps_ := ps_ d; ap_ := ap_ d;
     ae_ := ae_ d; total_ := total_ d; lr_ := lr_ d; on_ev_ := on_ev_ d;
     on_dbg_ := on_dbg_ d |}.

Definition set_zc_ (v : N) (d : Detector) : Detector :=
  {| cfg_ := cfg_ d; hx_ := hx_ d; hy_ := hy_ d; hz_ := hz_ d;
     bpx_ := bpx_ d; bpy_ := bpy_ d; bpz_ := bpz_ d; grav_ := grav_ d;
     sta_ := sta_ d; lta_ := lta_ d; cal_ := cal_ d; per_ := per_ d;
     st_ := st_ d; sc_ := sc_ d; dur_ := dur_ d; cd_ := cd_ d; zc_ := v;
     pk_ := pk_ d; t0_ := t0_ d; ps_ := ps_ d; ap_ := ap_ d;
     ae_ := ae_ d; total_ := total_ d; lr_ := lr_ d; on_ev_ := on_ev_ d;
     on_dbg_ := on_dbg_ d |}.

Definition set_pk_ (v : F) (d : Detector) : Detector :=
  {| cfg_ := cfg_ d; hx_ := hx_ d; hy_ := hy_ d; hz_ := hz_ d;
     bpx_ := bpx_ d; bpy_ := bpy_ d; bpz_ := bpz_ d; grav_ := grav_ d;
     sta_ := sta_ d; lta_ := lta_ d; cal_ := cal_ d; per_ := per_ d;
     st_ := st_ d; sc_ := sc_ d; dur_ := dur_ d; cd_ := cd_ d;
     zc_ := zc_ d; pk_ := v; t0_ := t0_ d; ps_ := ps_ d; ap_ := ap_ d;
     ae_ := ae_ d; total_ := total_ d; lr_ := lr_ d; on_ev_ := on_ev_ d;
     on_dbg_ := on_dbg_ d |}.

Definition set_t0_ (v : N) (d : Detector) : Detector :=
  {| cfg_ := cfg_ d; hx_ := hx_ d; hy_ := hy_ d; hz_ := hz_ d;
     bpx_ := bpx_ d; bpy_ := bpy_ d; bpz_ := bpz_ d; grav_ := grav_ d;
     sta_ := sta_ d; lta_ := lta_ d; cal_ := cal_ d; per_ := per_ d;
     st_ := st_ d; sc_ := sc_ d; dur_ := dur_ d; cd_ := cd_ d;
     zc_ := zc_ d; pk_ := pk_ d; t0_ := v; ps_ := ps_ d; ap_ := ap_ d;
     ae_ := ae_ d; total_ := total_ d; lr_ := lr_ d; on_ev_ := on_ev_ d;
     on_dbg_ := on_dbg_ d |}.

Definition set_ps_ (v : bool) (d : Detector) : Detector :=
  {| cfg_ := cfg_ d; hx_ := hx_ d; hy_ := hy_ d; hz_ := hz_ d;
     bpx_ := bpx_ d; bpy_ := bpy_ d; bpz_ := bpz_ d; grav_ := grav_ d;
     sta_ := sta_ d; lta_ := lta_ d; cal_ := cal_ d; per_ := per_ d;
     st_ := st_ d; sc_ := sc_ d; dur_ := dur_ d; cd_ := cd_ d;
     zc_ := zc_ d; pk_ := pk_ d; t0_ := t0_ d; ps_ := v; ap_ := ap_ d;
     ae_ := ae_ d; total_ := total_ d; lr_ := lr_ d; on_ev_ := on_ev_ d;
     on_dbg_ := on_dbg_ d |}.

Definition set_ap_ (v : Arr3) (d : Detector) : Detector :=
  {| cfg_ := cfg_ d; hx_ := hx_ d; hy_ := hy_ d; hz_ := hz_ d;
     bpx_ := bpx_ d; bpy_ := bpy_ d; bpz_ := bpz_ d; grav_ := grav_ d;
     sta_ := sta_ d; lta_ := lta_ d; cal_ := cal_ d; per_ := per_ d;
     st_ := st_ d; sc_ := sc_ d; dur_ := dur_ d; cd_ := cd_ d;
     zc_ := zc_ d; pk_ := pk_ d; t0_ := t0_ d; ps_ := ps_ d; ap_ := v;
     ae_ := ae_ d; total_ := total_ d; lr_ := lr_ d; on_ev_ := on_ev_ d;
     on_dbg_ := on_dbg_ d |}.

Definition set_ae_ (v : Arr3) (d : Detector) : Detector :=
  {| cfg_ := cfg_ d; hx_ := hx_ d; hy_ := hy_ d; hz_ := hz_ d;
     bpx_ := bpx_ d; bpy_ := bpy_ d; bpz_ := bpz_ d; grav_ := grav_ d;
     sta_ := sta_ d; lta_ := lta_ d; cal_ := cal_ d; per_ := per_ d;
     st_ := st_ d; sc_ := sc_ d; dur_ := dur_ d; cd_ := cd_ d;
     zc_ := zc_ d; pk_ := pk_ d; t0_ := t0_ d; ps_ := ps_ d;
     ap_ := ap_ d; ae_ := v; total_ := total_ d; lr_ := lr_ d;
     on_ev_ := on_ev_ d; on_dbg_ := on_dbg_ d |}.

Definition set_total_ (v : N) (d : Detector) : Detector :=
  {| cfg_ := cfg_ d; hx_ := hx_ d; hy_ := hy_ d; hz_ := hz_ d;
     bpx_ := bpx_ d; bpy_ := bpy_ d; bpz_ := bpz_ d; grav_ := grav_ d;
     sta_ := sta_ d; lta_ := lta_ d; cal_ := cal_ d; per_ := per_ d;
     st_ := st_ d; sc_ := sc_ d; dur_ := dur_ d; cd_ := cd_ d;
     zc_ := zc_ d; pk_ := pk_ d; t0_ := t0_ d; ps_ := ps_ d;
     ap_ := ap_ d; ae_ := ae_ d; total_ := v; lr_ := lr_ d;
     on_ev_ := on_ev_ d; on_dbg_ := on_dbg_ d |}.

Definition set_lr_ (v : RejectCode) (d : Detector) : Detector :=
  {| cfg_ := cfg_ d; hx_ := hx_ d; hy_ := hy_ d; hz_ := hz_ d;
     bpx_ := bpx_ d; bpy_ := bpy_ d; bpz_ := bpz_ d; grav_ := grav_ d;
     sta_ := sta_ d; lta_ := lta_ d; cal_ := cal_ d; per_ := per_ d;
     st_ := st_ d; sc_ := sc_ d; dur_ := dur_ d; cd_ := cd_ d;
     zc_ := zc_ d; pk_ := pk_ d; t0_ := t0_ d; ps_ := ps_ d;
     ap_ := ap_ d; ae_ := ae_ d; total_ := total_ d; lr_ := v;
     on_ev_ := on_ev_ d; on_dbg_ := on_dbg_ d |}.
(** The four template instantiations [Ring<float, MAX_N>]. *)
Definition STA_MAX : N := 100.
Definition LTA_MAX : N := 1000.
Definition CAL_MAX : N := 5000.
Definition PER_MAX : N := 200.

(** [apply]: bind the four capacities from [cfg_]. *)
Definition apply (d : Detector) : Detector :=
  let d := set_sta_ (set_cap STA_MAX (sta_window (cfg_ d)) (sta_ d)) d in
  let d := set_lta_ (set_cap LTA_MAX (lta_window (cfg_ d)) (lta_ d)) d in
  let d := set_cal_ (set_cap CAL_MAX (calib_window (cfg_ d)) (cal_ d)) d in
  set_per_ (set_cap PER_MAX (to_u32 (lit 4 1 * sample_rate_hz (cfg_ d))) (per_ d)) d.

(** The constructor: default member initialisers, then [apply()]. *)
Definition new (on_ev on_dbg : bool) : Detector :=
  apply
    {| cfg_ := default_config;
       hx_ := hp_new; hy_ := hp_new; hz_ := hp_new;
       bpx_ := bp_new; bpy_ := bp_new; bpz_ := bp_new;
       grav_ := grav_new;
       sta_ := ring_new STA_MAX; lta_ := ring_new LTA_MAX;
       cal_ := ring_new CAL_MAX; per_ := ring_new PER_MAX;
       st_ := IDLE; sc_ := 0; dur_ := 0; cd_ := 0; zc_ := 0;
       pk_ := zero; t0_ := 0; ps_ := false;
       ap_ := arr3_zero; ae_ := arr3_zero;
       total_ := 0; lr_ := RC_NONE;
       on_ev_ := on_ev; on_dbg_ := on_dbg |}.

Definition update_config (c : Config) (d : Detector) : Detector :=
  apply (set_cfg_ c d).

Definition config (d : Detector) : Config := cfg_ d.

(** [reset_st]: back to IDLE, accumulators cleared, cooldown armed. *)
Definition reset_st (d : Detector) : Detector :=
  {| cfg_ := cfg_ d;
     hx_ := hx_ d; hy_ := hy_ d; hz_ := hz_ d;
     bpx_ := bpx_ d; bpy_ := bpy_ d; bpz_ := bpz_ d;
     grav_ := grav_ d;
     sta_ := sta_ d; lta_ := lta_ d; cal_ := cal_ d; per_ := per_ d;
     st_ := IDLE; sc_ := 0; dur_ := 0; cd_ := cooldown (cfg_ d); zc_ := 0;
     pk_ := zero; t0_ := 0; ps_ := false;
     ap_ := arr3_zero; ae_ := arr3_zero;
     total_ := total_ d; lr_ := RC_NONE;
     on_ev_ := on_ev_ d; on_dbg_ := on_dbg_ d |}.

(** [reset]: filters, gravity and rings, then [reset_st(); total_=0]. *)
Definition reset (d : Detector) : Detector :=
  let d := set_hz_ (hp_reset (hz_ d)) (set_hy_ (hp_reset (hy_ d)) (set_hx_ (hp_reset (hx_ d)) d)) in
  let d := set_bpz_ (bp_reset (bpz_ d)) (set_bpy_ (bp_reset (bpy_ d)) (set_bpx_ (bp_reset (bpx_ d)) d)) in
  let d := set_grav_ (grav_reset (grav_ d)) d in
  let d := set_per_ (ring_reset (per_ d)) (set_cal_ (ring_reset (cal_ d))
             (set_lta_ (ring_reset (lta_ d)) (set_sta_ (ring_reset (sta_ d)) d))) in
  set_total_ 0 (reset_st d).

(** *** Rejection cascade *)

(** [for (i = 0; i < n; ++i) acc = step(acc, i)] *)
Definition for_upto (n : N) {A} (step : A -> N -> A) (init : A) : A :=
  fold_left (fun acc i => step acc (N.of_nat i)) (seq 0 (N.to_nat n)) init.

(** [autocorr]: the largest normalised autocorrelation of the
    periodicity ring over the lags [l0 .. l1] below [n/2], or [0]. *)
Definition autocorr (d : Detector) : F :=
  let p := per_ d in
  let n := size p in
  if (n <? 60)%N then zero
  else
    let m := for_upto n (fun m i => m + at_ p i) zero / of_u32 n in
    let v := for_upto n (fun v i => let x := at_ p i - m in v + x * x) zero in
    if v <? lit 1 10000000000 then zero
    else
      let l0 := to_u32 (sample_rate_hz (cfg_ d) / lit 25 10) in
      let l1 := to_u32 (sample_rate_hz (cfg_ d) / lit 15 10) in
      (* lag runs over l0, l0+1, ... while lag <= l1 && lag < n/2 *)
      let stop := N.min (l1 + 1)%N (n / 2)%N in
      fold_left
        (fun best k =>
           let lag := (l0 + N.of_nat k)%N in
           let c := for_upto (n - lag)%N
                      (fun c i => c + (at_ p i - m) * (at_ p (i + lag)%N - m)) zero in
           fmax best (c / v))
        (seq 0 (N.to_nat (stop - l0)%N)) zero.

(** The frequency estimate of [check_reject] and [fire]:
    [zc_ / (2 * ds)] with [ds = sc_ * dt], guarded by [ds > 0]. *)
Definition duration_s (d : Detector) : F := of_u32 (sc_ d) * dt (cfg_ d).
Definition freq_of (d : Detector) : F := of_u32 (zc_ d) / (lit 2 1 * duration_s d).

(** The four checks of [check_reject], each true when it rejects. *)
Definition axis_fails (d : Detector) : bool :=
  let mx := fmax3 (e0 (ap_ d)) (e1 (ap_ d)) (e2 (ap_ d)) in
  let mn := fmin3 (e0 (ap_ d)) (e1 (ap_ d)) (e2 (ap_ d)) in
  (mx >? zero) && (mn / mx <? axis_coherence_min (cfg_ d)).

Definition freq_fails (d : Detector) : bool :=
  if duration_s d >? zero
  then (freq_of d <? pwave_freq_min (cfg_ d)) || (freq_of d >? pwave_freq_max (cfg_ d))
  else false.

Definition periodicity_fails (d : Detector) : bool :=
  if full (per_ d) then autocorr d >? periodicity_thresh (cfg_ d) else false.

Definition energy_fails (d : Detector) : bool :=
  let te := e0 (ae_ d) + e1 (ae_ d) + e2 (ae_ d) in
  if te >? zero
  then fmax3 (e0 (ae_ d)) (e1 (ae_ d)) (e2 (ae_ d)) / te >? lit 85 100
  else false.

(** [check_reject]: each check returns its code as soon as it fails. *)
Definition check_reject (d : Detector) : RejectCode :=
  if axis_fails d then AXIS_COHERENCE
  else if freq_fails d then FREQUENCY
  else if periodicity_fails d then PERIODICITY
  else if energy_fails d then ENERGY_DIST
  else RC_NONE.

(** *** Events and telemetry *)

Definition severity (g : F) : AlertLevel :=
  if g >=? lit 40 100 then CRITICAL
  else if g >=? lit 15 100 then SEVERE
  else if g >=? lit 5 100 then MODERATE
  else if g >=? lit 1 100 then TREMOR
  else LVL_NONE.

(** [fire]: one call of [on_ev_], if set. *)
Definition fire (d : Detector) (ts : N) (r : F) : list Call :=
  let f := if duration_s d >? zero then freq_of d else zero in
  if on_ev_ d
  then [OnEvent {| level := severity (pk_ d); peak_g := pk_ d; sta_lta := r;
                   freq_hz := f; time_ms := t0_ d; duration := dur_ d |}]
  else [].

(** [emit_dbg]: one call of [on_dbg_], if set. *)
Definition emit_dbg (d : Detector) (rm fm s l r bv at_ : F) (ts : N) : list Call :=
  if on_dbg_ d
  then [OnDebug {| raw_mag := rm; filt_mag := fm; sta := s; lta := l; ratio := r;
                   baseline_var := bv; adaptive_trigger := at_;
                   state := State_code (st_ d); reject := lr_ d; ts_ := ts |}]
  else [].

(** *** [process_sample] *)

(** Gravity compensation, band-pass, polish high-pass, magnitude and
    the four pushes: the part of [process_sample] between the cooldown
    gate and the LTA gate.  [i_ax], [i_ay], [i_az] are the filtered
    axes and [i_mag] their norm. *)
Record Ingested := mkIngested {
  i_det : Detector; i_ax : F; i_ay : F; i_az : F; i_mag : F;
}.

Definition ingest (d : Detector) (ax_r ay_r az_r : F) : Ingested :=
  let g := grav_update (grav_ d) ax_r ay_r az_r in
  let lx := linX g ax_r in
  let ly := linY g ay_r in
  let lz := linZ g az_r in
  let bx := bp_process (bpx_ d) lx in
  let by_ := bp_process (bpy_ d) ly in
  let bz := bp_process (bpz_ d) lz in
  let hx := hp_process (hx_ d) bx.1 (hp_alpha (cfg_ d)) in
  let hy := hp_process (hy_ d) by_.1 (hp_alpha (cfg_ d)) in
  let hz := hp_process (hz_ d) bz.1 (hp_alpha (cfg_ d)) in
  let ax := hx.1 in
  let ay := hy.1 in
  let az := hz.1 in
  let mag := sqrt (ax * ax + ay * ay + az * az) in
  let d := set_grav_ g d in
  let d := set_bpz_ bz.2 (set_bpy_ by_.2 (set_bpx_ bx.2 d)) in
  let d := set_hz_ hz.2 (set_hy_ hy.2 (set_hx_ hx.2 d)) in
  let d := set_per_ (push mag (per_ d)) (set_cal_ (push mag (cal_ d))
             (set_lta_ (push mag (lta_ d)) (set_sta_ (push mag (sta_ d)) d))) in
  {| i_det := d; i_ax := ax; i_ay := ay; i_az := az; i_mag := mag |}.

(** The dynamic threshold [at] of a detector whose rings hold the
    current sample. *)
Definition dyn_threshold (d : Detector) : F :=
  clamp (sta_lta_trigger (cfg_ d) + sqrt (var (cal_ d)) * lit 100 1)
        (adaptive_trig_min (cfg_ d)) (adaptive_trig_max (cfg_ d)).

(** [case S::IDLE] with [r >= at]: enter CONFIRM. *)
Definition enter_confirm (d : Detector) (ax ay az mag : F) (ts : N) : Detector :=
  let d := set_st_ CONFIRM d in
  let d := set_sc_ 1 d in
  let d := set_pk_ mag d in
  let d := set_t0_ ts d in
  let d := set_zc_ 0 d in
  let d := set_ps_ (ax >=? zero) d in
  let d := set_ap_ {| e0 := fabs ax; e1 := fabs ay; e2 := fabs az |} d in
  set_ae_ {| e0 := ax * ax; e1 := ay * ay; e2 := az * az |} d.

(** [case S::CONFIRM] with [r >= at]: the accumulator updates that
    precede the [min_sustained] test. *)
Definition confirm_accumulate (d : Detector) (ax ay az mag : F) : Detector :=
  let d := set_sc_ (wrap32 (sc_ d + 1)) d in
  let d := set_pk_ (fmax (pk_ d) mag) d in
  let d := set_ap_ {| e0 := fmax (e0 (ap_ d)) (fabs ax);
                      e1 := fmax (e1 (ap_ d)) (fabs ay);
                      e2 := fmax (e2 (ap_ d)) (fabs az) |} d in
  let d := set_ae_ {| e0 := e0 (ae_ d) + ax * ax;
                      e1 := e1 (ae_ d) + ay * ay;
                      e2 := e2 (ae_ d) + az * az |} d in
  let sg := ax >=? zero in
  let d := if negb (eqb sg (ps_ d)) then set_zc_ (wrap32 (zc_ d + 1)) d else d in
  set_ps_ sg d.

(** The [switch (st_)]. *)
Definition state_machine (d : Detector) (ax ay az mag r at_ : F) (ts : N)
  : Detector * list Call :=
  match st_ d with
  | IDLE =>
      if r >=? at_ then (enter_confirm d ax ay az mag ts, []) else (d, [])
  | CONFIRM =>
      if r >=? at_ then
        let d := confirm_accumulate d ax ay az mag in
        if (min_sustained (cfg_ d) <=? sc_ d)%N then
          let rc := check_reject d in
          if negb (RejectCode_eqb rc RC_NONE)
          then (set_cd_ (cooldown (cfg_ d)) (set_st_ IDLE (set_lr_ rc d)), [Checked rc])
          else
            let d := set_dur_ (sc_ d) (set_st_ TRIGGERED d) in
            (d, Checked rc :: fire d ts r)
        else (d, [])
      else (set_st_ IDLE d, [])
  | TRIGGERED =>
      let d := set_pk_ (fmax (pk_ d) mag) (set_dur_ (wrap32 (dur_ d + 1)) d) in
      if r <? sta_lta_detrigger (cfg_ d)
      then (reset_st d, fire d ts r)
      else (d, [])
  end.

Definition process_sample (d : Detector) (ax_r ay_r az_r : F) (ts : N)
  : Detector * list Call :=
  let d := set_total_ (wrap64 (total_ d + 1)) d in
  if (0 <? cd_ d)%N then (set_cd_ (cd_ d - 1)%N d, [])
  else
    let i := ingest d ax_r ay_r az_r in
    let d := i_det i in
    let mag := i_mag i in
    if negb (full (lta_ d)) then (d, [])
    else
      let s := avg (sta_ d) in
      let l := avg (lta_ d) in
      let bv := var (cal_ d) in
      let at_ := dyn_threshold d in
      if l <? min_amplitude_g (cfg_ d) then
        (d, if (total_ d mod 10 =? 0)%N
            then emit_dbg d mag mag s l zero bv at_ ts else [])
      else
        let r := s / l in
        let dbg := if (total_ d mod 10 =? 0)%N
                   then emit_dbg d mag mag s l r bv at_ ts else [] in
        let res := state_machine d (i_ax i) (i_ay i) (i_az i) mag r at_ ts in
        (res.1, dbg ++ res.2).

(** *** Streams of samples *)

Record Sample := mkSample { s_ax : F; s_ay : F; s_az : F; s_ts : N }.

Definition step (d : Detector) (x : Sample) : Detector * list Call :=
  process_sample d (s_ax x) (s_ay x) (s_az x) (s_ts x).

(** Feed the samples in order; the calls are in order of invocation. *)
Fixpoint run (d : Detector) (xs : list Sample) : Detector * list Call :=
  match xs with
  | [] => (d, [])
  | x :: xs =>
      let r1 := step d x in
      let r2 := run r1.1 xs in
      (r2.1, r1.2 ++ r2.2)
  end.

End Detector.

Arguments Config F : clear implicits.
Arguments SeismicEvent F : clear implicits.
Arguments DebugTelemetry F : clear implicits.
Arguments Call F : clear implicits.
Arguments HighPassState F : clear implicits.
Arguments Biquad F : clear implicits.
Arguments BandPassFilter F : clear implicits.
Arguments GravityEstimator F : clear implicits.
Arguments Arr3 F : clear implicits.
Arguments Detector F : clear implicits.
Arguments Ingested F : clear implicits.
Arguments Sample F : clear implicits.

(** * The ring contract, in exact arithmetic *)

Module RingSpec.
Import Exact.
#[local] Open Scope Qc_scope.

(** Pushing a sequence, oldest first. *)
Definition pushes {T} `{Num T} (vs : list T) (r : Ring T) : Ring T :=
  fold_left (fun r v => push v r) vs r.

(** The live window of a ring of capacity [c] after the pushes [vs]:
    the last [c] of them. *)
Definition window {T} (c : N) (vs : list T) : list T :=
  drop (length vs - N.to_nat c) vs.

(** The naive O(n) formulas. *)
Definition total (w : list Qc) : Qc := foldr Qcplus 0 w.
Definition total_sq (w : list Qc) : Qc := foldr (fun x acc => x * x + acc) 0 w.
Definition count (w : list Qc) : Qc := of_N (N.of_nat (length w)).
Definition mean (w : list Qc) : Qc := total w / count w.
Definition mean_sq (w : list Qc) : Qc := total_sq w / count w.

(** A ring that holds exactly the window of [vs]. *)
Record holds (MAX_N : N) (r : Ring Qc) (vs : list Qc) : Prop := {
  holds_cap : (0 < cap_ r <= MAX_N)%N;
  holds_len : length (b_ r) = N.to_nat MAX_N;
  holds_n : n_ r = N.of_nat (length (window (cap_ r) vs));
  holds_h : h_ r = (N.of_nat (length vs) mod cap_ r)%N;
  holds_b : forall j : nat,
    (length vs - N.to_nat (cap_ r) <= j < length vs)%nat ->
    b_ r !! (j mod N.to_nat (cap_ r))%nat = vs !! j;
  holds_s : s_ r = total (window (cap_ r) vs);
  holds_sq : sq_ r = total_sq (window (cap_ r) vs);
}.
End RingSpec.

(** ** Vocabulary of the statements *)

(** A ring as [reset] leaves it: no live element, write slot 0, both
    sums zero, the array filled with zeros. *)
Definition cleared {T} `{Num T} (r : Ring T) : Prop :=
  n_ r = 0 /\ h_ r = 0 /\ s_ r = zero /\ sq_ r = zero /\
  b_ r = replicate (length (b_ r)) zero.

Section Vocabulary.
Context {F : Type} `{Flt F}.

Implicit Types (d : Detector F).

(** [d'] differs from [d] at most in [total_] and [cd_]. *)
Definition frozen d d' : Prop :=
  set_cd_ 0 (set_total_ 0 d') = set_cd_ 0 (set_total_ 0 d).

(** [d'] has the configuration, callbacks and ring capacities of [d]. *)
Definition static_eq d d' : Prop :=
  cfg_ d' = cfg_ d /\ on_ev_ d' = on_ev_ d /\ on_dbg_ d' = on_dbg_ d /\
  cap_ (sta_ d') = cap_ (sta_ d) /\ cap_ (lta_ d') = cap_ (lta_ d) /\
  cap_ (cal_ d') = cap_ (cal_ d) /\ cap_ (per_ d') = cap_ (per_ d).

(** The fields the state machine never writes. *)
Definition carried d d' : Prop :=
  total_ d' = total_ d /\ grav_ d' = grav_ d /\
  (sta_ d', lta_ d', cal_ d', per_ d') = (sta_ d, lta_ d, cal_ d, per_ d) /\
  cfg_ d' = cfg_ d /\ on_ev_ d' = on_ev_ d /\ on_dbg_ d' = on_dbg_ d.

(** The detectors a client can hold: built by the constructor and
    driven through the public member functions. *)
Inductive reachable : Detector F -> Prop :=
| reach_new on_ev on_dbg : reachable (new on_ev on_dbg)
| reach_update_config c d : reachable d -> reachable (update_config c d)
| reach_process_sample d ax ay az ts :
    reachable d -> reachable (process_sample d ax ay az ts).1
| reach_reset d : reachable d -> reachable (reset d).

(** The capacity [set_cap] binds for a requested window [c]. *)
Definition bound_cap (MAX_N c : N) : N :=
  if (0 <? c)%N && (c <=? MAX_N)%N then c else MAX_N.

(** A call of [check_reject] that returned a reject code. *)
Definition is_rejection (c : Call F) : bool :=
  match c with
  | Checked rc => negb (RejectCode_eqb rc RC_NONE)
  | _ => false
  end.

Definition is_triggered (s : State) : bool :=
  match s with TRIGGERED => true | _ => false end.
Definition is_confirm (s : State) : bool :=
  match s with CONFIRM => true | _ => false end.

(** The detector on which the state machine runs for a sample that is
    not dropped by the cooldown gate: counted, filtered and pushed. *)
Definition ingested d (ax_r ay_r az_r : F) : Ingested F :=
  ingest (set_total_ (wrap64 (total_ d + 1)) d) ax_r ay_r az_r.

(** The STA/LTA ratio [r] of a detector whose rings hold the sample. *)
Definition sta_lta_ratio d : F := (avg (sta_ d) / avg (lta_ d))%num.

(** The sample reaches the [switch]: no cooldown, LTA ring full, LTA
    average not below [min_amplitude_g]. *)
Definition reaches_switch d (ax_r ay_r az_r : F) : bool :=
  let d1 := i_det (ingested d ax_r ay_r az_r) in
  (cd_ d =? 0)%N && full (lta_ d1)
  && negb (avg (lta_ d1) <? min_amplitude_g (cfg_ d1))%num.

(** The accumulators [check_reject] reads at a CONFIRM sample. *)
Definition confirmed d (ax_r ay_r az_r : F) : Detector F :=
  let i := ingested d ax_r ay_r az_r in
  confirm_accumulate (i_det i) (i_ax i) (i_ay i) (i_az i) (i_mag i).

(** The CONFIRM->TRIGGERED candidate: a CONFIRM sample that reaches
    the [switch] with the ratio at or above the dynamic threshold and
    whose sustained count reaches [min_sustained]. *)
Definition candidate d (ax_r ay_r az_r : F) : bool :=
  let d1 := i_det (ingested d ax_r ay_r az_r) in
  reaches_switch d ax_r ay_r az_r
  && is_confirm (st_ d)
  && (sta_lta_ratio d1 >=? dyn_threshold d1)%num
  && (min_sustained (cfg_ d) <=? sc_ (confirmed d ax_r ay_r az_r))%N.

(** The cascade as the specification words it: four checks in a fixed
    order, the first failing one reported. *)
Definition cascade : list ((Detector F -> bool) * RejectCode) :=
  [ (axis_fails, AXIS_COHERENCE);
    (freq_fails, FREQUENCY);
    (periodicity_fails, PERIODICITY);
    (energy_fails, ENERGY_DIST) ].

Definition first_failing d : RejectCode :=
  match find (fun c => c.1 d) cascade with
  | Some c => c.2
  | None => RC_NONE
  end.
End Vocabulary.

(** ** Sample streams in binary32 *)

Module Scenario.
Import B32.

Definition D := Detector B32.t.

(** A phone at rest, face up: [(0, 0, -1)] g, one sample per 20 ms. *)
Definition rest_sample (k : nat) : Sample B32.t :=
  mkSample (lit 0 1) (lit 0 1) (lit (-1) 1) (N.of_nat k * 20).

(** One period of a 5 Hz sine sampled at 50 Hz, times 1000. *)
Definition wave : list Z := [0; 588; 951; 951; 588; 0; -588; -951; -951; -588]%Z.
Definition wave_at (k : nat) : Z := nth (k mod 10) wave 0%Z.

(** Sample [k] of a 5 Hz vibration of [a] milli-g on each axis (the
    axes three samples apart in phase), on top of gravity. *)
Definition vib_sample (a : Z) (k : nat) : Sample B32.t :=
  mkSample (lit (a * wave_at k) 1000000)
           (lit (a * wave_at (k + 3)) 1000000)
           (lit (-1000000 + a * wave_at (k + 6)) 1000000)
           (N.of_nat k * 20).

(** Ten seconds of 30 milli-g background, a 0.6 s burst of 3 g, then
    background again. *)
Definition quake_sample (k : nat) : Sample B32.t :=
  if (k <=? 500)%nat then vib_sample 30 k
  else if (k <=? 530)%nat then vib_sample 3000 k
  else vib_sample 30 k.

(** Samples [from], [from + 1], ..., [n] of them. *)
Definition rest (from n : nat) : list (Sample B32.t) := map rest_sample (seq from n).
Definition quake (from n : nat) : list (Sample B32.t) := map quake_sample (seq from n).

(** Background, then a 0.1 s knock of 2 g, then background. *)
Definition knock_sample (k : nat) : Sample B32.t :=
  if (k <=? 500)%nat then vib_sample 30 k
  else if (k <=? 505)%nat then vib_sample 2000 k
  else vib_sample 30 k.
Definition knock (from n : nat) : list (Sample B32.t) := map knock_sample (seq from n).

(** Background, a 0.8 s swell of 0.3 g, then 3 g. *)
Definition swell_sample (k : nat) : Sample B32.t :=
  if (k <=? 500)%nat then vib_sample 30 k
  else if (k <=? 540)%nat then vib_sample 300 k
  else vib_sample 3000 k.
Definition swell (from n : nat) : list (Sample B32.t) := map swell_sample (seq from n).

(** The default configuration with another periodicity threshold. *)
Definition with_periodicity_thresh (th : B32.t) : Config B32.t :=
  {| sample_rate_hz := sample_rate_hz default_config;
     hp_alpha := hp_alpha default_config;
     sta_window := sta_window default_config;
     lta_window := lta_window default_config;
     sta_lta_trigger := sta_lta_trigger default_config;
     sta_lta_detrigger := sta_lta_detrigger default_config;
     min_amplitude_g := min_amplitude_g default_config;
     min_sustained := min_sustained default_config;
     axis_coherence_min := axis_coherence_min default_config;
     cooldown := cooldown default_config;
     pwave_freq_min := pwave_freq_min default_config;
     pwave_freq_max := pwave_freq_max default_config;
     calib_window := calib_window default_config;
     adaptive_trig_min := adaptive_trig_min default_config;
     adaptive_trig_max := adaptive_trig_max default_config;
     periodicity_thresh := th |}.

(** 10654641 * 2^-27, about 0.0794: the autocorrelation peak of the
    periodicity ring at sample 557 of [swell]. *)
Definition swell_peak : B32.t := S754_finite false 10654641 (-27).

(** [norm x] is the magnitude of the raw sample, before any filter. *)
Definition raw_norm (x : Sample B32.t) : B32.t :=
  sqrt (s_ax x * s_ax x + s_ay x * s_ay x + s_az x * s_az x)%num.
End Scenario.

(** ** More vocabulary: the ring as a window, the bridge *)

(** A ring whose indices describe the pushes [vs]: capacity within the
    array, [n_] the size of the live window, [h_] the slot after the
    newest element, and the element pushed [j]-th in slot [j mod cap_]
    as long as it is live. *)
Record tracks {T} `{Num T} (MAX_N : N) (r : Ring T) (vs : list T) : Prop := {
  tracks_cap : (0 < cap_ r <= MAX_N)%N;
  tracks_len : length (b_ r) = N.to_nat MAX_N;
  tracks_n : n_ r = N.of_nat (length (RingSpec.window (cap_ r) vs));
  tracks_h : h_ r = (N.of_nat (length vs) mod cap_ r)%N;
  tracks_b : forall j : nat,
    (length vs - N.to_nat (cap_ r) <= j < length vs)%nat ->
    b_ r !! (j mod N.to_nat (cap_ r))%nat = vs !! j;
}.

(** [enum class AlertLevel : uint8_t { NONE=0, TREMOR=1, MODERATE=2,
    SEVERE=3, CRITICAL=4 }]: the value of a level. *)
Definition AlertLevel_code (l : AlertLevel) : N :=
  match l with LVL_NONE => 0 | TREMOR => 1 | MODERATE => 2 | SEVERE => 3 | CRITICAL => 4 end.

(** The indices of a ring stay inside its array. *)
Definition in_bounds {T} `{Num T} (MAX_N : N) (r : Ring T) : Prop :=
  length (b_ r) = N.to_nat MAX_N /\
  (0 < cap_ r <= MAX_N)%N /\ (h_ r < cap_ r)%N /\ (n_ r <= cap_ r)%N.

Section Soundness.
Context {F : Type} `{Flt F}.

(** The five coefficients of a biquad section, and those of the two
    sections of a band-pass filter. *)
Definition coeffs (q : Biquad F) : F * F * F * F * F :=
  (b0 q, b1 q, b2 q, a1 q, a2 q).
Definition bp_coeffs (f : BandPassFilter F) :=
  (coeffs (hp f), coeffs (lp f)).

(** What the public member functions keep true of a detector: the
    filter coefficients are the hard-coded ones, the four rings stay
    inside their arrays with the capacities bound from the
    configuration, and a cooldown is only ever pending in IDLE. *)
Record sound (d : Detector F) : Prop := {
  sound_bpx : bp_coeffs (bpx_ d) = bp_coeffs bp_new;
  sound_bpy : bp_coeffs (bpy_ d) = bp_coeffs bp_new;
  sound_bpz : bp_coeffs (bpz_ d) = bp_coeffs bp_new;
  sound_sta : in_bounds STA_MAX (sta_ d);
  sound_lta : in_bounds LTA_MAX (lta_ d);
  sound_cal : in_bounds CAL_MAX (cal_ d);
  sound_per : in_bounds PER_MAX (per_ d);
  sound_cd : (0 < cd_ d)%N -> st_ d = IDLE;
}.

(** The state machine leaves the filters alone. *)
Definition same_filters (d d' : Detector F) : Prop :=
  (bpx_ d', bpy_ d', bpz_ d') = (bpx_ d, bpy_ d, bpz_ d) /\
  (hx_ d', hy_ d', hz_ d') = (hx_ d, hy_ d, hz_ d).

(** The two transitions on which an event is emitted: the trigger edge
    and the de-trigger edge. *)
Definition edge (s s' : State) : bool :=
  match s, s' with
  | CONFIRM, TRIGGERED | TRIGGERED, IDLE => true
  | _, _ => false
  end.

(** The transitions one sample can make. *)
Definition legal (s s' : State) : bool :=
  match s, s' with
  | IDLE, TRIGGERED | TRIGGERED, CONFIRM => false
  | _, _ => true
  end.

(** The detector [reset] produces from a configuration and the two
    callbacks alone. *)
Definition pristine (c : Config F) (on_ev on_dbg : bool) : Detector F :=
  reset (update_config c (new on_ev on_dbg)).

(** A configuration with another sample rate. *)
Definition with_sample_rate (hz : F) (c : Config F) : Config F :=
  {| sample_rate_hz := hz;
     hp_alpha := hp_alpha c;
     sta_window := sta_window c;
     lta_window := lta_window c;
     sta_lta_trigger := sta_lta_trigger c;
     sta_lta_detrigger := sta_lta_detrigger c;
     min_amplitude_g := min_amplitude_g c;
     min_sustained := min_sustained c;
     axis_coherence_min := axis_coherence_min c;
     cooldown := cooldown c;
     pwave_freq_min := pwave_freq_min c;
     pwave_freq_max := pwave_freq_max c;
     calib_window := calib_window c;
     adaptive_trig_min := adaptive_trig_min c;
     adaptive_trig_max := adaptive_trig_max c;
     periodicity_thresh := periodicity_thresh c |}.
End Soundness.

(** ** The JNI bridge

    The [extern "C"] functions at the end of [seismic_detector.hpp].  The
    file-scope [g_det] is the state; the JVM handles only carry the
    callbacks to the Java object and are not modelled: a call of one of
    the two lambdas given to the constructor is a call in the list, as
    for the detector. *)

Section Bridge.
Context {F : Type} `{Flt F}.

(** [std::unique_ptr<SeismicDetector> g_det] *)
Definition Bridge := option (Detector F).

(** [uint64_t(ts)] of a [jlong]. *)
Definition u64_of_jlong (ts : Z) : N := Z.to_N (ts mod 2 ^ 64).

(** [nativeInit]: a new detector with both callbacks set. *)
Definition nativeInit (b : Bridge) : Bridge := Some (new true true).

(** [nativeProcessSample]: [if(g_det) g_det->process_sample(...)]. *)
Definition nativeProcessSample (b : Bridge) (ax ay az : F) (ts : Z)
  : Bridge * list (Call F) :=
  match b with
  | Some d =>
      let p := process_sample d ax ay az (u64_of_jlong ts) in
      (Some p.1, p.2)
  | None => (None, [])
  end.

(** [nativeReset]: [if(g_det) g_det->reset()]. *)
Definition nativeReset (b : Bridge) : Bridge :=
  match b with Some d => Some (reset d) | None => None end.

(** [nativeDestroy]: [g_det.reset()]. *)
Definition nativeDestroy (b : Bridge) : Bridge := None.

(** [auto c = g_det->config(); c.sta_lta_trigger = trig;] *)
Definition with_trigger (trig : F) (c : Config F) : Config F :=
  {| sample_rate_hz := sample_rate_hz c;
     hp_alpha := hp_alpha c;
     sta_window := sta_window c;
     lta_window := lta_window c;
     sta_lta_trigger := trig;
     sta_lta_detrigger := sta_lta_detrigger c;
     min_amplitude_g := min_amplitude_g c;
     min_sustained := min_sustained c;
     axis_coherence_min := axis_coherence_min c;
     cooldown := cooldown c;
     pwave_freq_min := pwave_freq_min c;
     pwave_freq_max := pwave_freq_max c;
     calib_window := calib_window c;
     adaptive_trig_min := adaptive_trig_min c;
     adaptive_trig_max := adaptive_trig_max c;
     periodicity_thresh := periodicity_thresh c |}.

(** [nativeSetTrigger]: copy the configuration, set the trigger,
    [update_config]. *)
Definition nativeSetTrigger (b : Bridge) (trig : F) : Bridge :=
  match b with
  | Some d => Some (update_config (with_trigger trig (config d)) d)
  | None => None
  end.

(** The arguments of one [nativeProcessSample]. *)
Record JSample := mkJSample { j_ax : F; j_ay : F; j_az : F; j_ts : Z }.

Fixpoint native_run (b : Bridge) (xs : list JSample) : Bridge * list (Call F) :=
  match xs with
  | [] => (b, [])
  | x :: xs =>
      let r1 := nativeProcessSample b (j_ax x) (j_ay x) (j_az x) (j_ts x) in
      let r2 := native_run r1.1 xs in
      (r2.1, r1.2 ++ r2.2)
  end.

Definition sample_of (x : JSample) : Sample F :=
  mkSample (j_ax x) (j_ay x) (j_az x) (u64_of_jlong (j_ts x)).
End Bridge.

Arguments Bridge F : clear implicits.
Arguments JSample F : clear implicits.

(** ** Signs in binary32 *)

Module Sign.
(** Zero of either sign, a positive finite number or [+inf]: not NaN
    and not negative. *)
Definition is_nonneg (x : B32.t) : bool :=
  match x with
  | S754_zero _ => true
  | S754_infinity s | S754_finite s _ _ => negb s
  | S754_nan => false
  end.

Definition is_nan (x : B32.t) : bool :=
  match x with S754_nan => true | _ => false end.

(** A finite number other than [-0]. *)
Definition is_settled (x : B32.t) : bool :=
  match x with
  | S754_zero s => negb s
  | S754_finite _ _ _ => true
  | _ => false
  end.
End Sign.

(** ** A detector at rest, in binary32 *)

Module Rest.
Import B32.

(** A ring that holds only zeros. *)
Definition silent (r : Ring B32.t) : Prop :=
  b_ r = replicate (length (b_ r)) zero /\ s_ r = zero /\ sq_ r = zero.

(** A detector with the default configuration whose gravity estimate
    and filters are in their initial state, whose rings hold only
    zeros, and whose state machine is IDLE. *)
Record resting (d : Detector B32.t) : Prop := {
  rest_cfg : cfg_ d = default_config;
  rest_grav : grav_ d = grav_new;
  rest_bp : (bpx_ d, bpy_ d, bpz_ d) = (bp_new, bp_new, bp_new);
  rest_hp : (hx_ d, hy_ d, hz_ d) = (hp_new, hp_new, hp_new);
  rest_sta : silent (sta_ d);
  rest_lta : silent (lta_ d);
  rest_cal : silent (cal_ d);
  rest_per : silent (per_ d);
  rest_cap : cap_ (lta_ d) = 500%N;
  rest_st : st_ d = IDLE;
}.

(** A telemetry record that reports zero magnitudes, a zero LTA and a
    zero ratio; an event or a call of the cascade is not quiet. *)
Definition quiet (c : Call B32.t) : Prop :=
  match c with
  | OnDebug t =>
      raw_mag t = zero /\ filt_mag t = zero /\ lta t = zero /\ ratio t = zero
  | _ => False
  end.
End Rest.

(** * The ring contract, in exact arithmetic *)

Module RingProofs.
Import Exact RingSpec.
#[local] Open Scope Qc_scope.

Lemma pushes_snoc {T} `{Num T} (vs : list T) (v : T) (r : Ring T) :
  pushes (vs ++ [v]) r = push v (pushes vs r).
Proof. unfold pushes. now rewrite fold_left_app. Qed.

Lemma cap_push {T} `{Num T} (v : T) (r : Ring T) : cap_ (push v r) = cap_ r.
Proof. reflexivity. Qed.

Lemma cap_pushes {T} `{Num T} (vs : list T) (r : Ring T) :
  cap_ (pushes vs r) = cap_ r.
Proof.
  revert r. induction vs as [|v vs IH]; intros r; [reflexivity|].
  change (cap_ (pushes vs (push v r)) = cap_ r). now rewrite IH.
Qed.

Lemma window_length {T} (c : N) (vs : list T) :
  length (window c vs) = Nat.min (length vs) (N.to_nat c).
Proof. unfold window. rewrite length_drop. lia. Qed.

Lemma window_short {T} (c : N) (vs : list T) :
  (length vs <= N.to_nat c)%nat -> window c vs = vs.
Proof.
  intros Hle. unfold window.
  replace (length vs - N.to_nat c)%nat with 0%nat by lia. reflexivity.
Qed.

Lemma total_snoc w v : total (w ++ [v]) = total w + v.
Proof.
  unfold total. induction w as [|x w IH]; cbn; [ring|]. rewrite IH. ring.
Qed.

Lemma total_sq_snoc w v : total_sq (w ++ [v]) = total_sq w + v * v.
Proof.
  unfold total_sq. induction w as [|x w IH]; cbn; [ring|]. rewrite IH. ring.
Qed.

(** When the ring is full, the window loses its head and gains [v]. *)
Lemma window_full_snoc (c : N) (vs : list Qc) (v : Qc) :
  (0 < N.to_nat c <= length vs)%nat ->
  exists o w,
    vs !! (length vs - N.to_nat c)%nat = Some o /\
    window c vs = o :: w /\ window c (vs ++ [v]) = w ++ [v].
Proof.
  intros Hc. unfold window.
  destruct (vs !! (length vs - N.to_nat c)%nat) as [o|] eqn:Ho.
  2: { apply lookup_ge_None in Ho. lia. }
  exists o, (drop (S (length vs - N.to_nat c)) vs). split; [reflexivity|].
  split.
  - now apply drop_S.
  - rewrite length_app. cbn.
    replace (length vs + 1 - N.to_nat c)%nat
      with (S (length vs - N.to_nat c)) by lia.
    rewrite drop_app_le by lia. reflexivity.
Qed.

Lemma mod_slot_ne (c j l : nat) :
  (j < l)%nat -> (l - j < c)%nat -> (j mod c)%nat <> (l mod c)%nat.
Proof.
  intros Hjl Hc Heq.
  pose proof (Nat.div_mod_eq j c) as Hj.
  pose proof (Nat.div_mod_eq l c) as Hl.
  rewrite Heq in Hj.
  set (q1 := (j / c)%nat) in *. set (q2 := (l / c)%nat) in *.
  set (m := (l mod c)%nat) in *.
  destruct (Nat.lt_ge_cases q1 q2) as [Hq|Hq].
  - assert (c * (q1 + 1) <= c * q2)%nat by (apply Nat.mul_le_mono_l; lia). lia.
  - assert (c * q2 <= c * q1)%nat by (apply Nat.mul_le_mono_l; lia). lia.
Qed.

Lemma holds_init (MAX_N c : N) (r0 : Ring Qc) :
  (0 < MAX_N)%N -> length (b_ r0) = N.to_nat MAX_N ->
  holds MAX_N (set_cap MAX_N c r0) [].
Proof.
  intros Hmax Hlen.
  assert (Hcap : (0 < cap_ (set_cap MAX_N c r0) <= MAX_N)%N).
  { cbn. destruct (0 <? c)%N eqn:H0; destruct (c <=? MAX_N)%N eqn:H1; cbn;
      try apply N.ltb_lt in H0; try apply N.leb_le in H1; lia. }
  split; try assumption.
  - cbn. now rewrite length_replicate.
  - reflexivity.
  - cbn [h_ set_cap ring_reset length]. rewrite N.Div0.mod_0_l; reflexivity.
  - intros j Hj. cbn in Hj. lia.
  - reflexivity.
  - reflexivity.
Qed.

Lemma holds_push (MAX_N : N) (r : Ring Qc) (vs : list Qc) (v : Qc) :
  (MAX_N < 2 ^ 32)%N -> holds MAX_N r vs -> holds MAX_N (push v r) (vs ++ [v]).
Proof.
  intros Hmax [Hcap Hlen Hn Hh Hb Hs Hsq].
  set (c := cap_ r) in *.
  assert (Hc : (0 < N.to_nat c)%nat) by lia.
  assert (Hn' : n_ r = N.of_nat (Nat.min (length vs) (N.to_nat c))).
  { now rewrite Hn, window_length. }
  assert (Hhn : N.to_nat (h_ r) = (length vs mod N.to_nat c)%nat).
  { rewrite Hh. rewrite N2Nat.inj_mod, Nat2N.id. reflexivity. }
  split; rewrite ?cap_push; fold c; try assumption.
  - cbn. now rewrite length_insert.
  - rewrite window_length, length_app. cbn [length push n_].
    rewrite Hn'. fold c. unfold wrap32.
    destruct (N.eqb_spec (N.of_nat (Nat.min (length vs) (N.to_nat c))) c) as [E|E].
    + lia.
    + rewrite N.mod_small by lia. lia.
  - cbn [push h_]. fold c. rewrite Hh. fold c. unfold wrap32.
    rewrite length_app. cbn [length].
    assert (Hlt : (N.of_nat (length vs) mod c < c)%N) by (apply N.mod_lt; lia).
    rewrite (N.mod_small (_ + 1)) by lia.
    rewrite Nat2N.inj_add. cbn [N.of_nat Pos.of_succ_nat].
    rewrite N.Div0.add_mod_idemp_l. reflexivity.
  - intros j Hj. rewrite length_app in Hj. cbn [length] in Hj.
    cbn [push b_]. rewrite Hhn.
    destruct (decide (j = length vs)) as [->|Hne].
    + rewrite list_lookup_insert_eq.
      * now rewrite lookup_app_r, Nat.sub_diag by lia.
      * rewrite Hlen. pose proof (Nat.mod_upper_bound (length vs) (N.to_nat c)). lia.
    + rewrite list_lookup_insert_ne.
      * rewrite lookup_app_l by lia. apply Hb. lia.
      * intros E. symmetry in E. revert E. apply mod_slot_ne; lia.
  - cbn [push s_]. fold c. rewrite Hn'.
    destruct (N.eqb_spec (N.of_nat (Nat.min (length vs) (N.to_nat c))) c) as [E|E].
    + destruct (window_full_snoc c vs v) as (o & w & Ho & Hw & Hw'); [lia|].
      rewrite Hw', total_snoc, Hs, Hw.
      assert (Hold : rd (b_ r) (h_ r) = o).
      { unfold rd. rewrite Hhn.
        replace (length vs mod N.to_nat c)%nat
          with ((length vs - N.to_nat c) mod N.to_nat c)%nat.
        - rewrite Hb by lia. now rewrite Ho.
        - replace (length vs) with ((length vs - N.to_nat c) + 1 * N.to_nat c)%nat at 2 by lia.
          now rewrite Nat.Div0.mod_add. }
      rewrite Hold. cbn. unfold total; cbn. ring.
    + rewrite (window_short c (vs ++ [v])) by (rewrite length_app; cbn; lia).
      rewrite total_snoc, Hs, (window_short c vs) by lia. reflexivity.
  - cbn [push sq_]. fold c. rewrite Hn'.
    destruct (N.eqb_spec (N.of_nat (Nat.min (length vs) (N.to_nat c))) c) as [E|E].
    + destruct (window_full_snoc c vs v) as (o & w & Ho & Hw & Hw'); [lia|].
      rewrite Hw', total_sq_snoc, Hsq, Hw.
      assert (Hold : rd (b_ r) (h_ r) = o).
      { unfold rd. rewrite Hhn.
        replace (length vs mod N.to_nat c)%nat
          with ((length vs - N.to_nat c) mod N.to_nat c)%nat.
        - rewrite Hb by lia. now rewrite Ho.
        - replace (length vs) with ((length vs - N.to_nat c) + 1 * N.to_nat c)%nat at 2 by lia.
          now rewrite Nat.Div0.mod_add. }
      rewrite Hold. cbn. unfold total_sq; cbn. ring.
    + rewrite (window_short c (vs ++ [v])) by (rewrite length_app; cbn; lia).
      rewrite total_sq_snoc, Hsq, (window_short c vs) by lia. reflexivity.
Qed.

Lemma holds_pushes (MAX_N c : N) (r0 : Ring Qc) (vs : list Qc) :
  (0 < MAX_N < 2 ^ 32)%N -> length (b_ r0) = N.to_nat MAX_N ->
  holds MAX_N (pushes vs (set_cap MAX_N c r0)) vs.
Proof.
  intros Hmax Hlen. induction vs as [|v vs IH] using rev_ind.
  - apply holds_init; [lia | assumption].
  - rewrite pushes_snoc. apply holds_push; [lia | assumption].
Qed.

Lemma holds_oldest (MAX_N : N) (r : Ring Qc) (vs : list Qc) :
  holds MAX_N r vs -> n_ r = cap_ r ->
  head (window (cap_ r) vs) = Some (rd (b_ r) (h_ r)).
Proof.
  intros [Hcap Hlen Hn Hh Hb Hs Hsq] Hfull.
  rewrite window_length in Hn.
  assert (Hhn : N.to_nat (h_ r) = (length vs mod N.to_nat (cap_ r))%nat).
  { rewrite Hh, N2Nat.inj_mod, Nat2N.id. reflexivity. }
  unfold window. rewrite head_lookup, lookup_drop, Nat.add_0_r.
  unfold rd. rewrite Hhn.
  replace (length vs mod N.to_nat (cap_ r))%nat
    with ((length vs - N.to_nat (cap_ r)) mod N.to_nat (cap_ r))%nat.
  - rewrite Hb by lia.
    destruct (vs !! (length vs - N.to_nat (cap_ r))%nat) eqn:E; [reflexivity|].
    apply lookup_ge_None in E. lia.
  - replace (length vs)
      with ((length vs - N.to_nat (cap_ r)) + 1 * N.to_nat (cap_ r))%nat at 2 by lia.
    now rewrite Nat.Div0.mod_add.
Qed.

Lemma at_oldest (MAX_N : N) (r : Ring Qc) (vs : list Qc) :
  (MAX_N < 2 ^ 32)%N -> holds MAX_N r vs -> n_ r = cap_ r ->
  at_ r 0 = rd (b_ r) (h_ r).
Proof.
  intros Hmax [Hcap Hlen Hn Hh Hb Hs Hsq] Hfull. unfold at_.
  destruct (N.ltb_spec 0 (n_ r)) as [_|Hz]; [|lia].
  rewrite Hfull. unfold wrap32.
  assert (Hlt : (h_ r < cap_ r)%N) by (rewrite Hh; apply N.mod_lt; lia).
  replace (h_ r + cap_ r + 2 ^ 32 - cap_ r + 0)%N with (h_ r + 1 * 2 ^ 32)%N by lia.
  rewrite N.Div0.mod_add, (N.mod_small (h_ r) (2 ^ 32)) by lia.
  now rewrite N.mod_small.
Qed.

(** C8.  In exact arithmetic, after any sequence of pushes into a ring
    of capacity [cap_]: a push on a full ring subtracts the evicted
    oldest element (the head of the live window, [at(0)]) from the sum
    and from the sum of squares and keeps the count; a push on a ring
    that is not full grows the count by one; the sums are those of the
    live window; [avg] is 0 on an empty ring and the mean of the window
    otherwise; [var] is [max(0, E[x^2] - E[x]^2)] over the window. *)
Theorem ring_contract_exact (MAX_N c : N) (vs : list Qc) (v : Qc) :
  (0 < MAX_N < 2 ^ 32)%N ->
  let r := pushes vs (set_cap MAX_N c (ring_new MAX_N)) in
  let w := window (cap_ r) vs in
  (full r = true ->
     head w = Some (at_ r 0) /\
     size (push v r) = size r /\
     s_ (push v r) = s_ r - at_ r 0 + v /\
     sq_ (push v r) = sq_ r - at_ r 0 * at_ r 0 + v * v) /\
  (full r = false ->
     size (push v r) = (size r + 1)%N /\
     s_ (push v r) = s_ r + v /\
     sq_ (push v r) = sq_ r + v * v) /\
  size r = N.of_nat (length w) /\
  s_ r = total w /\
  sq_ r = total_sq w /\
  avg r = match w with [] => 0 | _ => mean w end /\
  var r = fmax 0 (mean_sq w - mean w * mean w).
Proof.
  intros Hmax r w.
  assert (Hr : holds MAX_N r vs).
  { apply holds_pushes; [assumption|]. cbn. now rewrite length_replicate. }
  pose proof Hr as [Hcap Hlen Hn Hh Hb Hs Hsq].
  fold w in Hn, Hs, Hsq.
  repeat split.
  - unfold full in H. apply N.eqb_eq in H.
    rewrite (at_oldest MAX_N r vs) by (assumption || lia).
    now apply (holds_oldest MAX_N).
  - unfold size, push, full in *. cbn. now rewrite H.
  - unfold full in H. pose proof H as H'. apply N.eqb_eq in H'.
    rewrite (at_oldest MAX_N r vs) by (assumption || lia).
    unfold push. cbn. now rewrite H.
  - unfold full in H. pose proof H as H'. apply N.eqb_eq in H'.
    rewrite (at_oldest MAX_N r vs) by (assumption || lia).
    unfold push. cbn. now rewrite H.
  - unfold size, push, full in *. cbn. rewrite H.
    apply N.eqb_neq in H. unfold wrap32.
    rewrite N.mod_small; [reflexivity|].
    rewrite Hn in H |- *. unfold w in H |- *. rewrite window_length in H |- *. lia.
  - unfold push, full in *. cbn. now rewrite H.
  - unfold push, full in *. cbn. now rewrite H.
  - exact Hn.
  - exact Hs.
  - exact Hsq.
  - unfold avg. rewrite Hn, Hs.
    destruct w as [|x w']; [reflexivity|]. reflexivity.
  - unfold var, avg. rewrite Hn, Hs, Hsq. unfold fmax.
    destruct w as [|x [|y w']].
    + reflexivity.
    + cbn [length N.of_nat N.ltb N.compare Pos.of_succ_nat Pos.compare Pos.compare_cont].
      replace (mean_sq [x] - mean [x] * mean [x]) with 0; [reflexivity|].
      unfold mean_sq, mean, total_sq, total, count. cbn [foldr length].
      change (of_N (N.of_nat 1)) with 1. change (Q2Qc 0) with 0. field. discriminate.
    + assert (E2 : (N.of_nat (length (x :: y :: w')) <? 2)%N = false)
        by (apply N.ltb_ge; cbn [length]; lia).
      assert (E0 : (0 <? N.of_nat (length (x :: y :: w')))%N = true)
        by (apply N.ltb_lt; cbn [length]; lia).
      rewrite E2, E0. reflexivity.
Qed.

(** Capacity 3 in an array of 4, after pushing 1, 2, 3, 4: the window
    is 2, 3, 4. *)
Lemma ring_contract_exact_witness :
  (0 < 4 < 2 ^ 32)%N /\
  let r := pushes [Q2Qc 1; Q2Qc 2; Q2Qc 3; Q2Qc 4] (set_cap 4 3 (ring_new 4)) in
  let w := [Q2Qc 2; Q2Qc 3; Q2Qc 4] in
  size r = 3%N /\ avg r = mean w /\
  var r = fmax 0 (mean_sq w - mean w * mean w).
Proof.
  assert (H : (0 < 4 < 2 ^ 32)%N) by (split; reflexivity).
  split; [exact H|].
  destruct (ring_contract_exact 4 3 [Q2Qc 1; Q2Qc 2; Q2Qc 3; Q2Qc 4] (Q2Qc 0) H)
    as (_ & _ & Hn & _ & _ & Ha & Hv).
  exact (conj Hn (conj Ha Hv)).
Defined.
End RingProofs.

(** * The ring as a sliding window, for any element type *)

Section RingWindow.
Context {T : Type} `{Num T}.
Import RingSpec.

Lemma pushes_app (vs ws : list T) (r : Ring T) :
  pushes (vs ++ ws) r = pushes ws (pushes vs r).
Proof. unfold pushes. apply fold_left_app. Qed.

Lemma slot_distinct (c j l : nat) :
  (j < l)%nat -> (l - j < c)%nat -> (j mod c)%nat <> (l mod c)%nat.
Proof.
  intros Hjl Hc Heq.
  pose proof (Nat.div_mod_eq j c) as Hj.
  pose proof (Nat.div_mod_eq l c) as Hl.
  rewrite Heq in Hj.
  set (q1 := (j / c)%nat) in *. set (q2 := (l / c)%nat) in *.
  set (m := (l mod c)%nat) in *.
  destruct (Nat.lt_ge_cases q1 q2) as [Hq|Hq].
  - assert (c * (q1 + 1) <= c * q2)%nat by (apply Nat.mul_le_mono_l; lia). lia.
  - assert (c * q2 <= c * q1)%nat by (apply Nat.mul_le_mono_l; lia). lia.
Qed.

Lemma window_size (c : N) (vs : list T) :
  length (window c vs) = Nat.min (length vs) (N.to_nat c).
Proof. unfold window. rewrite length_drop. lia. Qed.

Lemma tracks_set_cap (MAX_N c : N) (r0 : Ring T) :
  (0 < MAX_N)%N -> length (b_ r0) = N.to_nat MAX_N ->
  tracks MAX_N (set_cap MAX_N c r0) [].
Proof.
  intros Hmax Hlen.
  assert (Hcap : (0 < cap_ (set_cap MAX_N c r0) <= MAX_N)%N).
  { cbn. destruct (N.ltb_spec 0 c); destruct (N.leb_spec c MAX_N); cbn; lia. }
  split; try assumption.
  - cbn. now rewrite length_replicate.
  - reflexivity.
  - cbn [h_ set_cap ring_reset length]. now rewrite N.Div0.mod_0_l.
  - intros j Hj. cbn in Hj. lia.
Qed.

Lemma tracks_push (MAX_N : N) (r : Ring T) (vs : list T) (v : T) :
  (MAX_N < 2 ^ 32)%N -> tracks MAX_N r vs -> tracks MAX_N (push v r) (vs ++ [v]).
Proof.
  intros Hmax [Hcap Hlen Hn Hh Hb].
  set (c := cap_ r) in *.
  assert (Hc : (0 < N.to_nat c)%nat) by lia.
  rewrite window_size in Hn.
  assert (Hhn : N.to_nat (h_ r) = (length vs mod N.to_nat c)%nat).
  { rewrite Hh, N2Nat.inj_mod, Nat2N.id. reflexivity. }
  split; change (cap_ (push v r)) with c; try assumption.
  - cbn. now rewrite length_insert.
  - rewrite window_size, length_app. cbn [length push n_].
    rewrite Hn. fold c. unfold wrap32.
    destruct (N.eqb_spec (N.of_nat (Nat.min (length vs) (N.to_nat c))) c) as [E|E].
    + lia.
    + rewrite N.mod_small by lia. lia.
  - cbn [push h_]. fold c. rewrite Hh. unfold wrap32.
    rewrite length_app. cbn [length].
    assert (Hlt : (N.of_nat (length vs) mod c < c)%N) by (apply N.mod_lt; lia).
    rewrite (N.mod_small (_ + 1)) by lia.
    rewrite Nat2N.inj_add. cbn [N.of_nat Pos.of_succ_nat].
    now rewrite N.Div0.add_mod_idemp_l.
  - intros j Hj. rewrite length_app in Hj. cbn [length] in Hj.
    cbn [push b_]. rewrite Hhn.
    destruct (decide (j = length vs)) as [->|Hne].
    + rewrite list_lookup_insert_eq.
      * now rewrite lookup_app_r, Nat.sub_diag by lia.
      * rewrite Hlen. pose proof (Nat.mod_upper_bound (length vs) (N.to_nat c)). lia.
    + rewrite list_lookup_insert_ne.
      * rewrite lookup_app_l by lia. apply Hb. lia.
      * intros E. symmetry in E. revert E. apply slot_distinct; lia.
Qed.

Lemma tracks_pushes (MAX_N : N) (r : Ring T) (vs ws : list T) :
  (MAX_N < 2 ^ 32)%N -> tracks MAX_N r vs -> tracks MAX_N (pushes ws r) (vs ++ ws).
Proof.
  intros Hmax. revert vs r. induction ws as [|w ws IH]; intros vs r Hr.
  - now rewrite app_nil_r.
  - change (pushes (w :: ws) r) with (pushes ws (push w r)).
    replace (vs ++ w :: ws) with ((vs ++ [w]) ++ ws) by now rewrite <- app_assoc.
    apply IH. now apply tracks_push.
Qed.

Lemma tracks_in_bounds (MAX_N : N) (r : Ring T) (vs : list T) :
  tracks MAX_N r vs -> in_bounds MAX_N r.
Proof.
  intros [Hcap Hlen Hn Hh Hb]. rewrite window_size in Hn.
  repeat split; try assumption; try lia.
  rewrite Hh. apply N.mod_lt. lia.
Qed.

(** [at(i)] of a ring that tracks [vs] is the [i]-th oldest live
    element. *)
Lemma tracks_at (MAX_N : N) (r : Ring T) (vs : list T) (i : N) :
  (MAX_N <= 2 ^ 31)%N -> tracks MAX_N r vs ->
  at_ r i = default zero (window (cap_ r) vs !! N.to_nat i).
Proof.
  intros Hmax [Hcap Hlen Hn Hh Hb].
  pose proof (window_size (cap_ r) vs) as Hw. rewrite Hw in Hn.
  unfold at_. set (c := cap_ r) in *.
  assert (H31 : (2 ^ 31 = 2147483648)%N) by reflexivity.
  assert (H32 : (2 ^ 32 = 4294967296)%N) by reflexivity.
  destruct (N.ltb_spec i (n_ r)) as [Hi|Hi].
  2: { rewrite lookup_ge_None_2; [reflexivity|]. rewrite Hw. lia. }
  assert (Hlt : (h_ r < c)%N) by (rewrite Hh; apply N.mod_lt; lia).
  unfold wrap32.
  replace (h_ r + c + 2 ^ 32 - n_ r + i)%N
    with ((h_ r + c - n_ r + i) + 1 * 2 ^ 32)%N by lia.
  rewrite N.Div0.mod_add, (N.mod_small _ (2 ^ 32)) by lia.
  set (n := Nat.min (length vs) (N.to_nat c)) in *.
  set (j := (length vs - n + N.to_nat i)%nat).
  assert (Hj : (length vs - N.to_nat c <= j < length vs)%nat) by (subst j; lia).
  unfold window. rewrite lookup_drop.
  replace (length vs - N.to_nat c + N.to_nat i)%nat with j by (subst j; lia).
  rewrite <- (Hb j Hj). unfold rd. f_equal. f_equal.
  rewrite N2Nat.inj_mod.
  assert (Hidx : N.to_nat (h_ r + c - n_ r + i) =
                 (length vs mod N.to_nat c + N.to_nat c - n + N.to_nat i)%nat).
  { rewrite Hh, Hn. rewrite !N2Nat.inj_add, N2Nat.inj_sub, N2Nat.inj_add,
      N2Nat.inj_mod, !Nat2N.id. reflexivity. }
  rewrite Hidx.
  pose proof (Nat.div_mod_eq (length vs) (N.to_nat c)) as Hdm.
  set (q := (length vs / N.to_nat c)%nat) in *.
  set (m := (length vs mod N.to_nat c)%nat) in *.
  assert (Hm : (m < N.to_nat c)%nat) by (apply Nat.mod_upper_bound; lia).
  clearbody q m.
  destruct (Nat.le_gt_cases (N.to_nat c) (length vs)) as [Hfull|Hpart].
  - (* full: n = c, j = length vs - c + i *)
    assert (Hq : (1 <= q)%nat).
    { destruct q; [|lia]. rewrite Nat.mul_0_r in Hdm. lia. }
    replace j with ((m + N.to_nat c - n + N.to_nat i) + (q - 1) * N.to_nat c)%nat.
    + now rewrite Nat.Div0.mod_add.
    + subst j n. rewrite Nat.min_r by lia.
      rewrite Nat.mul_sub_distr_r. nia.
  - (* not yet full: n = length vs = m, j = i *)
    assert (Hq : q = 0%nat).
    { destruct q; [reflexivity|]. nia. }
    subst q. rewrite Nat.mul_0_r in Hdm.
    replace (m + N.to_nat c - n + N.to_nat i)%nat with (j + 1 * N.to_nat c)%nat
      by (subst j n; lia).
    now rewrite Nat.Div0.mod_add.
Qed.

(** X1.  [at(i)] after any pushes into a ring emptied by [set_cap]
    (whatever it held before): the [i]-th oldest of the last [cap_]
    pushed elements, and [0] from the live count on.  The array may
    have at most 2^31 slots, else the index sum overflows. *)
Theorem ring_at_is_window (MAX_N c : N) (r0 : Ring T) (vs : list T) (i : N) :
  (0 < MAX_N <= 2 ^ 31)%N -> length (b_ r0) = N.to_nat MAX_N ->
  let r := pushes vs (set_cap MAX_N c r0) in
  at_ r i = default zero (window (cap_ r) vs !! N.to_nat i).
Proof.
  intros Hmax Hlen r.
  assert (H31 : (2 ^ 31 = 2147483648)%N) by reflexivity.
  assert (H32 : (2 ^ 32 = 4294967296)%N) by reflexivity.
  apply (tracks_at MAX_N); [lia|].
  apply (tracks_pushes MAX_N _ [] vs); [lia|].
  apply tracks_set_cap; [lia | assumption].
Qed.

(** X2.  Count, fullness and bounds after any pushes into a ring
    emptied by [set_cap]: the capacity is the requested one if it is in
    [1 .. MAX_N] and [MAX_N] otherwise, the count is the number of
    pushes capped at the capacity, the ring is full exactly from the
    [cap_]-th push on, and the write slot and the count stay inside
    the array (no access out of bounds, no modulo by zero). *)
Theorem ring_count_and_bounds (MAX_N c : N) (r0 : Ring T) (vs : list T) :
  (0 < MAX_N < 2 ^ 32)%N -> length (b_ r0) = N.to_nat MAX_N ->
  let r := pushes vs (set_cap MAX_N c r0) in
  cap_ r = bound_cap MAX_N c /\
  size r = N.min (N.of_nat (length vs)) (cap_ r) /\
  (full r = true <-> (cap_ r <= N.of_nat (length vs))%N) /\
  in_bounds MAX_N r.
Proof.
  intros Hmax Hlen r.
  assert (Hr : tracks MAX_N r vs).
  { apply (tracks_pushes MAX_N _ [] vs); [lia|].
    apply tracks_set_cap; [lia | assumption]. }
  pose proof (tracks_in_bounds _ _ _ Hr) as Hb.
  destruct Hr as [Hcap _ Hn _ _]. rewrite window_size in Hn.
  assert (Hc : cap_ r = bound_cap MAX_N c).
  { subst r. clear. induction vs as [|v vs IH] using rev_ind; [reflexivity|].
    now rewrite pushes_app. }
  split; [exact Hc|]. split; [unfold size; lia|]. split; [|exact Hb].
  unfold full. rewrite N.eqb_eq. lia.
Qed.
End RingWindow.

(** * The detector *)

Section DetectorFacts.
Context {F : Type} `{Flt F}.
#[local] Open Scope num_scope.

Implicit Types (d : Detector F) (x : Sample F) (xs : list (Sample F)).

Lemma frozen_refl d : frozen d d.
Proof. reflexivity. Qed.

Lemma frozen_trans d1 d2 d3 : frozen d1 d2 -> frozen d2 d3 -> frozen d1 d3.
Proof. unfold frozen. congruence. Qed.

Lemma frozen_set d a b : frozen d (set_cd_ a (set_total_ b d)).
Proof. destruct d; reflexivity. Qed.

(** The cooldown gate: the sample is counted and dropped. *)
Lemma process_sample_cooldown d ax ay az ts :
  (0 < cd_ d)%N ->
  process_sample d ax ay az ts =
    (set_cd_ (cd_ d - 1)%N (set_total_ (wrap64 (total_ d + 1)) d), []).
Proof.
  intros Hcd. unfold process_sample. cbn.
  destruct (N.ltb_spec 0 (cd_ d)); [reflexivity | lia].
Qed.

Lemma wrap64_succ (a b : N) : wrap64 (wrap64 (a + 1) + b) = wrap64 (a + (1 + b)).
Proof.
  unfold wrap64. rewrite N.Div0.add_mod_idemp_l. f_equal. lia.
Qed.

(** [k] samples into a cooldown of at least [k]: nothing is called,
    nothing but the two counters moves. *)
Lemma run_cooldown xs d :
  (N.of_nat (length xs) <= cd_ d)%N ->
  let r := run d xs in
  r.2 = [] /\ frozen d r.1 /\
  cd_ r.1 = (cd_ d - N.of_nat (length xs))%N /\
  total_ r.1 = match xs with
               | [] => total_ d
               | _ => wrap64 (total_ d + N.of_nat (length xs))
               end.
Proof.
  revert d. induction xs as [|x xs IH]; intros d Hlen.
  - cbn. repeat split; try reflexivity. lia.
  - cbn [length] in Hlen.
    set (d1 := set_cd_ (cd_ d - 1)%N (set_total_ (wrap64 (total_ d + 1)) d)).
    assert (Hstep : step d x = (d1, [])).
    { unfold step. now rewrite process_sample_cooldown by lia. }
    cbn [run]. cbv zeta. rewrite Hstep. cbn [fst snd app].
    destruct (IH d1) as (Hc & Hf & Hcd & Ht).
    { subst d1. cbn. lia. }
    rewrite Hc. repeat split.
    + eapply frozen_trans; [apply frozen_set | exact Hf].
    + rewrite Hcd. subst d1. cbn. lia.
    + rewrite Ht. subst d1. cbn [total_ set_cd_ set_total_].
      destruct xs as [|x' xs'].
      * cbn [length]. f_equal.
      * rewrite wrap64_succ. f_equal. cbn [length]. lia.
Qed.

(** *** What [ingest] touches *)

Lemma ingest_rings d ax ay az :
  let i := ingest d ax ay az in
  sta_ (i_det i) = push (i_mag i) (sta_ d) /\
  lta_ (i_det i) = push (i_mag i) (lta_ d) /\
  cal_ (i_det i) = push (i_mag i) (cal_ d) /\
  per_ (i_det i) = push (i_mag i) (per_ d).
Proof. repeat split. Qed.

Lemma ingest_lta d ax ay az :
  lta_ (i_det (ingest d ax ay az)) = push (i_mag (ingest d ax ay az)) (lta_ d).
Proof. reflexivity. Qed.

Lemma ingest_cal d ax ay az :
  cal_ (i_det (ingest d ax ay az)) = push (i_mag (ingest d ax ay az)) (cal_ d).
Proof. reflexivity. Qed.

Lemma ingest_machine d ax ay az :
  let d' := i_det (ingest d ax ay az) in
  cfg_ d' = cfg_ d /\ st_ d' = st_ d /\ sc_ d' = sc_ d /\ dur_ d' = dur_ d /\
  cd_ d' = cd_ d /\ zc_ d' = zc_ d /\ pk_ d' = pk_ d /\ t0_ d' = t0_ d /\
  ps_ d' = ps_ d /\ ap_ d' = ap_ d /\ ae_ d' = ae_ d /\ total_ d' = total_ d /\
  lr_ d' = lr_ d /\ on_ev_ d' = on_ev_ d /\ on_dbg_ d' = on_dbg_ d.
Proof. repeat split. Qed.

(** The LTA gate: while the LTA ring is not full the sample is
    filtered and pushed, and nothing else happens. *)
Lemma process_sample_filling d ax ay az ts :
  cd_ d = 0%N ->
  let i := ingest (set_total_ (wrap64 (total_ d + 1)) d) ax ay az in
  full (lta_ (i_det i)) = false ->
  process_sample d ax ay az ts = (i_det i, []).
Proof.
  intros Hcd i Hfull. unfold process_sample. cbv zeta.
  change (cd_ (set_total_ (wrap64 (total_ d + 1)) d)) with (cd_ d).
  rewrite Hcd. cbn [N.ltb N.compare].
  fold i. now rewrite Hfull.
Qed.

(** No path of [process_sample] touches the configuration, the
    callbacks or the capacity of a ring. *)
Lemma push_cap (v : F) (r : Ring F) : cap_ (push v r) = cap_ r.
Proof. reflexivity. Qed.

Lemma static_eq_refl d : static_eq d d.
Proof. unfold static_eq. tauto. Qed.

Lemma static_eq_trans d1 d2 d3 : static_eq d1 d2 -> static_eq d2 d3 -> static_eq d1 d3.
Proof. unfold static_eq. intuition congruence. Qed.

Lemma confirm_accumulate_static d ax ay az mag :
  static_eq d (confirm_accumulate d ax ay az mag).
Proof.
  unfold confirm_accumulate. cbv zeta.
  case_match; unfold static_eq; cbn; tauto.
Qed.

Lemma state_machine_static d ax ay az mag r at_ ts :
  static_eq d (state_machine d ax ay az mag r at_ ts).1.
Proof.
  unfold state_machine.
  pose proof (confirm_accumulate_static d ax ay az mag) as Hacc.
  set (d1 := confirm_accumulate d ax ay az mag) in *. clearbody d1.
  destruct (st_ d).
  - destruct (r >=? at_); unfold static_eq; cbn; tauto.
  - destruct (r >=? at_); [|unfold static_eq; cbn; tauto]. cbv zeta.
    destruct (min_sustained (cfg_ d1) <=? sc_ d1)%N; [|exact Hacc].
    destruct (negb (RejectCode_eqb (check_reject d1) RC_NONE));
      (eapply static_eq_trans; [exact Hacc | unfold static_eq; cbn; tauto]).
  - cbv zeta. case_match; unfold static_eq; cbn; tauto.
Qed.

Lemma ingest_static d ax ay az : static_eq d (i_det (ingest d ax ay az)).
Proof. unfold static_eq. repeat split; reflexivity. Qed.

Lemma process_sample_static d ax ay az ts :
  static_eq d (process_sample d ax ay az ts).1.
Proof.
  unfold process_sample. cbv zeta.
  set (d0 := set_total_ (wrap64 (total_ d + 1)) d).
  assert (H0' : static_eq d d0) by (unfold static_eq; repeat split; reflexivity).
  clearbody d0.
  destruct (0 <? cd_ d0)%N.
  { eapply static_eq_trans; [exact H0'|]. unfold static_eq. repeat split; reflexivity. }
  pose proof (ingest_static d0 ax ay az) as Hi.
  set (i := ingest d0 ax ay az) in *. clearbody i.
  assert (Hi' : static_eq d (i_det i)) by (eapply static_eq_trans; eassumption).
  destruct (negb (full (lta_ (i_det i)))); [exact Hi'|].
  destruct (avg (lta_ (i_det i)) <? min_amplitude_g (cfg_ (i_det i))); [exact Hi'|].
  pose proof (state_machine_static (i_det i) (i_ax i) (i_ay i) (i_az i) (i_mag i)
                (avg (sta_ (i_det i)) / avg (lta_ (i_det i)))
                (dyn_threshold (i_det i)) ts) as Hsm.
  set (p := state_machine _ _ _ _ _ _ _ _) in *. clearbody p.
  cbn [fst]. eapply static_eq_trans; eassumption.
Qed.

(** *** What a frozen detector keeps *)

Lemma frozen_filters d d' :
  frozen d d' ->
  grav_ d' = grav_ d /\
  (bpx_ d', bpy_ d', bpz_ d') = (bpx_ d, bpy_ d, bpz_ d) /\
  (hx_ d', hy_ d', hz_ d') = (hx_ d, hy_ d, hz_ d) /\
  (sta_ d', lta_ d', cal_ d', per_ d') = (sta_ d, lta_ d, cal_ d, per_ d).
Proof.
  intros Hf. unfold frozen in Hf.
  pose proof (f_equal grav_ Hf) as Hg.
  pose proof (f_equal bpx_ Hf) as H1. pose proof (f_equal bpy_ Hf) as H2.
  pose proof (f_equal bpz_ Hf) as H3. pose proof (f_equal hx_ Hf) as H4.
  pose proof (f_equal hy_ Hf) as H5. pose proof (f_equal hz_ Hf) as H6.
  pose proof (f_equal sta_ Hf) as H7. pose proof (f_equal lta_ Hf) as H8.
  pose proof (f_equal cal_ Hf) as H9. pose proof (f_equal per_ Hf) as H10.
  cbn in *. repeat split; congruence.
Qed.

Lemma frozen_machine d d' :
  frozen d d' ->
  st_ d' = st_ d /\ sc_ d' = sc_ d /\ dur_ d' = dur_ d /\ zc_ d' = zc_ d /\
  pk_ d' = pk_ d /\ t0_ d' = t0_ d /\ lr_ d' = lr_ d /\ cfg_ d' = cfg_ d.
Proof.
  intros Hf. unfold frozen in Hf.
  pose proof (f_equal st_ Hf) as H1. pose proof (f_equal sc_ Hf) as H2.
  pose proof (f_equal dur_ Hf) as H3. pose proof (f_equal zc_ Hf) as H4.
  pose proof (f_equal pk_ Hf) as H5. pose proof (f_equal t0_ Hf) as H6.
  pose proof (f_equal lr_ Hf) as H7. pose proof (f_equal cfg_ Hf) as H8.
  cbn in *. repeat split; congruence.
Qed.

(** *** The LTA gate over a stream *)

Lemma bound_cap_range (MAX_N c : N) :
  (0 < MAX_N)%N -> (0 < bound_cap MAX_N c <= MAX_N)%N.
Proof.
  intros Hm. unfold bound_cap.
  destruct (N.ltb_spec 0 c); destruct (N.leb_spec c MAX_N); cbn; lia.
Qed.

Lemma push_n_below (v : F) (r : Ring F) :
  (n_ r < cap_ r)%N -> (cap_ r < 2 ^ 32)%N ->
  n_ (push v r) = (n_ r + 1)%N.
Proof.
  intros Hn Hc. unfold push. cbn [n_].
  destruct (N.eqb_spec (n_ r) (cap_ r)); [lia|].
  unfold wrap32. apply N.mod_small. lia.
Qed.

(** While the samples cannot fill the LTA ring, nothing is called. *)
Lemma run_filling xs d :
  (cap_ (lta_ d) < 2 ^ 32)%N ->
  (n_ (lta_ d) + N.of_nat (length xs) < cap_ (lta_ d))%N ->
  let r := run d xs in
  r.2 = [] /\ cap_ (lta_ r.1) = cap_ (lta_ d) /\
  (n_ (lta_ r.1) <= n_ (lta_ d) + N.of_nat (length xs))%N.
Proof.
  revert d. induction xs as [|x xs IH]; intros d Hcap Hn.
  - cbn [run fst snd length N.of_nat] in *.
    split; [reflexivity|]. split; [reflexivity|]. lia.
  - cbn [length] in Hn.
    assert (Hstep : (step d x).2 = [] /\ cap_ (lta_ (step d x).1) = cap_ (lta_ d) /\
                    (n_ (lta_ (step d x).1) <= n_ (lta_ d) + 1)%N).
    { unfold step.
      destruct (N.ltb_spec 0 (cd_ d)) as [Hcd|Hcd].
      - rewrite process_sample_cooldown by assumption. cbn [fst snd].
        split; [reflexivity|]. split; [reflexivity|].
        change (lta_ (set_cd_ (cd_ d - 1)%N (set_total_ (wrap64 (total_ d + 1)) d)))
          with (lta_ d). lia.
      - assert (Hcd0 : cd_ d = 0%N) by lia.
        pose proof (process_sample_filling d (s_ax x) (s_ay x) (s_az x) (s_ts x) Hcd0) as Hp.
        cbv zeta in Hp.
        set (d0 := set_total_ (wrap64 (total_ d + 1)) d) in *.
        assert (Hl : lta_ d0 = lta_ d) by reflexivity.
        pose proof (ingest_lta d0 (s_ax x) (s_ay x) (s_az x)) as Hi.
        set (i := ingest d0 (s_ax x) (s_ay x) (s_az x)) in *. clearbody i.
        rewrite Hl in Hi. clearbody d0.
        assert (Hn1 : n_ (lta_ (i_det i)) = (n_ (lta_ d) + 1)%N).
        { rewrite Hi. apply push_n_below; lia. }
        assert (Hc1 : cap_ (lta_ (i_det i)) = cap_ (lta_ d)) by now rewrite Hi.
        rewrite Hp.
        + cbn [fst snd]. repeat split; [assumption | lia].
        + unfold full. rewrite Hn1, Hc1. apply N.eqb_neq. lia. }
    destruct Hstep as (Hs2 & Hs1 & Hsn).
    cbn [run]. cbv zeta.
    set (p := step d x) in *. clearbody p.
    destruct (IH p.1) as (Hr2 & Hrc & Hrn); [lia | lia |].
    rewrite Hs2, Hr2. cbn [fst snd app length].
    split; [reflexivity|]. split; [congruence | lia].
Qed.

(** *** What every reachable detector satisfies *)

Lemma reachable_caps d :
  reachable d ->
  cap_ (sta_ d) = bound_cap STA_MAX (sta_window (cfg_ d)) /\
  cap_ (lta_ d) = bound_cap LTA_MAX (lta_window (cfg_ d)) /\
  cap_ (cal_ d) = bound_cap CAL_MAX (calib_window (cfg_ d)) /\
  cap_ (per_ d) = bound_cap PER_MAX (to_u32 (lit 4 1 * sample_rate_hz (cfg_ d))).
Proof.
  induction 1 as [e g|c d Hd IH|d ax ay az ts Hd IH|d Hd IH].
  - repeat split; reflexivity.
  - repeat split; reflexivity.
  - destruct (process_sample_static d ax ay az ts) as (Hc & _ & _ & H1 & H2 & H3 & H4).
    set (p := process_sample d ax ay az ts) in *. clearbody p.
    rewrite Hc, H1, H2, H3, H4. exact IH.
  - exact IH.
Qed.

(** *** After [reset] and after construction *)

Lemma run_empty_lta xs d :
  (0 < cap_ (lta_ d) < 2 ^ 32)%N -> n_ (lta_ d) = 0%N ->
  (N.of_nat (length xs) <= cap_ (lta_ d) - 1)%N ->
  (run d xs).2 = [].
Proof.
  intros Hc Hn Hlen. apply run_filling; lia.
Qed.

(** C9.  For a configuration whose [lta_window] is a legal capacity
    ([1 .. 1000]), the first [lta_window - 1] calls of [process_sample]
    call nothing at all (so no event is emitted), whatever the samples:
    after construction followed by [update_config c], after [reset] of
    any reachable detector configured with [c], and after plain
    construction when [c] is the default configuration. *)
Theorem no_event_before_lta_full (c : Config F) (on_ev on_dbg : bool) d xs :
  (0 < lta_window c <= LTA_MAX)%N ->
  (N.of_nat (length xs) <= lta_window c - 1)%N ->
  (run (update_config c (new on_ev on_dbg)) xs).2 = [] /\
  (reachable d -> cfg_ d = c -> (run (reset d) xs).2 = []) /\
  (c = default_config -> (run (new on_ev on_dbg) xs).2 = []).
Proof.
  intros Hw Hlen.
  assert (Hb : bound_cap LTA_MAX (lta_window c) = lta_window c).
  { unfold bound_cap.
    destruct (N.ltb_spec 0 (lta_window c)); destruct (N.leb_spec (lta_window c) LTA_MAX);
      cbn; lia. }
  assert (Hmax : (LTA_MAX < 2 ^ 32)%N) by (unfold LTA_MAX; lia).
  split; [|split].
  - apply run_empty_lta.
    + change (cap_ (lta_ (update_config c (new on_ev on_dbg))))
        with (bound_cap LTA_MAX (lta_window c)). lia.
    + reflexivity.
    + change (cap_ (lta_ (update_config c (new on_ev on_dbg))))
        with (bound_cap LTA_MAX (lta_window c)). lia.
  - intros Hr Hcfg.
    destruct (reachable_caps d Hr) as (_ & Hcap & _).
    rewrite Hcfg, Hb in Hcap.
    assert (Hcap' : cap_ (lta_ (reset d)) = lta_window c) by exact Hcap.
    apply run_empty_lta; [lia | reflexivity | lia].
  - intros ->.
    assert (Hcap' : cap_ (lta_ (new on_ev on_dbg)) = lta_window default_config)
      by reflexivity.
    apply run_empty_lta; [lia | reflexivity | lia].
Qed.

(** C10.  [reset] arms the cooldown: the counter equals the configured
    [cooldown], and each of the next [cooldown] samples is counted in
    [total_] and dropped: no callback, no call of the cascade, gravity
    estimator, filters and rings as [reset] left them.  A freshly
    constructed detector has cooldown zero and its first sample goes
    through gravity, filters and all four rings. *)
Theorem reset_arms_cooldown d xs (on_ev on_dbg : bool) (ax ay az : F) (ts : N) :
  (N.of_nat (length xs) <= cooldown (cfg_ d))%N ->
  cd_ (reset d) = cooldown (cfg_ d) /\
  (let r := run (reset d) xs in
   r.2 = [] /\
   frozen (reset d) r.1 /\
   cd_ r.1 = (cooldown (cfg_ d) - N.of_nat (length xs))%N /\
   total_ r.1 = wrap64 (N.of_nat (length xs)) /\
   grav_ r.1 = grav_new /\
   (bpx_ r.1, bpy_ r.1, bpz_ r.1) =
     (bp_reset (bpx_ d), bp_reset (bpy_ d), bp_reset (bpz_ d)) /\
   (hx_ r.1, hy_ r.1, hz_ r.1) = (hp_new, hp_new, hp_new) /\
   (sta_ r.1, lta_ r.1, cal_ r.1, per_ r.1) =
     (ring_reset (sta_ d), ring_reset (lta_ d),
      ring_reset (cal_ d), ring_reset (per_ d))) /\
  cd_ (new on_ev on_dbg) = 0%N /\
  (let p := process_sample (new on_ev on_dbg) ax ay az ts in
   p.1 = i_det (ingest (set_total_ 1 (new on_ev on_dbg)) ax ay az) /\
   p.2 = [] /\
   total_ p.1 = 1%N /\
   grav_ p.1 = grav_update grav_new ax ay az /\
   size (sta_ p.1) = 1%N /\ size (lta_ p.1) = 1%N /\
   size (cal_ p.1) = 1%N /\ size (per_ p.1) = 1%N).
Proof.
  intros Hlen. split; [reflexivity|]. split; [|split; [reflexivity|]].
  - assert (Hcd : cd_ (reset d) = cooldown (cfg_ d)) by reflexivity.
    assert (Ht : total_ (reset d) = 0%N) by reflexivity.
    assert (Hfl : grav_ (reset d) = grav_new /\
              (bpx_ (reset d), bpy_ (reset d), bpz_ (reset d)) =
                (bp_reset (bpx_ d), bp_reset (bpy_ d), bp_reset (bpz_ d)) /\
              (hx_ (reset d), hy_ (reset d), hz_ (reset d)) = (hp_new, hp_new, hp_new) /\
              (sta_ (reset d), lta_ (reset d), cal_ (reset d), per_ (reset d)) =
                (ring_reset (sta_ d), ring_reset (lta_ d),
                 ring_reset (cal_ d), ring_reset (per_ d))).
    { repeat split. }
    set (d0 := reset d) in *. clearbody d0.
    destruct (run_cooldown xs d0) as (Hc & Hf & Hcd' & Ht'); [lia|].
    destruct (frozen_filters _ _ Hf) as (Hg & Hbp & Hhp & Hrg).
    destruct Hfl as (Hg0 & Hbp0 & Hhp0 & Hrg0).
    cbv zeta. set (r := run d0 xs) in *. clearbody r.
    split; [exact Hc|]. split; [exact Hf|]. split; [lia|].
    split.
    { rewrite Ht', Ht. destruct xs; reflexivity. }
    repeat split; congruence.
  - cbv zeta.
    set (d0 := new on_ev on_dbg).
    assert (Hp : process_sample d0 ax ay az ts =
                 (i_det (ingest (set_total_ 1 d0) ax ay az), [])).
    { apply (process_sample_filling d0 ax ay az ts); reflexivity. }
    rewrite Hp. cbn [fst snd].
    split; [reflexivity|]. split; [reflexivity|]. split; [reflexivity|].
    split; [reflexivity|].
    split; [reflexivity|]. split; [reflexivity|]. split; [reflexivity|].
    change (per_ (i_det (ingest (set_total_ 1 d0) ax ay az)))
      with (push (i_mag (ingest (set_total_ 1 d0) ax ay az)) (per_ d0)).
    set (v := i_mag _). clearbody v.
    assert (Hper : n_ (per_ d0) = 0%N /\
      cap_ (per_ d0) = bound_cap PER_MAX (to_u32 (lit 4 1 * sample_rate_hz default_config)%num))
      by (split; reflexivity).
    destruct Hper as (Hn & Hcap).
    pose proof (bound_cap_range PER_MAX
                  (to_u32 (lit 4 1 * sample_rate_hz default_config)%num)) as Hr.
    set (pr := per_ d0) in *. clearbody pr. unfold size.
    rewrite push_n_below; [lia | | ]; rewrite Hcap; unfold PER_MAX in *; lia.
Qed.

(** *** The state machine, branch by branch *)

(** [process_sample], with its intermediate values named. *)
Lemma process_sample_cases d ax ay az ts :
  let i := ingested d ax ay az in
  let d1 := i_det i in
  let dbg r :=
    if (total_ d1 mod 10 =? 0)%N
    then emit_dbg d1 (i_mag i) (i_mag i) (avg (sta_ d1)) (avg (lta_ d1)) r
                  (var (cal_ d1)) (dyn_threshold d1) ts
    else [] in
  process_sample d ax ay az ts =
    if (0 <? cd_ d)%N
    then (set_cd_ (cd_ d - 1)%N (set_total_ (wrap64 (total_ d + 1)) d), [])
    else if negb (full (lta_ d1)) then (d1, [])
    else if avg (lta_ d1) <? min_amplitude_g (cfg_ d1) then (d1, dbg zero)
    else
      let sm := state_machine d1 (i_ax i) (i_ay i) (i_az i) (i_mag i)
                  (sta_lta_ratio d1) (dyn_threshold d1) ts in
      (sm.1, dbg (sta_lta_ratio d1) ++ sm.2).
Proof. reflexivity. Qed.

Lemma carried_trans d1 d2 d3 : carried d1 d2 -> carried d2 d3 -> carried d1 d3.
Proof. unfold carried. intuition congruence. Qed.

Lemma confirm_accumulate_carried d ax ay az mag :
  carried d (confirm_accumulate d ax ay az mag).
Proof.
  unfold confirm_accumulate. cbv zeta. case_match; unfold carried; cbn; tauto.
Qed.

Lemma confirm_accumulate_fields d ax ay az mag :
  let d' := confirm_accumulate d ax ay az mag in
  st_ d' = st_ d /\ cd_ d' = cd_ d /\ lr_ d' = lr_ d /\
  sc_ d' = wrap32 (sc_ d + 1) /\ dur_ d' = dur_ d /\ t0_ d' = t0_ d.
Proof.
  unfold confirm_accumulate. cbv zeta. case_match; cbn; tauto.
Qed.

Lemma fire_calls d ts r :
  fire d ts r = [] \/ exists e, fire d ts r = [OnEvent e].
Proof. unfold fire. destruct (on_ev_ d); eauto. Qed.

Lemma fire_on d ts r : on_ev_ d = true -> exists e, fire d ts r = [OnEvent e].
Proof. unfold fire. intros ->. eauto. Qed.

Lemma state_machine_carried d ax ay az mag r at_ ts :
  carried d (state_machine d ax ay az mag r at_ ts).1.
Proof.
  unfold state_machine.
  pose proof (confirm_accumulate_carried d ax ay az mag) as Hacc.
  set (d1 := confirm_accumulate d ax ay az mag) in *. clearbody d1.
  destruct (st_ d).
  - destruct (r >=? at_); unfold carried; cbn; tauto.
  - destruct (r >=? at_); [|unfold carried; cbn; tauto]. cbv zeta.
    destruct (min_sustained (cfg_ d1) <=? sc_ d1)%N; [|exact Hacc].
    destruct (negb (RejectCode_eqb (check_reject d1) RC_NONE));
      (eapply carried_trans; [exact Hacc | unfold carried; cbn; tauto]).
  - cbv zeta. case_match; unfold carried; cbn; tauto.
Qed.

(** The state machine never calls the debug callback. *)
Lemma state_machine_no_debug d ax ay az mag r at_ ts :
  filter is_debug (state_machine d ax ay az mag r at_ ts).2 = [].
Proof.
  unfold state_machine.
  set (d1 := confirm_accumulate d ax ay az mag). clearbody d1.
  destruct (st_ d).
  - destruct (r >=? at_); reflexivity.
  - destruct (r >=? at_); [|reflexivity]. cbv zeta.
    destruct (min_sustained (cfg_ d1) <=? sc_ d1)%N; [|reflexivity].
    destruct (negb (RejectCode_eqb (check_reject d1) RC_NONE)); [reflexivity|].
    cbn [snd].
    destruct (fire_calls (set_dur_ (sc_ d1) (set_st_ TRIGGERED d1)) ts r)
      as [->|[e ->]]; reflexivity.
  - cbv zeta.
    set (d2 := set_pk_ _ _). clearbody d2.
    destruct (r <? sta_lta_detrigger (cfg_ d2)); [|reflexivity].
    cbn [snd]. destruct (fire_calls d2 ts r) as [->|[e ->]]; reflexivity.
Qed.

Lemma emit_dbg_debug d rm fm s l r bv at_ ts :
  filter is_debug (emit_dbg d rm fm s l r bv at_ ts) =
    emit_dbg d rm fm s l r bv at_ ts /\
  length (emit_dbg d rm fm s l r bv at_ ts) = if on_dbg_ d then 1%nat else 0%nat.
Proof. unfold emit_dbg. destruct (on_dbg_ d); split; reflexivity. Qed.

Lemma ingested_fields d ax ay az :
  let d1 := i_det (ingested d ax ay az) in
  total_ d1 = wrap64 (total_ d + 1) /\ cfg_ d1 = cfg_ d /\ st_ d1 = st_ d /\
  cd_ d1 = cd_ d /\ lr_ d1 = lr_ d /\ on_ev_ d1 = on_ev_ d /\ on_dbg_ d1 = on_dbg_ d /\
  sc_ d1 = sc_ d /\
  lta_ d1 = push (i_mag (ingested d ax ay az)) (lta_ d) /\
  cal_ d1 = push (i_mag (ingested d ax ay az)) (cal_ d).
Proof. repeat split. Qed.

(** *** Claims about telemetry *)

(** C3 (amended).  The debug callback is invoked once on exactly the
    calls that are not dropped by the cooldown gate, for which the
    total number of samples seen is divisible by 10 and the LTA ring
    is full, provided a callback is set; on every other call it is
    not invoked. *)
Theorem debug_callback_cadence d ax ay az ts :
  let p := process_sample d ax ay az ts in
  length (filter is_debug p.2) =
    if on_dbg_ d && (cd_ d =? 0)%N && (total_ p.1 mod 10 =? 0)%N && full (lta_ p.1)
    then 1%nat else 0%nat.
Proof.
  cbv zeta. rewrite process_sample_cases. cbv zeta.
  destruct (ingested_fields d ax ay az) as (Ht & _ & _ & _ & _ & _ & Hdbg & _).
  set (i := ingested d ax ay az) in *. clearbody i.
  set (d1 := i_det i) in *. clearbody d1.
  destruct (N.ltb_spec 0 (cd_ d)) as [Hcd|Hcd].
  { cbn [fst snd filter length].
    destruct (N.eqb_spec (cd_ d) 0); [lia|].
    now rewrite andb_false_r. }
  assert (Hcd0 : (cd_ d =? 0)%N = true) by (apply N.eqb_eq; lia).
  rewrite Hcd0, andb_true_r.
  destruct (full (lta_ d1)) eqn:Hfull; cbn [negb].
  2: { cbn [fst snd]. rewrite Hfull, !andb_false_r. reflexivity. }
  destruct (avg (lta_ d1) <? min_amplitude_g (cfg_ d1)).
  - cbn [fst snd]. rewrite Hfull, andb_true_r.
    destruct (total_ d1 mod 10 =? 0)%N.
    + destruct (emit_dbg_debug d1 (i_mag i) (i_mag i) (avg (sta_ d1)) (avg (lta_ d1))
                  zero (var (cal_ d1)) (dyn_threshold d1) ts) as (-> & ->).
      rewrite Hdbg, andb_true_r. reflexivity.
    + rewrite andb_false_r. reflexivity.
  - pose proof (state_machine_carried d1 (i_ax i) (i_ay i) (i_az i) (i_mag i)
                  (sta_lta_ratio d1) (dyn_threshold d1) ts) as (Hct & _ & Hcr & _).
    pose proof (state_machine_no_debug d1 (i_ax i) (i_ay i) (i_az i) (i_mag i)
                  (sta_lta_ratio d1) (dyn_threshold d1) ts) as Hnd.
    set (sm := state_machine _ _ _ _ _ _ _ _) in *. clearbody sm.
    cbn [fst snd]. injection Hcr as _ Hl _ _.
    rewrite filter_app, Hnd, app_nil_r, Hct, Hl, Hfull, andb_true_r.
    destruct (total_ d1 mod 10 =? 0)%N.
    + destruct (emit_dbg_debug d1 (i_mag i) (i_mag i) (avg (sta_ d1)) (avg (lta_ d1))
                  (sta_lta_ratio d1) (var (cal_ d1)) (dyn_threshold d1) ts) as (-> & ->).
      rewrite Hdbg, andb_true_r. reflexivity.
    + rewrite andb_false_r. reflexivity.
Qed.

Lemma not_in_filtered (P : Call F -> bool) (l : list (Call F)) (c : Call F) :
  filter P l = [] -> c ∈ l -> P c = false.
Proof.
  intros Hf Hin. destruct (P c) eqn:E; [|reflexivity].
  assert (Hc : c ∈ filter P l).
  { apply list_elem_of_filter. split; [now rewrite E | assumption]. }
  rewrite Hf in Hc. now apply elem_of_nil in Hc.
Qed.

(** What a telemetry record carries.  Both magnitude fields hold the
    magnitude of the filtered sample. *)
Lemma debug_telemetry_fields d ax ay az ts t :
  OnDebug t ∈ (process_sample d ax ay az ts).2 ->
  let i := ingested d ax ay az in
  let d1 := i_det i in
  raw_mag t = i_mag i /\ filt_mag t = i_mag i /\
  sta t = avg (sta_ d1) /\ lta t = avg (lta_ d1) /\
  ratio t = (if avg (lta_ d1) <? min_amplitude_g (cfg_ d) then zero
             else sta_lta_ratio d1) /\
  baseline_var t = var (push (i_mag i) (cal_ d)) /\
  adaptive_trigger t = dyn_threshold d1 /\
  state t = State_code (st_ d) /\ reject t = lr_ d /\ ts_ t = ts.
Proof.
  rewrite process_sample_cases. cbv zeta.
  destruct (ingested_fields d ax ay az)
    as (Ht & Hcfg & Hst & _ & Hlr & _ & Hdbg & _ & _ & Hcal).
  set (i := ingested d ax ay az) in *. clearbody i.
  set (d1 := i_det i) in *. clearbody d1.
  rewrite <- Hcfg, <- Hst, <- Hlr, <- Hcal.
  destruct (0 <? cd_ d)%N; [intros Hin; now apply elem_of_nil in Hin|].
  destruct (negb (full (lta_ d1))); [intros Hin; now apply elem_of_nil in Hin|].
  destruct (avg (lta_ d1) <? min_amplitude_g (cfg_ d1)).
  - cbn [snd]. unfold emit_dbg.
    destruct (total_ d1 mod 10 =? 0)%N; [|intros Hin; now apply elem_of_nil in Hin].
    destruct (on_dbg_ d1); [|intros Hin; now apply elem_of_nil in Hin].
    intros Hin. apply list_elem_of_singleton in Hin. injection Hin as ->.
    cbn. repeat split.
  - pose proof (state_machine_no_debug d1 (i_ax i) (i_ay i) (i_az i) (i_mag i)
                  (sta_lta_ratio d1) (dyn_threshold d1) ts) as Hnd.
    set (sm := state_machine _ _ _ _ _ _ _ _) in *. clearbody sm.
    cbn [snd]. intros Hin. apply elem_of_app in Hin as [Hin|Hin].
    + unfold emit_dbg in Hin.
      destruct (total_ d1 mod 10 =? 0)%N; [|now apply elem_of_nil in Hin].
      destruct (on_dbg_ d1); [|now apply elem_of_nil in Hin].
      apply list_elem_of_singleton in Hin. injection Hin as ->.
      cbn. repeat split.
    + apply (not_in_filtered _ _ _ Hnd) in Hin. discriminate.
Qed.

(** C7.  On a sample that reaches trigger evaluation (no cooldown, LTA
    ring full after the push) the dynamic threshold is
    [clamp(sta_lta_trigger + sqrt(bv) * 100, adaptive_trig_min,
    adaptive_trig_max)] with [bv] the variance of the calibration ring
    that already holds the sample: it is the threshold the telemetry
    reports and the one the state machine compares the ratio with. *)
Theorem dynamic_threshold_formula d ax ay az ts :
  cd_ d = 0%N ->
  let i := ingested d ax ay az in
  full (lta_ (i_det i)) = true ->
  let bv := var (push (i_mag i) (cal_ d)) in
  let at_ := clamp (sta_lta_trigger (cfg_ d) + sqrt bv * lit 100 1)
                   (adaptive_trig_min (cfg_ d)) (adaptive_trig_max (cfg_ d)) in
  let p := process_sample d ax ay az ts in
  (forall t, OnDebug t ∈ p.2 -> baseline_var t = bv /\ adaptive_trigger t = at_) /\
  ((avg (lta_ (i_det i)) <? min_amplitude_g (cfg_ d)) = false ->
   let sm := state_machine (i_det i) (i_ax i) (i_ay i) (i_az i) (i_mag i)
               (sta_lta_ratio (i_det i)) at_ ts in
   p.1 = sm.1 /\ filter (fun c => negb (is_debug c)) p.2 = sm.2).
Proof.
  intros Hcd i Hfull bv at_ p.
  assert (Hat : dyn_threshold (i_det i) = at_) by reflexivity.
  split.
  - intros t Hin.
    destruct (debug_telemetry_fields d ax ay az ts t Hin)
      as (_ & _ & _ & _ & _ & Hbv & Hth & _).
    split; [exact Hbv | now rewrite Hth].
  - intros Harm. subst p. rewrite process_sample_cases. cbv zeta.
    fold i. rewrite Hcd, Hfull.
    change (cfg_ (i_det i)) with (cfg_ d). rewrite Harm.
    cbn [N.ltb N.compare negb]. rewrite Hat.
    clearbody at_.
    pose proof (state_machine_no_debug (i_det i) (i_ax i) (i_ay i) (i_az i) (i_mag i)
                  (sta_lta_ratio (i_det i)) at_ ts) as Hnd.
    set (sm := state_machine _ _ _ _ _ _ _ _) in *.
    set (d1 := i_det i) in *. clearbody sm d1. clear Hat.
    cbn [fst snd]. split; [reflexivity|].
    rewrite filter_app.
    assert (Hd : filter (fun c => negb (is_debug c))
               (if (total_ d1 mod 10 =? 0)%N
                then emit_dbg d1 (i_mag i) (i_mag i) (avg (sta_ d1)) (avg (lta_ d1))
                       (sta_lta_ratio d1) (var (cal_ d1)) at_ ts
                else []) = []).
    { unfold emit_dbg. destruct (total_ d1 mod 10 =? 0)%N; [|reflexivity].
      destruct (on_dbg_ d1); reflexivity. }
    rewrite Hd. cbn [app].
    clear Hd. induction (sm.2) as [|c l IH]; [reflexivity|].
    rewrite filter_cons in Hnd. rewrite filter_cons.
    destruct c; cbn in *.
    + rewrite IH; [reflexivity|]. exact Hnd.
    + discriminate.
    + rewrite IH; [reflexivity|]. exact Hnd.
Qed.

(** *** The three cases of the [switch] *)

Lemma RejectCode_eqb_eq (a b : RejectCode) : RejectCode_eqb a b = true <-> a = b.
Proof. destruct a, b; cbn; split; congruence. Qed.

Lemma state_machine_idle d ax ay az mag r at_ ts :
  st_ d = IDLE ->
  let sm := state_machine d ax ay az mag r at_ ts in
  sm.2 = [] /\ cd_ sm.1 = cd_ d /\ lr_ sm.1 = lr_ d /\
  st_ sm.1 = (if r >=? at_ then CONFIRM else IDLE).
Proof.
  intros Hst. unfold state_machine. rewrite Hst.
  destruct (r >=? at_); cbn; tauto.
Qed.

Lemma state_machine_confirm d ax ay az mag r at_ ts :
  st_ d = CONFIRM ->
  let sm := state_machine d ax ay az mag r at_ ts in
  let dc := confirm_accumulate d ax ay az mag in
  let rc := check_reject dc in
  if (r >=? at_) && (min_sustained (cfg_ d) <=? sc_ dc)%N then
    if RejectCode_eqb rc RC_NONE then
      sm.2 = Checked rc :: fire (set_dur_ (sc_ dc) (set_st_ TRIGGERED dc)) ts r /\
      st_ sm.1 = TRIGGERED /\ cd_ sm.1 = cd_ d /\ lr_ sm.1 = lr_ d /\
      on_ev_ sm.1 = on_ev_ d
    else
      sm.2 = [Checked rc] /\
      st_ sm.1 = IDLE /\ cd_ sm.1 = cooldown (cfg_ d) /\ lr_ sm.1 = rc
  else
    sm.2 = [] /\ cd_ sm.1 = cd_ d /\ lr_ sm.1 = lr_ d /\
    st_ sm.1 = (if r >=? at_ then CONFIRM else IDLE).
Proof.
  intros Hst. unfold state_machine. rewrite Hst. cbv zeta.
  destruct (confirm_accumulate_fields d ax ay az mag) as (Hs & Hc & Hl & _).
  destruct (confirm_accumulate_carried d ax ay az mag) as (_ & _ & _ & Hcfg & Hev & _).
  set (dc := confirm_accumulate d ax ay az mag) in *. clearbody dc.
  rewrite <- Hcfg, <- Hc, <- Hl, <- Hev.
  destruct (r >=? at_); cbn [andb].
  2: { cbn. rewrite Hc, Hl. tauto. }
  destruct (min_sustained (cfg_ dc) <=? sc_ dc)%N.
  2: { cbn. rewrite Hs, Hst. tauto. }
  destruct (RejectCode_eqb (check_reject dc) RC_NONE); cbn; tauto.
Qed.

Lemma state_machine_triggered d ax ay az mag r at_ ts :
  st_ d = TRIGGERED ->
  let sm := state_machine d ax ay az mag r at_ ts in
  let d2 := set_pk_ (fmax (pk_ d) mag) (set_dur_ (wrap32 (dur_ d + 1)) d) in
  if r <? sta_lta_detrigger (cfg_ d) then
    sm.2 = fire d2 ts r /\ sm.1 = reset_st d2 /\
    st_ sm.1 = IDLE /\ cd_ sm.1 = cooldown (cfg_ d)
  else
    sm.2 = [] /\ sm.1 = d2 /\ st_ sm.1 = TRIGGERED /\ cd_ sm.1 = cd_ d.
Proof.
  intros Hst. unfold state_machine. rewrite Hst. cbv zeta.
  change (cfg_ (set_pk_ (fmax (pk_ d) mag) (set_dur_ (wrap32 (dur_ d + 1)) d)))
    with (cfg_ d).
  destruct (r <? sta_lta_detrigger (cfg_ d)); cbn; rewrite ?Hst; tauto.
Qed.

Lemma check_reject_first_failing d : check_reject d = first_failing d.
Proof.
  unfold check_reject, first_failing, cascade. cbn.
  destruct (axis_fails d); [reflexivity|].
  destruct (freq_fails d); [reflexivity|].
  destruct (periodicity_fails d); [reflexivity|].
  destruct (energy_fails d); reflexivity.
Qed.

Lemma emit_dbg_other d rm fm s l r bv at_ ts (b : bool) :
  let dbg := if b then emit_dbg d rm fm s l r bv at_ ts else [] in
  filter is_checked dbg = [] /\ filter is_event dbg = [] /\
  existsb is_rejection dbg = false /\ existsb is_event dbg = false.
Proof.
  cbv zeta. unfold emit_dbg. destruct b; [|repeat split].
  destruct (on_dbg_ d); repeat split.
Qed.

(** *** Claims about the cascade *)

(** A candidate is decided by one call of [check_reject]; no other
    sample calls it. *)
Lemma candidate_outcome d ax ay az ts :
  let p := process_sample d ax ay az ts in
  let dc := confirmed d ax ay az in
  let rc := check_reject dc in
  filter is_checked p.2 = (if candidate d ax ay az then [Checked rc] else []) /\
  (candidate d ax ay az = true ->
   st_ p.1 = (if RejectCode_eqb rc RC_NONE then TRIGGERED else IDLE) /\
   lr_ p.1 = (if RejectCode_eqb rc RC_NONE then lr_ d else rc) /\
   (RejectCode_eqb rc RC_NONE = false ->
    filter is_event p.2 = [] /\ cd_ p.1 = cooldown (cfg_ d))).
Proof.
  cbv zeta.
  rewrite process_sample_cases. unfold candidate, reaches_switch, confirmed. cbv zeta.
  destruct (ingested_fields d ax ay az)
    as (_ & Hcfg & Hst & Hcd & Hlr & _ & _ & _).
  set (i := ingested d ax ay az) in *. clearbody i.
  set (d1 := i_det i) in *.
  destruct (N.ltb_spec 0 (cd_ d)) as [Hc|Hc].
  { destruct (N.eqb_spec (cd_ d) 0); [lia|]. cbn. split; [reflexivity | discriminate]. }
  assert (Hc0 : (cd_ d =? 0)%N = true) by (apply N.eqb_eq; lia). rewrite Hc0.
  destruct (full (lta_ d1)); cbn [negb andb];
    [|split; [reflexivity | discriminate]].
  destruct (avg (lta_ d1) <? min_amplitude_g (cfg_ d1)) eqn:Harm; cbn [negb andb].
  { cbn [fst snd].
    destruct (emit_dbg_other d1 (i_mag i) (i_mag i) (avg (sta_ d1)) (avg (lta_ d1)) zero
                (var (cal_ d1)) (dyn_threshold d1) ts (total_ d1 mod 10 =? 0)%N)
      as (Hk & _).
    cbv zeta in Hk. rewrite Hk. split; [reflexivity | discriminate]. }
  destruct (emit_dbg_other d1 (i_mag i) (i_mag i) (avg (sta_ d1)) (avg (lta_ d1))
              (sta_lta_ratio d1) (var (cal_ d1)) (dyn_threshold d1) ts
              (total_ d1 mod 10 =? 0)%N) as (Hk & He & _).
  cbv zeta in Hk, He.
  set (dbg := if (total_ d1 mod 10 =? 0)%N then _ else _) in *. clearbody dbg.
  cbn [fst snd]. rewrite !filter_app, Hk, He. cbn [app].
  rewrite <- Hst, <- Hlr, <- Hcfg.
  destruct (st_ d1) eqn:Hs; cbn [is_confirm andb].
  - destruct (state_machine_idle d1 (i_ax i) (i_ay i) (i_az i) (i_mag i)
                (sta_lta_ratio d1) (dyn_threshold d1) ts Hs) as (H2 & _).
    rewrite H2. split; [reflexivity | discriminate].
  - pose proof (state_machine_confirm d1 (i_ax i) (i_ay i) (i_az i) (i_mag i)
                  (sta_lta_ratio d1) (dyn_threshold d1) ts Hs) as Hsm.
    cbv zeta in Hsm.
    set (sm := state_machine _ _ _ _ _ _ _ _) in *.
    set (dc := confirm_accumulate _ _ _ _ _) in *.
    clearbody sm dc d1.
    destruct ((sta_lta_ratio d1 >=? dyn_threshold d1)
              && (min_sustained (cfg_ d1) <=? sc_ dc)%N).
    + destruct (RejectCode_eqb (check_reject dc) RC_NONE) eqn:Hrc.
      * destruct Hsm as (H2 & H3 & H4 & H5 & _). rewrite H2.
        split.
        { cbn. destruct (fire_calls (set_dur_ (sc_ dc) (set_st_ TRIGGERED dc)) ts
                           (sta_lta_ratio d1)) as [->|[e ->]]; reflexivity. }
        intros _. split; [assumption|]. split; [assumption | discriminate].
      * destruct Hsm as (H2 & H3 & H4 & H5). rewrite H2.
        split; [reflexivity|]. intros _.
        split; [assumption|]. split; [assumption|].
        intros _. split; [reflexivity | assumption].
    + destruct Hsm as (H2 & _). rewrite H2. split; [reflexivity | discriminate].
  - pose proof (state_machine_triggered d1 (i_ax i) (i_ay i) (i_az i) (i_mag i)
                  (sta_lta_ratio d1) (dyn_threshold d1) ts Hs) as Hsm.
    cbv zeta in Hsm.
    set (sm := state_machine _ _ _ _ _ _ _ _) in *.
    set (d2 := set_pk_ _ _) in *. clearbody sm d2.
    split; [|discriminate].
    destruct (sta_lta_ratio d1 <? sta_lta_detrigger (cfg_ d1)).
    + destruct Hsm as (H2 & _). rewrite H2.
      destruct (fire_calls d2 ts (sta_lta_ratio d1)) as [->|[e ->]]; reflexivity.
    + destruct Hsm as (H2 & _). rewrite H2. reflexivity.
Qed.

(** C6.  [check_reject] reports the first failing check in the order
    axis coherence, frequency, periodicity, energy distribution.  It is
    called exactly once on a CONFIRM->TRIGGERED candidate and on no
    other sample; the candidate leaves CONFIRM either way, to IDLE with
    the code recorded in [lr_] and no event if a check fails, to
    TRIGGERED with [lr_] untouched if none does. *)
Theorem cascade_once_first_failing d ax ay az ts :
  let p := process_sample d ax ay az ts in
  let dc := confirmed d ax ay az in
  let rc := first_failing dc in
  check_reject dc = rc /\
  filter is_checked p.2 = (if candidate d ax ay az then [Checked rc] else []) /\
  (candidate d ax ay az = true ->
   st_ p.1 = (if RejectCode_eqb rc RC_NONE then TRIGGERED else IDLE) /\
   lr_ p.1 = (if RejectCode_eqb rc RC_NONE then lr_ d else rc) /\
   (RejectCode_eqb rc RC_NONE = false ->
    filter is_event p.2 = [] /\ cd_ p.1 = cooldown (cfg_ d))).
Proof.
  cbv zeta. split; [apply check_reject_first_failing|].
  rewrite <- check_reject_first_failing.
  exact (candidate_outcome d ax ay az ts).
Qed.

Lemma confirmed_fields d ax ay az :
  let dc := confirmed d ax ay az in
  cfg_ dc = cfg_ d /\ per_ dc = push (i_mag (ingested d ax ay az)) (per_ d).
Proof.
  unfold confirmed. cbv zeta.
  assert (Hi : cfg_ (i_det (ingested d ax ay az)) = cfg_ d /\
               per_ (i_det (ingested d ax ay az)) =
                 push (i_mag (ingested d ax ay az)) (per_ d)) by (split; reflexivity).
  set (i := ingested d ax ay az) in *. clearbody i.
  destruct (confirm_accumulate_carried (i_det i) (i_ax i) (i_ay i) (i_az i) (i_mag i))
    as (_ & _ & Hr & Hc & _).
  set (dc := confirm_accumulate _ _ _ _ _) in *. clearbody dc.
  injection Hr as _ _ _ Hp. destruct Hi as (Hi1 & Hi2). split; congruence.
Qed.

(** C5 (amended).  On a candidate whose axis-coherence and frequency
    checks pass and whose periodicity ring is full, the event is
    rejected with code PERIODICITY exactly when the autocorrelation
    peak is strictly greater than [periodicity_thresh]; at or below the
    threshold the periodicity check passes and the cascade goes on to
    the energy check. *)
Theorem periodicity_rejects_strictly_above d ax ay az ts :
  candidate d ax ay az = true ->
  let dc := confirmed d ax ay az in
  axis_fails dc = false -> freq_fails dc = false -> full (per_ dc) = true ->
  let p := process_sample d ax ay az ts in
  if autocorr dc >? periodicity_thresh (cfg_ d) then
    filter is_checked p.2 = [Checked PERIODICITY] /\
    lr_ p.1 = PERIODICITY /\ st_ p.1 = IDLE /\
    cd_ p.1 = cooldown (cfg_ d) /\ filter is_event p.2 = []
  else
    filter is_checked p.2 =
      [Checked (if energy_fails dc then ENERGY_DIST else RC_NONE)].
Proof.
  intros Hcand dc Hax Hfr Hfull p.
  destruct (candidate_outcome d ax ay az ts) as (Hchk & Hst).
  fold dc in Hchk, Hst. fold p in Hchk, Hst.
  rewrite Hcand in Hchk. specialize (Hst Hcand).
  destruct (confirmed_fields d ax ay az) as (Hcfg & _). fold dc in Hcfg.
  assert (Hcr : check_reject dc =
                if autocorr dc >? periodicity_thresh (cfg_ d) then PERIODICITY
                else if energy_fails dc then ENERGY_DIST else RC_NONE).
  { unfold check_reject, periodicity_fails. rewrite Hax, Hfr, Hfull, Hcfg.
    destruct (autocorr dc >? periodicity_thresh (cfg_ d)); reflexivity. }
  rewrite Hcr in Hchk, Hst.
  clearbody dc p.
  destruct (autocorr dc >? periodicity_thresh (cfg_ d)).
  - cbn in Hst. destruct Hst as (H1 & H2 & H3). destruct (H3 eq_refl) as (H4 & H5).
    repeat split; assumption.
  - exact Hchk.
Qed.

(** *** Claims about the cooldown *)

(** C1 (amended).  A rejection, and the event emitted on the
    de-trigger edge, leave the detector IDLE with the cooldown counter
    at [cooldown]; each of the next [cooldown] samples then calls
    nothing, changes no state, advances [total_] and counts the
    cooldown down by one.  The event emitted on the trigger edge
    starts no cooldown: the detector is TRIGGERED with the counter at
    zero and goes on evaluating samples. *)
Theorem cooldown_after_detrigger_or_rejection d x xs :
  let p := step d x in
  (existsb is_rejection p.2 || is_triggered (st_ d) && existsb is_event p.2 = true ->
   (N.of_nat (length xs) <= cooldown (cfg_ d))%N ->
   st_ p.1 = IDLE /\ cd_ p.1 = cooldown (cfg_ d) /\
   let r := run p.1 xs in
   r.2 = [] /\ frozen p.1 r.1 /\
   cd_ r.1 = (cooldown (cfg_ d) - N.of_nat (length xs))%N /\
   total_ r.1 = match xs with
                | [] => total_ p.1
                | _ => wrap64 (total_ p.1 + N.of_nat (length xs))
                end) /\
  (is_confirm (st_ d) && existsb is_event p.2 = true ->
   st_ p.1 = TRIGGERED /\ cd_ p.1 = 0%N).
Proof.
  cbv zeta.
  assert (Hedge :
    (existsb is_rejection (step d x).2
     || is_triggered (st_ d) && existsb is_event (step d x).2 = true ->
     st_ (step d x).1 = IDLE /\ cd_ (step d x).1 = cooldown (cfg_ d)) /\
    (is_confirm (st_ d) && existsb is_event (step d x).2 = true ->
     st_ (step d x).1 = TRIGGERED /\ cd_ (step d x).1 = 0%N)).
  { unfold step. rewrite process_sample_cases. cbv zeta.
    destruct (ingested_fields d (s_ax x) (s_ay x) (s_az x))
      as (_ & Hcfg & Hst & Hcd & _).
    set (i := ingested d (s_ax x) (s_ay x) (s_az x)) in *. clearbody i.
    set (d1 := i_det i) in *. clearbody d1.
    destruct (N.ltb_spec 0 (cd_ d)) as [Hc|Hc].
    { cbn [fst snd existsb]. rewrite !andb_false_r. cbn. split; discriminate. }
    assert (Hcd1 : cd_ d1 = 0%N) by lia.
    destruct (negb (full (lta_ d1))).
    { cbn [fst snd existsb]. rewrite !andb_false_r. cbn. split; discriminate. }
    destruct (avg (lta_ d1) <? min_amplitude_g (cfg_ d1)).
    { cbn [fst snd].
      destruct (emit_dbg_other d1 (i_mag i) (i_mag i) (avg (sta_ d1)) (avg (lta_ d1)) zero
                  (var (cal_ d1)) (dyn_threshold d1) (s_ts x) (total_ d1 mod 10 =? 0)%N)
        as (_ & _ & Hr & He).
      cbv zeta in Hr, He. rewrite Hr, He, !andb_false_r. cbn. split; discriminate. }
    destruct (emit_dbg_other d1 (i_mag i) (i_mag i) (avg (sta_ d1)) (avg (lta_ d1))
                (sta_lta_ratio d1) (var (cal_ d1)) (dyn_threshold d1) (s_ts x)
                (total_ d1 mod 10 =? 0)%N) as (_ & _ & Hr & He).
    cbv zeta in Hr, He.
    set (dbg := if (total_ d1 mod 10 =? 0)%N then _ else _) in *. clearbody dbg.
    cbn [fst snd]. rewrite !existsb_app, Hr, He. cbn [orb].
    rewrite <- Hst, <- Hcfg.
    destruct (st_ d1) eqn:Hs; cbn [is_triggered is_confirm andb].
    - destruct (state_machine_idle d1 (i_ax i) (i_ay i) (i_az i) (i_mag i)
                  (sta_lta_ratio d1) (dyn_threshold d1) (s_ts x) Hs) as (H2 & _).
      rewrite H2. cbn. split; discriminate.
    - pose proof (state_machine_confirm d1 (i_ax i) (i_ay i) (i_az i) (i_mag i)
                    (sta_lta_ratio d1) (dyn_threshold d1) (s_ts x) Hs) as Hsm.
      cbv zeta in Hsm.
      set (sm := state_machine _ _ _ _ _ _ _ _) in *.
      set (dc := confirm_accumulate _ _ _ _ _) in *.
      clearbody sm dc.
      destruct ((sta_lta_ratio d1 >=? dyn_threshold d1)
                && (min_sustained (cfg_ d1) <=? sc_ dc)%N).
      + destruct (RejectCode_eqb (check_reject dc) RC_NONE) eqn:Hrc.
        * destruct Hsm as (H2 & H3 & H4 & _). rewrite H2.
          cbn [existsb is_rejection]. rewrite Hrc. cbn [negb orb].
          split.
          { destruct (fire_calls (set_dur_ (sc_ dc) (set_st_ TRIGGERED dc)) (s_ts x)
                        (sta_lta_ratio d1)) as [->|[e ->]]; cbn; discriminate. }
          intros _. split; [assumption | congruence].
        * destruct Hsm as (H2 & H3 & H4 & _). rewrite H2.
          cbn [existsb is_rejection is_event]. rewrite Hrc. cbn [negb orb].
          split; [|discriminate]. intros _. split; assumption.
      + destruct Hsm as (H2 & _). rewrite H2. cbn. split; discriminate.
    - pose proof (state_machine_triggered d1 (i_ax i) (i_ay i) (i_az i) (i_mag i)
                    (sta_lta_ratio d1) (dyn_threshold d1) (s_ts x) Hs) as Hsm.
      cbv zeta in Hsm.
      set (sm := state_machine _ _ _ _ _ _ _ _) in *.
      set (d2 := set_pk_ _ _) in *. clearbody sm d2.
      split; [|discriminate].
      destruct (sta_lta_ratio d1 <? sta_lta_detrigger (cfg_ d1)).
      + destruct Hsm as (_ & _ & H3 & H4). intros _. split; assumption.
      + destruct Hsm as (H2 & _). rewrite H2. cbn. discriminate. }
  destruct Hedge as (HA & HB). split; [|exact HB].
  intros Hprem Hlen. destruct (HA Hprem) as (Hst & Hcd).
  assert (Hcfg : cfg_ (step d x).1 = cfg_ d).
  { unfold step. apply process_sample_static. }
  set (p := step d x) in *. clearbody p.
  split; [assumption|]. split; [assumption|].
  destruct (run_cooldown xs p.1) as (H1 & H2 & H3 & H4); [lia|].
  cbv zeta. rewrite <- Hcd. repeat split; assumption.
Qed.

(** *** [update_config] *)

Lemma set_cap_cleared (MAX_N c : N) (r : Ring F) :
  cleared (set_cap MAX_N c r) /\ cap_ (set_cap MAX_N c r) = bound_cap MAX_N c.
Proof.
  unfold cleared, set_cap, ring_reset, bound_cap. cbn.
  rewrite length_replicate. repeat split.
Qed.

Lemma cleared_reads (r : Ring F) :
  cleared r ->
  size r = 0%N /\ avg r = zero /\ var r = zero /\ forall i, at_ r i = zero.
Proof.
  intros (Hn & _). unfold size, avg, var, at_. rewrite Hn. cbn.
  repeat split. intros i. now destruct i.
Qed.

(** C2 (amended).  [update_config] installs the configuration,
    re-binds the four capacities (a request of 0 or above the maximum
    binds the maximum) and resets all four rings, whether or not their
    capacity changed; nothing else in the detector changes. *)
Theorem update_config_resets_every_ring (c : Config F) d :
  let d' := update_config c d in
  cfg_ d' = c /\
  (cap_ (sta_ d'), cap_ (lta_ d'), cap_ (cal_ d'), cap_ (per_ d')) =
    (bound_cap STA_MAX (sta_window c), bound_cap LTA_MAX (lta_window c),
     bound_cap CAL_MAX (calib_window c),
     bound_cap PER_MAX (to_u32 (lit 4 1 * sample_rate_hz c))) /\
  (cleared (sta_ d') /\ cleared (lta_ d') /\ cleared (cal_ d') /\ cleared (per_ d')) /\
  (size (sta_ d'), size (lta_ d'), size (cal_ d'), size (per_ d')) = (0, 0, 0, 0)%N /\
  set_per_ (per_ d) (set_cal_ (cal_ d) (set_lta_ (lta_ d) (set_sta_ (sta_ d)
    (set_cfg_ (cfg_ d) d')))) = d.
Proof.
  cbv zeta. split; [reflexivity|]. split; [reflexivity|].
  assert (Hr : sta_ (update_config c d) = set_cap STA_MAX (sta_window c) (sta_ d) /\
               lta_ (update_config c d) = set_cap LTA_MAX (lta_window c) (lta_ d) /\
               cal_ (update_config c d) = set_cap CAL_MAX (calib_window c) (cal_ d) /\
               per_ (update_config c d) =
                 set_cap PER_MAX (to_u32 (lit 4 1 * sample_rate_hz c)) (per_ d))
    by (repeat split).
  destruct Hr as (-> & -> & -> & ->).
  split; [repeat split; apply set_cap_cleared|].
  split; [reflexivity|].
  destruct d; reflexivity.
Qed.
End DetectorFacts.

(** * Invariants of the detector *)

Section Invariants.
Context {F : Type} `{Flt F}.
#[local] Open Scope num_scope.

Implicit Types (d : Detector F) (x : Sample F) (xs : list (Sample F)).

Lemma in_bounds_new (MAX_N : N) : (0 < MAX_N)%N -> in_bounds MAX_N (ring_new (T := F) MAX_N).
Proof.
  intros Hm. unfold in_bounds, ring_new. cbn. rewrite length_replicate.
  repeat split; lia.
Qed.

Lemma in_bounds_set_cap (MAX_N c : N) (r : Ring F) :
  in_bounds MAX_N r -> in_bounds MAX_N (set_cap MAX_N c r).
Proof.
  intros (Hl & Hc & _). unfold in_bounds, set_cap, ring_reset. cbn.
  rewrite length_replicate.
  pose proof (bound_cap_range MAX_N c) as Hb. unfold bound_cap in Hb.
  repeat split; try assumption; try lia.
Qed.

Lemma in_bounds_reset (MAX_N : N) (r : Ring F) :
  in_bounds MAX_N r -> in_bounds MAX_N (ring_reset r).
Proof.
  intros (Hl & Hc & _). unfold in_bounds, ring_reset. cbn.
  rewrite length_replicate. repeat split; try assumption; lia.
Qed.

Lemma in_bounds_push (MAX_N : N) (v : F) (r : Ring F) :
  in_bounds MAX_N r -> in_bounds MAX_N (push v r).
Proof.
  intros (Hl & Hc & Hh & Hn). unfold in_bounds, push. cbn.
  rewrite length_insert. split; [assumption|]. split; [assumption|].
  split; [apply N.mod_lt; lia|].
  destruct (N.eqb_spec (n_ r) (cap_ r)); [lia|].
  unfold wrap32. pose proof (N.Div0.mod_le (n_ r + 1) (2 ^ 32)). lia.
Qed.

Lemma bq_process_coeffs (q : Biquad F) (v : F) : coeffs (bq_process q v).2 = coeffs q.
Proof. reflexivity. Qed.

Lemma bp_process_coeffs (f : BandPassFilter F) (v : F) :
  bp_coeffs (bp_process f v).2 = bp_coeffs f.
Proof. reflexivity. Qed.

Lemma bp_reset_coeffs (f : BandPassFilter F) : bp_coeffs (bp_reset f) = bp_coeffs f.
Proof. reflexivity. Qed.

(** A reset filter with the hard-coded coefficients is the initial one. *)
Lemma bp_reset_new (f : BandPassFilter F) :
  bp_coeffs f = bp_coeffs bp_new -> bp_reset f = bp_new.
Proof.
  destruct f as [[h0 h1 h2 h3 h4 hw1 hw2] [l0 l1 l2 l3 l4 lw1 lw2]].
  unfold bp_coeffs, coeffs, bp_reset, bq_reset. cbn.
  intros E. injection E as -> -> -> -> -> -> -> -> -> ->. reflexivity.
Qed.

Lemma confirm_accumulate_filters d ax ay az mag :
  same_filters d (confirm_accumulate d ax ay az mag).
Proof.
  unfold confirm_accumulate. cbv zeta. case_match; unfold same_filters; cbn; tauto.
Qed.

Lemma state_machine_filters d ax ay az mag r at_ ts :
  same_filters d (state_machine d ax ay az mag r at_ ts).1.
Proof.
  unfold state_machine.
  pose proof (confirm_accumulate_filters d ax ay az mag) as Hacc.
  set (d1 := confirm_accumulate d ax ay az mag) in *. clearbody d1.
  destruct (st_ d).
  - destruct (r >=? at_); unfold same_filters; cbn; tauto.
  - destruct (r >=? at_); [|unfold same_filters; cbn; tauto]. cbv zeta.
    destruct (min_sustained (cfg_ d1) <=? sc_ d1)%N; [|exact Hacc].
    destruct Hacc as (Ha & Hb).
    destruct (negb (RejectCode_eqb (check_reject d1) RC_NONE));
      unfold same_filters; cbn; rewrite Ha, Hb; tauto.
  - cbv zeta. case_match; unfold same_filters; cbn; tauto.
Qed.

Lemma sound_new (on_ev on_dbg : bool) : sound (new on_ev on_dbg).
Proof.
  split; try reflexivity.
  - apply (in_bounds_set_cap STA_MAX), in_bounds_new. reflexivity.
  - apply (in_bounds_set_cap LTA_MAX), in_bounds_new. reflexivity.
  - apply (in_bounds_set_cap CAL_MAX), in_bounds_new. reflexivity.
  - apply (in_bounds_set_cap PER_MAX), in_bounds_new. reflexivity.
Qed.

Lemma sound_update_config (c : Config F) d : sound d -> sound (update_config c d).
Proof.
  intros [H1 H2 H3 H4 H5 H6 H7 H8]. split; try assumption.
  - now apply (in_bounds_set_cap STA_MAX).
  - now apply (in_bounds_set_cap LTA_MAX).
  - now apply (in_bounds_set_cap CAL_MAX).
  - now apply (in_bounds_set_cap PER_MAX).
Qed.

Lemma sound_reset d : sound d -> sound (reset d).
Proof.
  intros [H1 H2 H3 H4 H5 H6 H7 H8]. split.
  - change (bpx_ (reset d)) with (bp_reset (bpx_ d)). now rewrite bp_reset_coeffs.
  - change (bpy_ (reset d)) with (bp_reset (bpy_ d)). now rewrite bp_reset_coeffs.
  - change (bpz_ (reset d)) with (bp_reset (bpz_ d)). now rewrite bp_reset_coeffs.
  - now apply (in_bounds_reset STA_MAX).
  - now apply (in_bounds_reset LTA_MAX).
  - now apply (in_bounds_reset CAL_MAX).
  - now apply (in_bounds_reset PER_MAX).
  - reflexivity.
Qed.

Lemma sound_ingested d ax ay az :
  sound d -> cd_ d = 0%N -> sound (i_det (ingested d ax ay az)).
Proof.
  intros [H1 H2 H3 H4 H5 H6 H7 H8] Hcd. split.
  - exact H1.
  - exact H2.
  - exact H3.
  - now apply (in_bounds_push STA_MAX).
  - now apply (in_bounds_push LTA_MAX).
  - now apply (in_bounds_push CAL_MAX).
  - now apply (in_bounds_push PER_MAX).
  - change (cd_ (i_det (ingested d ax ay az))) with (cd_ d). lia.
Qed.

Lemma sound_state_machine d ax ay az mag r at_ ts :
  sound d -> cd_ d = 0%N -> sound (state_machine d ax ay az mag r at_ ts).1.
Proof.
  intros [H1 H2 H3 H4 H5 H6 H7 H8] Hcd.
  destruct (state_machine_carried d ax ay az mag r at_ ts) as (_ & _ & Hr & _).
  destruct (state_machine_filters d ax ay az mag r at_ ts) as (Hf & _).
  assert (Hst : (0 < cd_ (state_machine d ax ay az mag r at_ ts).1)%N ->
                st_ (state_machine d ax ay az mag r at_ ts).1 = IDLE).
  { destruct (st_ d) eqn:Hs.
    - destruct (state_machine_idle d ax ay az mag r at_ ts Hs) as (_ & Hc & _).
      rewrite Hc. lia.
    - pose proof (state_machine_confirm d ax ay az mag r at_ ts Hs) as Hsm.
      cbv zeta in Hsm.
      set (sm := state_machine _ _ _ _ _ _ _ _) in *.
      set (dc := confirm_accumulate _ _ _ _ _) in *. clearbody sm dc.
      destruct ((r >=? at_) && (min_sustained (cfg_ d) <=? sc_ dc)%N).
      + destruct (RejectCode_eqb (check_reject dc) RC_NONE).
        * destruct Hsm as (_ & _ & Hc & _). rewrite Hc. lia.
        * destruct Hsm as (_ & Hi & _). intros _. exact Hi.
      + destruct Hsm as (_ & Hc & _). rewrite Hc. lia.
    - pose proof (state_machine_triggered d ax ay az mag r at_ ts Hs) as Hsm.
      cbv zeta in Hsm.
      set (sm := state_machine _ _ _ _ _ _ _ _) in *. clearbody sm.
      destruct (r <? sta_lta_detrigger (cfg_ d)).
      + destruct Hsm as (_ & _ & Hi & _). intros _. exact Hi.
      + destruct Hsm as (_ & _ & _ & Hc). rewrite Hc. lia. }
  set (sm := state_machine _ _ _ _ _ _ _ _) in *. clearbody sm.
  injection Hr as E1 E2 E3 E4. injection Hf as F1 F2 F3.
  split; try congruence. exact Hst.
Qed.

Lemma sound_process_sample d ax ay az ts :
  sound d -> sound (process_sample d ax ay az ts).1.
Proof.
  intros Hd. rewrite process_sample_cases. cbv zeta.
  destruct (N.ltb_spec 0 (cd_ d)) as [Hc|Hc].
  { destruct Hd as [H1 H2 H3 H4 H5 H6 H7 H8]. cbn [fst].
    split; try assumption. intros _. apply H8. exact Hc. }
  assert (Hcd : cd_ d = 0%N) by lia.
  pose proof (sound_ingested d ax ay az Hd Hcd) as Hi.
  assert (Hcd1 : cd_ (i_det (ingested d ax ay az)) = 0%N) by exact Hcd.
  set (i := ingested d ax ay az) in *. clearbody i.
  set (d1 := i_det i) in *. clearbody d1.
  destruct (negb (full (lta_ d1))); [exact Hi|].
  destruct (avg (lta_ d1) <? min_amplitude_g (cfg_ d1)); [exact Hi|].
  pose proof (sound_state_machine d1 (i_ax i) (i_ay i) (i_az i) (i_mag i)
                (sta_lta_ratio d1) (dyn_threshold d1) ts Hi Hcd1) as Hsm.
  set (sm := state_machine _ _ _ _ _ _ _ _) in *. clearbody sm.
  exact Hsm.
Qed.

Lemma reachable_is_sound d : reachable d -> sound d.
Proof.
  induction 1 as [e g|c d Hd IH|d ax ay az ts Hd IH|d Hd IH].
  - apply sound_new.
  - now apply sound_update_config.
  - now apply sound_process_sample.
  - now apply sound_reset.
Qed.

Lemma reachable_run d xs : reachable d -> reachable (run d xs).1.
Proof.
  revert d. induction xs as [|x xs IH]; intros d Hd; [exact Hd|].
  cbn [run]. cbv zeta. cbn [fst]. apply IH. unfold step.
  now apply reach_process_sample.
Qed.

Lemma in_bounds_slot (MAX_N : N) (r : Ring F) :
  in_bounds MAX_N r -> (N.to_nat (h_ r) < length (b_ r))%nat /\ (cap_ r <> 0)%N.
Proof. intros (Hl & Hc & Hh & _). rewrite Hl. lia. Qed.

(** X3.  Every detector reachable through the public member functions
    is sound: the band-pass coefficients are the hard-coded ones, each
    ring has its array length, the capacity bound from the
    configuration (in [1 .. MAX_N]), its write slot below the capacity
    and its count at most the capacity, so that no push writes outside
    the array or takes a remainder by zero; and a cooldown is pending
    only in state IDLE. *)
Theorem reachable_detectors_are_sound d :
  reachable d ->
  sound d /\
  (cap_ (sta_ d), cap_ (lta_ d), cap_ (cal_ d), cap_ (per_ d)) =
    (bound_cap STA_MAX (sta_window (cfg_ d)), bound_cap LTA_MAX (lta_window (cfg_ d)),
     bound_cap CAL_MAX (calib_window (cfg_ d)),
     bound_cap PER_MAX (to_u32 (lit 4 1 * sample_rate_hz (cfg_ d))%num)) /\
  Forall (fun r => (N.to_nat (h_ r) < length (b_ r))%nat /\ (cap_ r <> 0)%N)
         [sta_ d; lta_ d; cal_ d; per_ d].
Proof.
  intros Hd. pose proof (reachable_is_sound d Hd) as Hs.
  destruct (reachable_caps d Hd) as (K1 & K2 & K3 & K4).
  split; [exact Hs|]. split; [congruence|].
  destruct Hs as [_ _ _ S1 S2 S3 S4 _].
  repeat constructor;
    first [ apply (in_bounds_slot STA_MAX), S1 | apply (in_bounds_slot LTA_MAX), S2
          | apply (in_bounds_slot CAL_MAX), S3 | apply (in_bounds_slot PER_MAX), S4 ].
Qed.

Lemma detector_ext (d1 d2 : Detector F) :
  cfg_ d1 = cfg_ d2 ->
  hx_ d1 = hx_ d2 ->
  hy_ d1 = hy_ d2 ->
  hz_ d1 = hz_ d2 ->
  bpx_ d1 = bpx_ d2 ->
  bpy_ d1 = bpy_ d2 ->
  bpz_ d1 = bpz_ d2 ->
  grav_ d1 = grav_ d2 ->
  sta_ d1 = sta_ d2 ->
  lta_ d1 = lta_ d2 ->
  cal_ d1 = cal_ d2 ->
  per_ d1 = per_ d2 ->
  st_ d1 = st_ d2 ->
  sc_ d1 = sc_ d2 ->
  dur_ d1 = dur_ d2 ->
  cd_ d1 = cd_ d2 ->
  zc_ d1 = zc_ d2 ->
  pk_ d1 = pk_ d2 ->
  t0_ d1 = t0_ d2 ->
  ps_ d1 = ps_ d2 ->
  ap_ d1 = ap_ d2 ->
  ae_ d1 = ae_ d2 ->
  total_ d1 = total_ d2 ->
  lr_ d1 = lr_ d2 ->
  on_ev_ d1 = on_ev_ d2 ->
  on_dbg_ d1 = on_dbg_ d2 ->
  d1 = d2.
Proof.
  destruct d1, d2. cbn. intros. subst. reflexivity.
Qed.

Lemma ring_reset_eq (r r' : Ring F) :
  length (b_ r) = length (b_ r') -> cap_ r = cap_ r' -> ring_reset r = ring_reset r'.
Proof. intros Hl Hc. unfold ring_reset. now rewrite Hl, Hc. Qed.

Lemma reset_parts d :
  (bpx_ (reset d), bpy_ (reset d), bpz_ (reset d)) =
    (bp_reset (bpx_ d), bp_reset (bpy_ d), bp_reset (bpz_ d)) /\
  (sta_ (reset d), lta_ (reset d), cal_ (reset d), per_ (reset d)) =
    (ring_reset (sta_ d), ring_reset (lta_ d), ring_reset (cal_ d), ring_reset (per_ d)) /\
  cfg_ (reset d) = cfg_ d /\ cd_ (reset d) = cooldown (cfg_ d) /\
  on_ev_ (reset d) = on_ev_ d /\ on_dbg_ (reset d) = on_dbg_ d /\
  (hx_ (reset d), hy_ (reset d), hz_ (reset d), grav_ (reset d)) =
    (hp_new, hp_new, hp_new, grav_new) /\
  (st_ (reset d), sc_ (reset d), dur_ (reset d), zc_ (reset d), pk_ (reset d),
   t0_ (reset d), ps_ (reset d), ap_ (reset d), ae_ (reset d), total_ (reset d),
   lr_ (reset d)) =
    (IDLE, 0%N, 0%N, 0%N, zero, 0%N, false, arr3_zero, arr3_zero, 0%N, RC_NONE).
Proof. repeat split. Qed.

(** X4.  [reset] forgets all history: on any reachable detector it
    yields the detector that [reset] yields right after construction
    with the same callbacks and [update_config] with the same
    configuration; only the configuration and the callbacks survive. *)
Theorem reset_forgets_history d :
  reachable d -> reset d = pristine (cfg_ d) (on_ev_ d) (on_dbg_ d).
Proof.
  intros Hd. unfold pristine.
  set (u := update_config (cfg_ d) (new (on_ev_ d) (on_dbg_ d))).
  assert (Hu : reachable u) by (apply reach_update_config, reach_new).
  assert (Hcu : cfg_ u = cfg_ d) by reflexivity.
  assert (Heu : on_ev_ u = on_ev_ d /\ on_dbg_ u = on_dbg_ d) by (split; reflexivity).
  pose proof (reachable_is_sound d Hd) as [B1 B2 B3 [L1 _] [L2 _] [L3 _] [L4 _] _].
  pose proof (reachable_is_sound u Hu) as [C1 C2 C3 [M1 _] [M2 _] [M3 _] [M4 _] _].
  destruct (reachable_caps d Hd) as (K1 & K2 & K3 & K4).
  destruct (reachable_caps u Hu) as (J1 & J2 & J3 & J4).
  rewrite Hcu in J1, J2, J3, J4. destruct Heu as (He & Hg).
  clearbody u.
  destruct (reset_parts d) as (P1 & P2 & P3 & P4 & P5 & P6 & P7 & P8).
  destruct (reset_parts u) as (Q1 & Q2 & Q3 & Q4 & Q5 & Q6 & Q7 & Q8).
  set (rd := reset d) in *. set (ru := reset u) in *. clearbody rd ru.
  injection P1 as P1a P1b P1c. injection Q1 as Q1a Q1b Q1c.
  injection P2 as P2a P2b P2c P2d. injection Q2 as Q2a Q2b Q2c Q2d.
  injection P7 as P7a P7b P7c P7d. injection Q7 as Q7a Q7b Q7c Q7d.
  injection P8 as ? ? ? ? ? ? ? ? ? ? ?. injection Q8 as ? ? ? ? ? ? ? ? ? ? ?.
  assert (R1 : ring_reset (sta_ d) = ring_reset (sta_ u)) by (apply ring_reset_eq; congruence).
  assert (R2 : ring_reset (lta_ d) = ring_reset (lta_ u)) by (apply ring_reset_eq; congruence).
  assert (R3 : ring_reset (cal_ d) = ring_reset (cal_ u)) by (apply ring_reset_eq; congruence).
  assert (R4 : ring_reset (per_ d) = ring_reset (per_ u)) by (apply ring_reset_eq; congruence).
  pose proof (bp_reset_new _ B1). pose proof (bp_reset_new _ B2).
  pose proof (bp_reset_new _ B3). pose proof (bp_reset_new _ C1).
  pose proof (bp_reset_new _ C2). pose proof (bp_reset_new _ C3).
  apply detector_ext; congruence.
Qed.

(** *** Counting *)

Lemma process_sample_total d ax ay az ts :
  total_ (process_sample d ax ay az ts).1 = wrap64 (total_ d + 1).
Proof.
  rewrite process_sample_cases. cbv zeta.
  destruct (ingested_fields d ax ay az) as (Ht & _).
  set (i := ingested d ax ay az) in *. clearbody i.
  set (d1 := i_det i) in *. clearbody d1.
  destruct (0 <? cd_ d)%N; [reflexivity|].
  destruct (negb (full (lta_ d1))); [exact Ht|].
  destruct (avg (lta_ d1) <? min_amplitude_g (cfg_ d1)); [exact Ht|].
  destruct (state_machine_carried d1 (i_ax i) (i_ay i) (i_az i) (i_mag i)
              (sta_lta_ratio d1) (dyn_threshold d1) ts) as (Hc & _).
  set (sm := state_machine _ _ _ _ _ _ _ _) in *. clearbody sm.
  cbn [fst]. congruence.
Qed.

(** X5.  Every call of [process_sample] is counted in [total_]
    (modulo 2^64), also the calls dropped by a cooldown or by the LTA
    gate, and no call changes the configuration, the callbacks or the
    capacity of a ring. *)
Theorem run_counts_every_sample d xs :
  let r := run d xs in
  total_ r.1 = match xs with
               | [] => total_ d
               | _ => wrap64 (total_ d + N.of_nat (length xs))
               end /\
  static_eq d r.1.
Proof.
  revert d. induction xs as [|x xs IH]; intros d.
  - split; [reflexivity | apply static_eq_refl].
  - pose proof (process_sample_total d (s_ax x) (s_ay x) (s_az x) (s_ts x)) as Ht.
    pose proof (process_sample_static d (s_ax x) (s_ay x) (s_az x) (s_ts x)) as Hs.
    cbn [run]. cbv zeta. unfold step.
    set (p := process_sample d (s_ax x) (s_ay x) (s_az x) (s_ts x)) in *. clearbody p.
    destruct (IH p.1) as (Hrt & Hrs). cbv zeta in Hrt, Hrs.
    set (r := run p.1 xs) in *. clearbody r. cbn [fst].
    split; [|eapply static_eq_trans; eassumption].
    rewrite Hrt, Ht. destruct xs as [|x' xs'].
    + reflexivity.
    + rewrite wrap64_succ. f_equal. cbn [length]. lia.
Qed.

(** *** Events and edges *)

Lemma fire_events d ts r :
  filter is_event (fire d ts r) = fire d ts r /\
  length (fire d ts r) = if on_ev_ d then 1%nat else 0%nat.
Proof. unfold fire. destruct (on_ev_ d); split; reflexivity. Qed.

Lemma edge_same (s : State) : edge s s = false.
Proof. now destruct s. Qed.

Lemma legal_same (s : State) : legal s s = true.
Proof. now destruct s. Qed.

Lemma process_sample_edges d ax ay az ts :
  let p := process_sample d ax ay az ts in
  legal (st_ d) (st_ p.1) = true /\
  length (filter is_event p.2) =
    if on_ev_ d && edge (st_ d) (st_ p.1) then 1%nat else 0%nat.
Proof.
  cbv zeta. rewrite process_sample_cases. cbv zeta.
  destruct (ingested_fields d ax ay az)
    as (_ & Hcfg & Hst & _ & _ & Hev & _).
  set (i := ingested d ax ay az) in *. clearbody i.
  set (d1 := i_det i) in *. clearbody d1.
  rewrite <- Hst, <- Hev.
  destruct (0 <? cd_ d)%N.
  { cbn [fst snd]. change (st_ (set_cd_ (cd_ d - 1)%N (set_total_ (wrap64 (total_ d + 1)) d)))
      with (st_ d). rewrite <- Hst, legal_same, edge_same, andb_false_r.
    split; reflexivity. }
  destruct (negb (full (lta_ d1))).
  { cbn [fst snd]. rewrite legal_same, edge_same, andb_false_r. split; reflexivity. }
  destruct (avg (lta_ d1) <? min_amplitude_g (cfg_ d1)).
  { cbn [fst snd].
    destruct (emit_dbg_other d1 (i_mag i) (i_mag i) (avg (sta_ d1)) (avg (lta_ d1)) zero
                (var (cal_ d1)) (dyn_threshold d1) ts (total_ d1 mod 10 =? 0)%N)
      as (_ & He & _).
    cbv zeta in He. rewrite He, legal_same, edge_same, andb_false_r.
    split; reflexivity. }
  destruct (emit_dbg_other d1 (i_mag i) (i_mag i) (avg (sta_ d1)) (avg (lta_ d1))
              (sta_lta_ratio d1) (var (cal_ d1)) (dyn_threshold d1) ts
              (total_ d1 mod 10 =? 0)%N) as (_ & He & _).
  cbv zeta in He.
  set (dbg := if (total_ d1 mod 10 =? 0)%N then _ else _) in *. clearbody dbg.
  cbn [fst snd]. rewrite filter_app, He. cbn [app].
  destruct (st_ d1) eqn:Hs.
  - destruct (state_machine_idle d1 (i_ax i) (i_ay i) (i_az i) (i_mag i)
                (sta_lta_ratio d1) (dyn_threshold d1) ts Hs) as (H2 & _ & _ & H3).
    rewrite H2, H3.
    destruct (sta_lta_ratio d1 >=? dyn_threshold d1); cbn;
      rewrite andb_false_r; split; reflexivity.
  - pose proof (state_machine_confirm d1 (i_ax i) (i_ay i) (i_az i) (i_mag i)
                  (sta_lta_ratio d1) (dyn_threshold d1) ts Hs) as Hsm.
    cbv zeta in Hsm.
    destruct (confirm_accumulate_carried d1 (i_ax i) (i_ay i) (i_az i) (i_mag i))
      as (_ & _ & _ & _ & Hev1 & _).
    set (sm := state_machine _ _ _ _ _ _ _ _) in *.
    set (dc := confirm_accumulate _ _ _ _ _) in *.
    clearbody sm dc.
    destruct ((sta_lta_ratio d1 >=? dyn_threshold d1)
              && (min_sustained (cfg_ d1) <=? sc_ dc)%N).
    + destruct (RejectCode_eqb (check_reject dc) RC_NONE).
      * destruct Hsm as (H2 & H3 & _). rewrite H2, H3. cbn [legal edge].
        rewrite andb_true_r. split; [reflexivity|].
        rewrite filter_cons. cbn [is_event].
        destruct (fire_events (set_dur_ (sc_ dc) (set_st_ TRIGGERED dc)) ts
                    (sta_lta_ratio d1)) as (Hf1 & Hf2).
        change (on_ev_ (set_dur_ (sc_ dc) (set_st_ TRIGGERED dc))) with (on_ev_ dc) in Hf2.
        rewrite Hev1 in Hf2.
        destruct (decide (Is_true false)) as [[]|_].
        rewrite Hf1, Hf2. reflexivity.
      * destruct Hsm as (H2 & H3 & _). rewrite H2, H3. cbn.
        rewrite andb_false_r. split; reflexivity.
    + destruct Hsm as (H2 & _ & _ & H3). rewrite H2, H3.
      destruct (sta_lta_ratio d1 >=? dyn_threshold d1); cbn;
        rewrite andb_false_r; split; reflexivity.
  - pose proof (state_machine_triggered d1 (i_ax i) (i_ay i) (i_az i) (i_mag i)
                  (sta_lta_ratio d1) (dyn_threshold d1) ts Hs) as Hsm.
    cbv zeta in Hsm.
    set (sm := state_machine _ _ _ _ _ _ _ _) in *.
    set (d2 := set_pk_ (fmax (pk_ d1) (i_mag i)) (set_dur_ (wrap32 (dur_ d1 + 1)) d1)) in *.
    assert (Hev2 : on_ev_ d2 = on_ev_ d1) by reflexivity.
    clearbody sm d2.
    destruct (sta_lta_ratio d1 <? sta_lta_detrigger (cfg_ d1)).
    + destruct Hsm as (H2 & _ & H3 & _). rewrite H2, H3. cbn [legal edge].
      rewrite andb_true_r. split; [reflexivity|].
      destruct (fire_events d2 ts (sta_lta_ratio d1)) as (Hf1 & Hf2).
      rewrite Hf1, Hf2, Hev2. reflexivity.
    + destruct Hsm as (H2 & _ & H3 & _). rewrite H2, H3. cbn.
      rewrite andb_false_r. split; reflexivity.
Qed.

(** X6.  One sample makes at most one transition, never IDLE to
    TRIGGERED nor TRIGGERED to CONFIRM, and the event callback, when
    set, is invoked once on exactly the samples that make the trigger
    edge (CONFIRM to TRIGGERED) or the de-trigger edge (TRIGGERED to
    IDLE); no other sample invokes it. *)
Theorem events_mark_the_edges d x :
  let p := step d x in
  legal (st_ d) (st_ p.1) = true /\
  length (filter is_event p.2) =
    (if on_ev_ d && edge (st_ d) (st_ p.1) then 1%nat else 0%nat) /\
  (length (filter is_event p.2) <= 1)%nat /\
  (filter is_event p.2 <> [] ->
   (st_ d = CONFIRM /\ st_ p.1 = TRIGGERED) \/ (st_ d = TRIGGERED /\ st_ p.1 = IDLE)).
Proof.
  cbv zeta. unfold step.
  destruct (process_sample_edges d (s_ax x) (s_ay x) (s_az x) (s_ts x)) as (Hl & He).
  set (p := process_sample d (s_ax x) (s_ay x) (s_az x) (s_ts x)) in *. clearbody p.
  split; [exact Hl|]. split; [exact He|]. split.
  - rewrite He. destruct (on_ev_ d && edge (st_ d) (st_ p.1)); lia.
  - intros Hne.
    destruct (filter is_event p.2) as [|c l] eqn:E; [contradiction|].
    cbn [length] in He.
    destruct (on_ev_ d); cbn [andb] in He; [|discriminate].
    destruct (st_ d), (st_ p.1); cbn in He; try discriminate; auto.
Qed.

Lemma fire_inv d ts r e :
  OnEvent e ∈ fire d ts r ->
  level e = severity (pk_ d) /\ peak_g e = pk_ d /\ sta_lta e = r /\
  freq_hz e = (if duration_s d >? zero then freq_of d else zero) /\
  time_ms e = t0_ d /\ duration e = dur_ d.
Proof.
  unfold fire. destruct (on_ev_ d); intros Hin.
  - apply list_elem_of_singleton in Hin. injection Hin as ->. cbn. repeat split.
  - now apply elem_of_nil in Hin.
Qed.

Lemma confirm_accumulate_peak d ax ay az mag :
  let d' := confirm_accumulate d ax ay az mag in
  pk_ d' = fmax (pk_ d) mag /\ t0_ d' = t0_ d /\ sc_ d' = wrap32 (sc_ d + 1).
Proof.
  unfold confirm_accumulate. cbv zeta. case_match; cbn; tauto.
Qed.

(** X7.  What an emitted event carries: the severity of its own peak,
    the peak (the larger of the recorded peak and the magnitude of the
    current filtered sample), the STA/LTA ratio of the current sample,
    the timestamp recorded when CONFIRM was entered, and as duration
    the sustained count on the trigger edge (at least [min_sustained])
    and the running duration including this sample on the de-trigger
    edge. *)
Theorem event_fields d ax ay az ts e :
  OnEvent e ∈ (process_sample d ax ay az ts).2 ->
  let i := ingested d ax ay az in
  level e = severity (peak_g e) /\
  peak_g e = fmax (pk_ d) (i_mag i) /\
  sta_lta e = sta_lta_ratio (i_det i) /\
  time_ms e = t0_ d /\
  duration e = (if is_confirm (st_ d) then wrap32 (sc_ d + 1)
                else wrap32 (dur_ d + 1)) /\
  (is_confirm (st_ d) = true -> (min_sustained (cfg_ d) <= duration e)%N).
Proof.
  rewrite process_sample_cases. cbv zeta.
  assert (Hi : cfg_ (i_det (ingested d ax ay az)) = cfg_ d /\
               st_ (i_det (ingested d ax ay az)) = st_ d /\
               pk_ (i_det (ingested d ax ay az)) = pk_ d /\
               t0_ (i_det (ingested d ax ay az)) = t0_ d /\
               sc_ (i_det (ingested d ax ay az)) = sc_ d /\
               dur_ (i_det (ingested d ax ay az)) = dur_ d) by (repeat split).
  destruct Hi as (Hcfg & Hst & Hpk & Ht0 & Hsc & Hdur).
  set (i := ingested d ax ay az) in *. clearbody i.
  set (d1 := i_det i) in *. clearbody d1.
  rewrite <- Hcfg, <- Hst, <- Hpk, <- Ht0, <- Hsc, <- Hdur.
  destruct (0 <? cd_ d)%N; [intros Hin; now apply elem_of_nil in Hin|].
  destruct (negb (full (lta_ d1))); [intros Hin; now apply elem_of_nil in Hin|].
  destruct (avg (lta_ d1) <? min_amplitude_g (cfg_ d1)).
  { cbn [snd]. intros Hin.
    destruct (emit_dbg_other d1 (i_mag i) (i_mag i) (avg (sta_ d1)) (avg (lta_ d1)) zero
                (var (cal_ d1)) (dyn_threshold d1) ts (total_ d1 mod 10 =? 0)%N)
      as (_ & He & _).
    cbv zeta in He. apply (not_in_filtered _ _ _ He) in Hin. discriminate. }
  destruct (emit_dbg_other d1 (i_mag i) (i_mag i) (avg (sta_ d1)) (avg (lta_ d1))
              (sta_lta_ratio d1) (var (cal_ d1)) (dyn_threshold d1) ts
              (total_ d1 mod 10 =? 0)%N) as (_ & He & _).
  cbv zeta in He.
  set (dbg := if (total_ d1 mod 10 =? 0)%N then _ else _) in *. clearbody dbg.
  cbn [snd]. intros Hin. apply elem_of_app in Hin as [Hin|Hin].
  { apply (not_in_filtered _ _ _ He) in Hin. discriminate. }
  destruct (st_ d1) eqn:Hs; cbn [is_confirm].
  - destruct (state_machine_idle d1 (i_ax i) (i_ay i) (i_az i) (i_mag i)
                (sta_lta_ratio d1) (dyn_threshold d1) ts Hs) as (H2 & _).
    rewrite H2 in Hin. now apply elem_of_nil in Hin.
  - pose proof (state_machine_confirm d1 (i_ax i) (i_ay i) (i_az i) (i_mag i)
                  (sta_lta_ratio d1) (dyn_threshold d1) ts Hs) as Hsm.
    cbv zeta in Hsm.
    destruct (confirm_accumulate_peak d1 (i_ax i) (i_ay i) (i_az i) (i_mag i))
      as (Hp & Ht & Hc).
    set (sm := state_machine _ _ _ _ _ _ _ _) in *.
    set (dc := confirm_accumulate _ _ _ _ _) in *.
    clearbody sm dc.
    destruct (sta_lta_ratio d1 >=? dyn_threshold d1); cbn [andb] in Hsm.
    2: { destruct Hsm as (H2 & _). rewrite H2 in Hin. now apply elem_of_nil in Hin. }
    destruct (N.leb_spec (min_sustained (cfg_ d1)) (sc_ dc)) as [Hms|Hms].
    2: { destruct Hsm as (H2 & _). rewrite H2 in Hin. now apply elem_of_nil in Hin. }
    destruct (RejectCode_eqb (check_reject dc) RC_NONE).
    + destruct Hsm as (H2 & _). rewrite H2 in Hin.
      apply elem_of_cons in Hin as [Hin|Hin]; [discriminate|].
      apply fire_inv in Hin as (E1 & E2 & E3 & _ & E5 & E6).
      cbn in E1, E2, E5, E6.
      rewrite E1, E2, E3, E5, E6, Hp, Ht, Hc. repeat split. intros _. lia.
    + destruct Hsm as (H2 & _). rewrite H2 in Hin.
      apply list_elem_of_singleton in Hin. discriminate.
  - pose proof (state_machine_triggered d1 (i_ax i) (i_ay i) (i_az i) (i_mag i)
                  (sta_lta_ratio d1) (dyn_threshold d1) ts Hs) as Hsm.
    cbv zeta in Hsm.
    set (sm := state_machine _ _ _ _ _ _ _ _) in *. clearbody sm.
    destruct (sta_lta_ratio d1 <? sta_lta_detrigger (cfg_ d1)).
    + destruct Hsm as (H2 & _). rewrite H2 in Hin.
      apply fire_inv in Hin as (E1 & E2 & E3 & _ & E5 & E6).
      cbn in E1, E2, E5, E6.
      rewrite E1, E2, E3, E5, E6. repeat split. discriminate.
    + destruct Hsm as (H2 & _). rewrite H2 in Hin. now apply elem_of_nil in Hin.
Qed.

(** *** The periodicity check below 60 samples *)

(** X8.  When the configured sample rate binds the periodicity ring to
    fewer than 60 slots (a rate below 15 Hz), [autocorr] is 0 on every
    reachable detector, so unless the threshold is negative the
    cascade never reports PERIODICITY: the check is silently skipped. *)
Theorem periodicity_skipped_below_60 d :
  reachable d ->
  (bound_cap PER_MAX (to_u32 (lit 4 1 * sample_rate_hz (cfg_ d))%num) < 60)%N ->
  autocorr d = zero /\
  ((zero >? periodicity_thresh (cfg_ d)) = false -> check_reject d <> PERIODICITY).
Proof.
  intros Hd Hcap.
  destruct (reachable_caps d Hd) as (_ & _ & _ & Hc).
  destruct (reachable_is_sound d Hd) as [_ _ _ _ _ _ (_ & _ & _ & Hn) _].
  assert (Ha : autocorr d = zero).
  { unfold autocorr. cbv zeta. unfold size.
    destruct (N.ltb_spec (n_ (per_ d)) 60); [reflexivity | lia]. }
  split; [exact Ha|]. intros Hth.
  unfold check_reject, periodicity_fails. rewrite Ha, Hth.
  destruct (axis_fails d); [discriminate|].
  destruct (freq_fails d); [discriminate|].
  destruct (full (per_ d)); destruct (energy_fails d); discriminate.
Qed.

(** *** The bridge *)

Lemma native_run_some d (xs : list (JSample F)) :
  native_run (Some d) xs =
    (Some (run d (map sample_of xs)).1, (run d (map sample_of xs)).2).
Proof.
  revert d. induction xs as [|x xs IH]; intros d; [reflexivity|].
  cbn [native_run map run]. cbv zeta.
  change (nativeProcessSample (Some d) (j_ax x) (j_ay x) (j_az x) (j_ts x))
    with (Some (step d (sample_of x)).1, (step d (sample_of x)).2).
  set (p := step d (sample_of x)). clearbody p. cbn [fst snd].
  rewrite IH. reflexivity.
Qed.

Lemma native_run_none (xs : list (JSample F)) : native_run None xs = (None, []).
Proof. induction xs as [|x xs IH]; [reflexivity|]. cbn. now rewrite IH. Qed.

(** X9.  [nativeSetTrigger] on a live detector installs the new base
    trigger and leaves every other configuration field, the state of
    the state machine, the cooldown and the sample count as they were;
    but it empties the four rings, so the next [LTA capacity - 1]
    calls of [nativeProcessSample] invoke no callback, whatever the
    samples and even if an event is in progress.  Without a live
    detector (before [nativeInit], after [nativeDestroy]) it does
    nothing and samples are ignored. *)
Theorem native_set_trigger_disarms d (trig : F) (xs : list (JSample F)) :
  reachable d ->
  (N.of_nat (length xs) < cap_ (lta_ d))%N ->
  exists d',
    nativeSetTrigger (Some d) trig = Some d' /\
    cfg_ d' = with_trigger trig (cfg_ d) /\
    (st_ d', cd_ d', total_ d', lr_ d') = (st_ d, cd_ d, total_ d, lr_ d) /\
    cap_ (lta_ d') = cap_ (lta_ d) /\
    (size (sta_ d'), size (lta_ d'), size (cal_ d'), size (per_ d')) = (0, 0, 0, 0)%N /\
    (native_run (Some d') xs).2 = [] /\
    native_run (nativeSetTrigger (nativeDestroy (Some d)) trig) xs = (None, []).
Proof.
  intros Hd Hlen. eexists. split; [reflexivity|].
  destruct (reachable_caps d Hd) as (_ & Hcap & _).
  destruct (reachable_is_sound d Hd) as [_ _ _ _ (_ & Hb & _) _ _ _].
  set (d' := update_config (with_trigger trig (config d)) d).
  assert (Hc' : cap_ (lta_ d') = bound_cap LTA_MAX (lta_window (cfg_ d))) by reflexivity.
  assert (Hn' : n_ (lta_ d') = 0%N) by reflexivity.
  split; [reflexivity|]. split; [reflexivity|].
  split; [congruence|]. split; [reflexivity|].
  split; [|apply native_run_none].
  rewrite native_run_some. cbn [snd].
  rewrite <- Hcap in Hc'. clearbody d'.
  apply run_filling.
  - rewrite Hc'. unfold LTA_MAX in Hb. lia.
  - rewrite Hn', Hc', length_map. lia.
Qed.

(** *** What [ingest] computes *)

Lemma ingest_formulas d ax ay az :
  let i := ingest d ax ay az in
  let g := grav_update (grav_ d) ax ay az in
  let bx := bp_process (bpx_ d) (linX g ax) in
  let by_ := bp_process (bpy_ d) (linY g ay) in
  let bz := bp_process (bpz_ d) (linZ g az) in
  let fx := hp_process (hx_ d) bx.1 (hp_alpha (cfg_ d)) in
  let fy := hp_process (hy_ d) by_.1 (hp_alpha (cfg_ d)) in
  let fz := hp_process (hz_ d) bz.1 (hp_alpha (cfg_ d)) in
  grav_ (i_det i) = g /\
  (bpx_ (i_det i), bpy_ (i_det i), bpz_ (i_det i)) = (bx.2, by_.2, bz.2) /\
  (hx_ (i_det i), hy_ (i_det i), hz_ (i_det i)) = (fx.2, fy.2, fz.2) /\
  (i_ax i, i_ay i, i_az i) = (fx.1, fy.1, fz.1) /\
  i_mag i = sqrt (fx.1 * fx.1 + fy.1 * fy.1 + fz.1 * fz.1).
Proof. repeat split. Qed.

(** *** The amplitude gate *)

(** X17.  While the LTA average is below [min_amplitude_g], the state
    machine does not run: a sample that passes the cooldown and LTA
    gates leaves the state, the sustained count, the duration, the
    peak and the last reject code as they were, invokes no event
    callback and no rejection cascade, and its telemetry (if any)
    reports ratio 0 and the unchanged state.  In particular an event
    in progress is not ended (no de-trigger) while the signal is that
    quiet. *)
Theorem amplitude_gate_freezes_state d ax ay az ts :
  cd_ d = 0%N ->
  let i := ingested d ax ay az in
  full (lta_ (i_det i)) = true ->
  (avg (lta_ (i_det i)) <? min_amplitude_g (cfg_ d))%num = true ->
  let p := process_sample d ax ay az ts in
  (st_ p.1, sc_ p.1, dur_ p.1, pk_ p.1, cd_ p.1, lr_ p.1) =
    (st_ d, sc_ d, dur_ d, pk_ d, cd_ d, lr_ d) /\
  filter is_event p.2 = [] /\ filter is_checked p.2 = [] /\
  (forall t, OnDebug t ∈ p.2 -> ratio t = zero /\ state t = State_code (st_ d)).
Proof.
  intros Hcd. cbv zeta. rewrite process_sample_cases. cbv zeta.
  assert (Hi : cfg_ (i_det (ingested d ax ay az)) = cfg_ d /\
               (st_ (i_det (ingested d ax ay az)), sc_ (i_det (ingested d ax ay az)),
                dur_ (i_det (ingested d ax ay az)), pk_ (i_det (ingested d ax ay az)),
                cd_ (i_det (ingested d ax ay az)), lr_ (i_det (ingested d ax ay az))) =
               (st_ d, sc_ d, dur_ d, pk_ d, cd_ d, lr_ d)) by (split; reflexivity).
  destruct Hi as (Hcfg & Hk).
  set (i := ingested d ax ay az) in *. clearbody i.
  set (d1 := i_det i) in *. clearbody d1.
  intros Hfull Hlow.
  replace (0 <? cd_ d)%N with false by now rewrite Hcd.
  rewrite Hfull, Hcfg, Hlow. cbn [negb fst snd].
  split; [exact Hk|].
  injection Hk as Hst _ _ _ _ _.
  destruct (total_ d1 mod 10 =? 0)%N.
  - unfold emit_dbg. destruct (on_dbg_ d1).
    + split; [reflexivity|]. split; [reflexivity|].
      intros t Ht. apply list_elem_of_singleton in Ht. injection Ht as ->.
      cbn. rewrite Hst. split; reflexivity.
    + split; [reflexivity|]. split; [reflexivity|].
      intros t Ht. now apply elem_of_nil in Ht.
  - split; [reflexivity|]. split; [reflexivity|].
    intros t Ht. now apply elem_of_nil in Ht.
Qed.

(** *** How the operations compose *)

Lemma update_config_parts (c : Config F) d :
  let u := update_config c d in
  cfg_ u = c /\
  (sta_ u, lta_ u, cal_ u, per_ u) =
    (set_cap STA_MAX (sta_window c) (sta_ d), set_cap LTA_MAX (lta_window c) (lta_ d),
     set_cap CAL_MAX (calib_window c) (cal_ d),
     set_cap PER_MAX (to_u32 (lit 4 1 * sample_rate_hz c)) (per_ d)) /\
  (hx_ u, hy_ u, hz_ u, bpx_ u, bpy_ u, bpz_ u, grav_ u) =
    (hx_ d, hy_ d, hz_ d, bpx_ d, bpy_ d, bpz_ d, grav_ d) /\
  (st_ u, sc_ u, dur_ u, cd_ u, zc_ u, pk_ u, t0_ u) =
    (st_ d, sc_ d, dur_ d, cd_ d, zc_ d, pk_ d, t0_ d) /\
  (ps_ u, ap_ u, ae_ u, total_ u, lr_ u, on_ev_ u, on_dbg_ u) =
    (ps_ d, ap_ d, ae_ d, total_ d, lr_ d, on_ev_ d, on_dbg_ d).
Proof. repeat split. Qed.

Lemma set_cap_set_cap (MAX_N c1 c2 : N) (r : Ring F) :
  set_cap MAX_N c2 (set_cap MAX_N c1 r) = set_cap MAX_N c2 r.
Proof. unfold set_cap, ring_reset. cbn. now rewrite length_replicate. Qed.

Lemma ring_reset_idem (r : Ring F) : ring_reset (ring_reset r) = ring_reset r.
Proof. unfold ring_reset. cbn. now rewrite length_replicate. Qed.

(** X14.  [update_config] absorbs an earlier [update_config] and
    [reset] is idempotent: what the first call did is not visible
    after the second. *)
Theorem update_config_absorbs (c1 c2 : Config F) d :
  update_config c2 (update_config c1 d) = update_config c2 d /\
  reset (reset d) = reset d.
Proof.
  split.
  - destruct (update_config_parts c1 d) as (A1 & A2 & A3 & A4 & A5).
    cbv zeta in *. set (u1 := update_config c1 d) in *. clearbody u1.
    destruct (update_config_parts c2 u1) as (B1 & B2 & B3 & B4 & B5).
    destruct (update_config_parts c2 d) as (C1 & C2 & C3 & C4 & C5).
    cbv zeta in *.
    set (u := update_config c2 u1) in *. set (v := update_config c2 d) in *.
    clearbody u v.
    injection A2 as A2a A2b A2c A2d. injection B2 as B2a B2b B2c B2d.
    injection C2 as C2a C2b C2c C2d.
    rewrite A2a in B2a. rewrite A2b in B2b. rewrite A2c in B2c. rewrite A2d in B2d.
    rewrite set_cap_set_cap in B2a, B2b, B2c, B2d.
    injection A3 as ? ? ? ? ? ? ?. injection B3 as ? ? ? ? ? ? ?.
    injection C3 as ? ? ? ? ? ? ?.
    injection A4 as ? ? ? ? ? ? ?. injection B4 as ? ? ? ? ? ? ?.
    injection C4 as ? ? ? ? ? ? ?.
    injection A5 as ? ? ? ? ? ? ?. injection B5 as ? ? ? ? ? ? ?.
    injection C5 as ? ? ? ? ? ? ?.
    apply detector_ext; congruence.
  - destruct (reset_parts d) as (P1 & P2 & P3 & P4 & P5 & P6 & P7 & P8).
    set (r1 := reset d) in *. clearbody r1.
    destruct (reset_parts r1) as (Q1 & Q2 & Q3 & Q4 & Q5 & Q6 & Q7 & Q8).
    set (r2 := reset r1) in *. clearbody r2.
    injection P1 as P1a P1b P1c. injection Q1 as Q1a Q1b Q1c.
    injection P2 as P2a P2b P2c P2d. injection Q2 as Q2a Q2b Q2c Q2d.
    injection P7 as P7a P7b P7c P7d. injection Q7 as Q7a Q7b Q7c Q7d.
    injection P8 as ? ? ? ? ? ? ? ? ? ? ?. injection Q8 as ? ? ? ? ? ? ? ? ? ? ?.
    rewrite P1a in Q1a. rewrite P1b in Q1b. rewrite P1c in Q1c.
    rewrite P2a in Q2a. rewrite P2b in Q2b. rewrite P2c in Q2c. rewrite P2d in Q2d.
    rewrite ring_reset_idem in Q2a, Q2b, Q2c, Q2d.
    change (bp_reset (bp_reset (bpx_ d))) with (bp_reset (bpx_ d)) in Q1a.
    change (bp_reset (bp_reset (bpy_ d))) with (bp_reset (bpy_ d)) in Q1b.
    change (bp_reset (bp_reset (bpz_ d))) with (bp_reset (bpz_ d)) in Q1c.
    apply detector_ext; congruence.
Qed.

(** *** Events come in pairs *)

Lemma flip_is_edge (s s' : State) :
  legal s s' = true -> edge s s' = negb (Bool.eqb (is_triggered s) (is_triggered s')).
Proof. destruct s, s'; cbn; congruence. Qed.

(** X15.  With an event callback set, over any stream of samples the
    number of emitted events is odd exactly when the run moves the
    detector into or out of TRIGGERED: trigger and de-trigger events
    alternate, so from a detector that is not TRIGGERED an odd count
    means an event is in progress and an even count means none is. *)
Theorem events_come_in_pairs d xs :
  on_ev_ d = true ->
  let r := run d xs in
  Nat.even (length (filter is_event r.2)) =
    Bool.eqb (is_triggered (st_ d)) (is_triggered (st_ r.1)).
Proof.
  revert d. induction xs as [|x xs IH]; intros d Hev.
  - cbn. now destruct (st_ d).
  - cbn [run]. cbv zeta. unfold step.
    destruct (process_sample_edges d (s_ax x) (s_ay x) (s_az x) (s_ts x)) as (Hl & He).
    destruct (process_sample_static d (s_ax x) (s_ay x) (s_az x) (s_ts x))
      as (_ & Hev1 & _).
    set (p := process_sample d (s_ax x) (s_ay x) (s_az x) (s_ts x)) in *. clearbody p.
    rewrite Hev in He, Hev1. cbn [andb] in He.
    specialize (IH p.1 Hev1). cbv zeta in IH.
    set (r := run p.1 xs) in *. clearbody r. cbn [fst snd].
    rewrite filter_app, length_app, Nat.even_add, IH, He.
    rewrite (flip_is_edge _ _ Hl).
    destruct (is_triggered (st_ d)), (is_triggered (st_ p.1)), (is_triggered (st_ r.1));
      reflexivity.
Qed.
End Invariants.

(** * Runs in binary32 *)

Module Runs.
Import B32 Scenario.

(** C1, counterexample.  Default configuration ([cooldown] = 500),
    stream [quake].  Sample 519 is the trigger edge: an event is
    emitted and the detector is TRIGGERED with the cooldown counter at
    0.  Within the next 37 samples a second event is emitted and the
    state goes back to IDLE. *)
Lemma trigger_edge_starts_no_cooldown :
  let d := (run (new true true) (quake 1 518)).1 in
  let p := step d (quake_sample 519) in
  let r := run p.1 (quake 520 37) in
  st_ d = CONFIRM /\ existsb is_event p.2 = true /\
  cooldown (cfg_ p.1) = 500%N /\ cd_ p.1 = 0%N /\ st_ p.1 = TRIGGERED /\
  (N.of_nat (length (quake 520 37)) <= cooldown (cfg_ p.1))%N /\
  existsb is_event r.2 = true /\ st_ r.1 = IDLE.
Proof. vm_compute. repeat split; discriminate. Qed.

(** C2, counterexample.  After one sample each ring holds one element;
    [update_config] with the detector's own configuration leaves the
    four capacities as they were and empties the four rings. *)
Lemma update_config_same_capacity_clears :
  let d := (step (new true true) (rest_sample 1)).1 in
  let d' := update_config (config d) d in
  (cap_ (sta_ d'), cap_ (lta_ d'), cap_ (cal_ d'), cap_ (per_ d')) =
    (cap_ (sta_ d), cap_ (lta_ d), cap_ (cal_ d), cap_ (per_ d)) /\
  (size (sta_ d), size (lta_ d), size (cal_ d), size (per_ d)) = (1, 1, 1, 1)%N /\
  (size (sta_ d'), size (lta_ d'), size (cal_ d'), size (per_ d')) = (0, 0, 0, 0)%N.
Proof. vm_compute. repeat split. Qed.

(** C3, counterexample.  Stream [quake], debug callback set.  Sample
    560 falls in the cooldown that follows the de-trigger at 556: the
    total is 560, the LTA ring is full, and nothing is called. *)
Lemma cooldown_sample_skips_debug :
  let d := (run (new true true) (quake 1 559)).1 in
  let p := step d (quake_sample 560) in
  on_dbg_ d = true /\ total_ p.1 = 560%N /\ (total_ p.1 mod 10 = 0)%N /\
  full (lta_ p.1) = true /\ cd_ d = 497%N /\ p.2 = [].
Proof. vm_compute. repeat split. Qed.

(** C4, at the failing input.  A phone at rest reads (0, 0, -1) g: the
    raw magnitude of every sample is 1.  The telemetry of sample 500
    reports 0 in [raw_mag], the magnitude after the filters. *)
Theorem raw_mag_reports_filtered_magnitude :
  let r := run (new true true) (rest 1 500) in
  raw_norm (rest_sample 500) = lit 1 1 /\
  exists t, r.2 = [OnDebug t] /\ raw_mag t = zero /\ filt_mag t = zero.
Proof. vm_compute. split; [reflexivity|]. eexists. repeat split. Qed.

(** C5, counterexample.  Default configuration with
    [periodicity_thresh] set to [swell_peak], stream [swell].  Sample
    557 is a candidate; the periodicity ring is full and the
    autocorrelation peak equals the threshold, so peak >= threshold
    holds, yet the cascade returns NONE and the event is emitted. *)
Lemma periodicity_peak_at_threshold_passes :
  let d := (run (update_config (with_periodicity_thresh swell_peak) (new true true))
                (swell 1 556)).1 in
  let x := swell_sample 557 in
  let dc := confirmed d (s_ax x) (s_ay x) (s_az x) in
  let p := step d x in
  candidate d (s_ax x) (s_ay x) (s_az x) = true /\
  full (per_ dc) = true /\
  autocorr dc = periodicity_thresh (cfg_ dc) /\
  (autocorr dc >=? periodicity_thresh (cfg_ dc))%num = true /\
  check_reject dc = RC_NONE /\
  filter is_checked p.2 = [Checked RC_NONE] /\
  existsb is_event p.2 = true /\ st_ p.1 = TRIGGERED.
Proof. vm_compute. repeat split. Qed.
End Runs.

(** * The theorems at concrete inputs *)

Module Witness.
Import B32 Scenario.

(** Stream [quake]: sample 556 is the de-trigger edge; the four
    samples after it are dropped by the cooldown. *)
Lemma cooldown_after_detrigger_witness :
  let d := (run (new true true) (quake 1 555)).1 in
  let x := quake_sample 556 in
  let xs := quake 557 4 in
  (existsb is_rejection (step d x).2
   || is_triggered (st_ d) && existsb is_event (step d x).2 = true) /\
  (N.of_nat (length xs) <= cooldown (cfg_ d))%N /\
  st_ (step d x).1 = IDLE /\
  (run (step d x).1 xs).2 = [] /\
  cd_ (run (step d x).1 xs).1 = (cooldown (cfg_ d) - N.of_nat (length xs))%N.
Proof.
  cbv zeta.
  assert (H1 : existsb is_rejection
                 (step (run (new true true) (quake 1 555)).1 (quake_sample 556)).2
               || is_triggered (st_ (run (new true true) (quake 1 555)).1)
                  && existsb is_event
                       (step (run (new true true) (quake 1 555)).1 (quake_sample 556)).2
               = true) by (vm_compute; reflexivity).
  assert (H2 : (N.of_nat (length (quake 557 4))
                <= cooldown (cfg_ (run (new true true) (quake 1 555)).1))%N)
    by (vm_compute; discriminate).
  destruct (cooldown_after_detrigger_or_rejection
              (run (new true true) (quake 1 555)).1 (quake_sample 556) (quake 557 4))
    as [HA _].
  destruct (HA H1 H2) as (Hst & _ & Hr & _ & Hcd & _).
  exact (conj H1 (conj H2 (conj Hst (conj Hr Hcd)))).
Defined.

(** Stream [swell] with the periodicity threshold at 0.05, below the
    autocorrelation peak of sample 557: the candidate is rejected with
    PERIODICITY. *)
Lemma periodicity_rejects_witness :
  let d := (run (update_config (with_periodicity_thresh (lit 5 100)) (new true true))
                (swell 1 556)).1 in
  let x := swell_sample 557 in
  let dc := confirmed d (s_ax x) (s_ay x) (s_az x) in
  let p := process_sample d (s_ax x) (s_ay x) (s_az x) (s_ts x) in
  candidate d (s_ax x) (s_ay x) (s_az x) = true /\
  axis_fails dc = false /\ freq_fails dc = false /\ full (per_ dc) = true /\
  (autocorr dc >? periodicity_thresh (cfg_ d))%num = true /\
  filter is_checked p.2 = [Checked PERIODICITY] /\ lr_ p.1 = PERIODICITY.
Proof.
  cbv zeta.
  set (d := (run (update_config (with_periodicity_thresh (lit 5 100)) (new true true))
                 (swell 1 556)).1).
  set (x := swell_sample 557).
  assert (H1 : candidate d (s_ax x) (s_ay x) (s_az x) = true) by (vm_compute; reflexivity).
  assert (H2 : axis_fails (confirmed d (s_ax x) (s_ay x) (s_az x)) = false)
    by (vm_compute; reflexivity).
  assert (H3 : freq_fails (confirmed d (s_ax x) (s_ay x) (s_az x)) = false)
    by (vm_compute; reflexivity).
  assert (H4 : full (per_ (confirmed d (s_ax x) (s_ay x) (s_az x))) = true)
    by (vm_compute; reflexivity).
  assert (H5 : (autocorr (confirmed d (s_ax x) (s_ay x) (s_az x))
                >? periodicity_thresh (cfg_ d))%num = true) by (vm_compute; reflexivity).
  pose proof (periodicity_rejects_strictly_above d (s_ax x) (s_ay x) (s_az x) (s_ts x)
                H1 H2 H3 H4) as H.
  cbv zeta in H. rewrite H5 in H. destruct H as (Ha & Hb & _).
  exact (conj H1 (conj H2 (conj H3 (conj H4 (conj H5 (conj Ha Hb)))))).
Defined.

(** Stream [knock]: sample 521 is a candidate and the frequency check
    is the first to fail. *)
Lemma cascade_once_witness :
  let d := (run (new true true) (knock 1 520)).1 in
  let x := knock_sample 521 in
  let p := process_sample d (s_ax x) (s_ay x) (s_az x) (s_ts x) in
  candidate d (s_ax x) (s_ay x) (s_az x) = true /\
  filter is_checked p.2 = [Checked FREQUENCY] /\
  st_ p.1 = IDLE /\ lr_ p.1 = FREQUENCY.
Proof.
  cbv zeta.
  set (d := (run (new true true) (knock 1 520)).1).
  set (x := knock_sample 521).
  assert (H1 : candidate d (s_ax x) (s_ay x) (s_az x) = true) by (vm_compute; reflexivity).
  assert (H2 : first_failing (confirmed d (s_ax x) (s_ay x) (s_az x)) = FREQUENCY)
    by (vm_compute; reflexivity).
  destruct (cascade_once_first_failing d (s_ax x) (s_ay x) (s_az x) (s_ts x))
    as (_ & Hc & Hs).
  rewrite H1, H2 in Hc. rewrite H2 in Hs. destruct (Hs H1) as (Hst & Hlr & _).
  exact (conj H1 (conj Hc (conj Hst Hlr))).
Defined.

(** A phone at rest: sample 500 is the first to reach trigger
    evaluation. *)
Lemma dynamic_threshold_witness :
  let d := (run (new true true) (rest 1 499)).1 in
  let x := rest_sample 500 in
  let i := ingested d (s_ax x) (s_ay x) (s_az x) in
  cd_ d = 0%N /\ full (lta_ (i_det i)) = true /\
  forall t, OnDebug t ∈ (process_sample d (s_ax x) (s_ay x) (s_az x) (s_ts x)).2 ->
    adaptive_trigger t =
      clamp (sta_lta_trigger (cfg_ d)
             + sqrt (var (push (i_mag i) (cal_ d))) * lit 100 1)%num
            (adaptive_trig_min (cfg_ d)) (adaptive_trig_max (cfg_ d)).
Proof.
  cbv zeta.
  set (d := (run (new true true) (rest 1 499)).1).
  set (x := rest_sample 500).
  assert (H1 : cd_ d = 0%N) by (vm_compute; reflexivity).
  assert (H2 : full (lta_ (i_det (ingested d (s_ax x) (s_ay x) (s_az x)))) = true)
    by (vm_compute; reflexivity).
  split; [exact H1|]. split; [exact H2|].
  intros t Ht.
  exact (proj2 (proj1 (dynamic_threshold_formula d (s_ax x) (s_ay x) (s_az x) (s_ts x)
                         H1 H2) t Ht)).
Defined.

(** The default configuration: nothing is called during three samples
    after construction. *)
Lemma no_event_before_lta_full_witness :
  (0 < lta_window (default_config (F := B32.t)) <= LTA_MAX)%N /\
  (N.of_nat (length (rest 1 3)) <= lta_window (default_config (F := B32.t)) - 1)%N /\
  (run (update_config default_config (new true true)) (rest 1 3)).2 = [].
Proof.
  assert (H1 : (0 < lta_window (default_config (F := B32.t)) <= LTA_MAX)%N)
    by (vm_compute; split; [reflexivity | discriminate]).
  assert (H2 : (N.of_nat (length (rest 1 3))
                <= lta_window (default_config (F := B32.t)) - 1)%N)
    by (vm_compute; discriminate).
  split; [exact H1|]. split; [exact H2|].
  exact (proj1 (no_event_before_lta_full default_config true true (new true true)
                  (rest 1 3) H1 H2)).
Defined.

(** Three samples after [reset] of a fresh detector. *)
Lemma reset_arms_cooldown_witness :
  (N.of_nat (length (rest 1 3)) <= cooldown (cfg_ (new (F := B32.t) true true)))%N /\
  cd_ (reset (new (F := B32.t) true true)) = 500%N /\
  (run (reset (new true true)) (rest 1 3)).2 = [].
Proof.
  assert (H1 : (N.of_nat (length (rest 1 3))
                <= cooldown (cfg_ (new (F := B32.t) true true)))%N)
    by (vm_compute; discriminate).
  destruct (reset_arms_cooldown (new true true) (rest 1 3) true true
              (lit 0 1) (lit 0 1) (lit (-1) 1) 20%N H1) as (Hcd & Hr & _).
  destruct Hr as (Hr & _).
  split; [exact H1|]. split; [exact Hcd | exact Hr].
Defined.
End Witness.

(** * Numerical safeguards in binary32 *)

Module Safeguards.
Import B32 Sign.

Lemma ltb_irrefl (x : B32.t) : SFltb x x = false.
Proof.
  destruct x as [s|s| |s m e]; try (destruct s; reflexivity); try reflexivity.
  unfold SFltb, SFcompare.
  destruct s; rewrite Z.compare_refl, Pos.compare_refl; reflexivity.
Qed.

Lemma above_zero_nonneg (v : B32.t) :
  SFltb (S754_zero false) v = true -> is_nonneg v = true.
Proof. destruct v as [s|s| |s m e]; try destruct s; cbn; congruence. Qed.

Lemma above_nonneg_nonneg (b c : B32.t) :
  is_nonneg b = true -> SFltb b c = true -> is_nonneg c = true.
Proof.
  destruct b as [sb|sb| |sb mb eb]; destruct c as [sc|sc| |sc mc ec];
    try destruct sb; try destruct sc; cbn; congruence.
Qed.

Lemma nonneg_not_below_zero (v : B32.t) :
  is_nonneg v = true -> SFltb v (S754_zero false) = false /\ is_nan v = false.
Proof. destruct v as [s|s| |s m e]; try destruct s; cbn; split; congruence. Qed.

Lemma fmax_nonneg (b c : B32.t) : is_nonneg b = true -> is_nonneg (fmax b c) = true.
Proof.
  intros Hb. unfold fmax. cbn [ltb num].
  destruct (SFltb b c) eqn:E; [|exact Hb].
  now apply (above_nonneg_nonneg b c).
Qed.

Lemma fold_left_invariant {A B} (P : A -> Prop) (f : A -> B -> A) (l : list B) (a : A) :
  (forall a b, P a -> P (f a b)) -> P a -> P (fold_left f l a).
Proof.
  intros Hf. revert a. induction l as [|b l IH]; intros a Ha; [exact Ha|].
  cbn. apply IH, Hf, Ha.
Qed.

(** X10.  Whatever a ring holds (also infinities and NaN in the array
    or in the running sums), [var] never returns NaN and never a
    negative number: it is [0], a positive number or [+inf]. *)
Theorem var_never_negative_nor_nan (r : Ring B32.t) :
  is_nonneg (var r) = true /\
  is_nan (var r) = false /\ (var r <? zero)%num = false.
Proof.
  assert (Hn : is_nonneg (var r) = true).
  { unfold var. destruct (n_ r <? 2)%N; [reflexivity|]. cbv zeta.
    set (v := (sq_ r / of_u32 (n_ r) - avg r * avg r)%num). clearbody v.
    cbn [ltb num zero]. destruct (SFltb (S754_zero false) v) eqn:E; [|reflexivity].
    now apply above_zero_nonneg. }
  destruct (nonneg_not_below_zero _ Hn) as (H1 & H2).
  repeat split; assumption.
Qed.

(** X11.  Whatever the periodicity ring holds and whatever the
    configured sample rate, [autocorr] never returns NaN and never a
    negative number: a lag whose normalised correlation is negative or
    NaN does not replace the running best, which starts at [0]. *)
Theorem autocorr_never_negative_nor_nan (d : Detector B32.t) :
  is_nonneg (autocorr d) = true /\
  is_nan (autocorr d) = false /\ (autocorr d <? zero)%num = false.
Proof.
  assert (Hn : is_nonneg (autocorr d) = true).
  { unfold autocorr. cbv zeta.
    destruct (size (per_ d) <? 60)%N; [reflexivity|].
    match goal with |- context [if ?c then _ else _] => destruct c end;
      [reflexivity|].
    apply (fold_left_invariant (fun b => is_nonneg b = true)); [|reflexivity].
    intros a k Ha. now apply fmax_nonneg. }
  destruct (nonneg_not_below_zero _ Hn) as (H1 & H2).
  repeat split; assumption.
Qed.

(** X12.  If [adaptive_trig_max] is not below [adaptive_trig_min], the
    dynamic threshold never compares below [adaptive_trig_min] nor
    above [adaptive_trig_max], whatever the calibration ring holds and
    whatever the base trigger is. *)
Theorem dyn_threshold_within_bounds (d : Detector B32.t) :
  (adaptive_trig_max (cfg_ d) <? adaptive_trig_min (cfg_ d))%num = false ->
  (dyn_threshold d <? adaptive_trig_min (cfg_ d))%num = false /\
  (adaptive_trig_max (cfg_ d) <? dyn_threshold d)%num = false.
Proof.
  intros Hord. unfold dyn_threshold, clamp.
  set (v := (sta_lta_trigger (cfg_ d) + sqrt (var (cal_ d)) * lit 100 1)%num).
  set (lo := adaptive_trig_min (cfg_ d)) in *.
  set (hi := adaptive_trig_max (cfg_ d)) in *.
  clearbody v lo hi. cbn [ltb num] in *.
  destruct (SFltb v lo) eqn:E1.
  - split; [apply ltb_irrefl | exact Hord].
  - destruct (SFltb hi v) eqn:E2.
    + split; [exact Hord | apply ltb_irrefl].
    + split; assumption.
Qed.

Lemma leb_trans (t a b : B32.t) :
  SFleb t a = true -> SFleb a b = true -> SFleb t b = true.
Proof.
  unfold SFleb, SFcompare.
  destruct t as [st|st| |st mt et]; destruct a as [sa|sa| |sa ma ea];
    destruct b as [sb|sb| |sb mb eb];
    try destruct st; try destruct sa; try destruct sb; try congruence; try reflexivity.
  all: change (Pos.compare_cont Eq) with Pos.compare.
  all: destruct (Z.compare_spec et ea); destruct (Z.compare_spec ea eb);
    destruct (Z.compare_spec et eb); try congruence; try lia; subst.
  all: destruct (Pos.compare_spec mt ma); destruct (Pos.compare_spec ma mb);
    destruct (Pos.compare_spec mt mb); cbn; try congruence; try lia.
Qed.

(** X16.  [severity] is monotone in binary32: a peak that compares
    at or above another one never gets a lower alert level.  A NaN
    peak compares with nothing and gets level NONE. *)
Theorem severity_monotone (g1 g2 : B32.t) :
  (g1 <=? g2)%num = true ->
  (AlertLevel_code (severity g1) <= AlertLevel_code (severity g2))%N /\
  severity (S754_nan : B32.t) = LVL_NONE.
Proof.
  intros H. split; [|reflexivity].
  assert (T : forall t, SFleb t g1 = true -> SFleb t g2 = true)
    by (intros t Ht; exact (leb_trans t g1 g2 Ht H)).
  unfold severity. cbn [leb flt].
  set (t4 := lit 40 100) in *. set (t3 := lit 15 100) in *.
  set (t2 := lit 5 100) in *. set (t1 := lit 1 100) in *.
  clearbody t1 t2 t3 t4.
  destruct (SFleb t4 g1) eqn:E4; [rewrite (T _ E4); cbn; lia|].
  destruct (SFleb t3 g1) eqn:E3;
    [rewrite (T _ E3); destruct (SFleb t4 g2); cbn; lia|].
  destruct (SFleb t2 g1) eqn:E2;
    [rewrite (T _ E2); destruct (SFleb t4 g2), (SFleb t3 g2); cbn; lia|].
  destruct (SFleb t1 g1) eqn:E1;
    [rewrite (T _ E1); destruct (SFleb t4 g2), (SFleb t3 g2), (SFleb t2 g2); cbn; lia|].
  cbn. lia.
Qed.

Lemma sub_self (x : B32.t) :
  is_settled x = true -> (x - x)%num = zero /\ (x + kAlpha * (x - x))%num = x.
Proof.
  intros Hx.
  assert (Hs : (x - x)%num = zero).
  { destruct x as [s|s| |s m e]; try discriminate.
    - destruct s; [discriminate | reflexivity].
    - cbn [sub num]. unfold SFsub.
      rewrite Z.min_id, Z.sub_diag. reflexivity. }
  split; [exact Hs|]. rewrite Hs.
  destruct x as [s|s| |s m e]; try discriminate.
  - destruct s; [discriminate | reflexivity].
  - reflexivity.
Qed.

(** X18.  A reading equal to the gravity estimate is a fixed point of
    [GravityEstimator::update] in binary32: the estimate does not
    move and the linear acceleration is exactly [+0] on each axis,
    for every finite estimate without a negative zero. *)
Theorem gravity_fixed_point (g : GravityEstimator B32.t) :
  is_settled (gx g) && is_settled (gy g) && is_settled (gz g) = true ->
  let g' := grav_update g (gx g) (gy g) (gz g) in
  g' = g /\
  (linX g' (gx g), linY g' (gy g), linZ g' (gz g)) = (zero, zero, zero).
Proof.
  intros H. apply andb_prop in H as (H & Hz). apply andb_prop in H as (Hx & Hy).
  destruct (sub_self _ Hx) as (X1 & X2).
  destruct (sub_self _ Hy) as (Y1 & Y2).
  destruct (sub_self _ Hz) as (Z1 & Z2).
  cbv zeta. unfold grav_update, linX, linY, linZ. cbn [gx gy gz].
  rewrite X2, Y2, Z2, X1, Y1, Z1. destruct g; split; reflexivity.
Qed.
End Safeguards.

(** * A phone at rest *)

Module AtRest.
Import B32 Scenario Rest.

Lemma push_silent (r : Ring B32.t) : silent r -> silent (push zero r).
Proof.
  intros (Hb & Hs & Hq).
  assert (Hrd : rd (b_ r) (h_ r) = zero).
  { unfold rd. rewrite Hb.
    destruct (replicate (length (b_ r)) zero !! N.to_nat (h_ r)) as [y|] eqn:E;
      [|reflexivity].
    apply lookup_replicate in E as [-> _]. reflexivity. }
  assert (Hins : <[N.to_nat (h_ r) := zero]> (b_ r) = b_ r).
  { destruct (b_ r !! N.to_nat (h_ r)) as [y|] eqn:E.
    - apply list_insert_id. rewrite E. f_equal.
      rewrite Hb in E. now apply lookup_replicate in E as [-> _].
    - apply list_insert_ge. now apply lookup_ge_None. }
  unfold silent, push. cbn [b_ s_ sq_]. rewrite Hins, Hrd, Hs, Hq.
  split; [exact Hb|].
  destruct (n_ r =? cap_ r)%N; split; reflexivity.
Qed.

Lemma silent_avg (r : Ring B32.t) :
  silent r -> n_ r = 500%N -> avg r = zero.
Proof.
  intros (_ & Hs & _) Hn. unfold avg. rewrite Hn, Hs. reflexivity.
Qed.

(** The estimated gravity and the filters are a fixed point of a
    sample at (0, 0, -1) g, and the filtered magnitude is 0. *)
Lemma ingest_at_rest (d : Detector B32.t) :
  resting d ->
  let i := ingest d zero zero (lit (-1) 1) in
  i_mag i = zero /\ grav_ (i_det i) = grav_new /\
  (bpx_ (i_det i), bpy_ (i_det i), bpz_ (i_det i)) = (bp_new, bp_new, bp_new) /\
  (hx_ (i_det i), hy_ (i_det i), hz_ (i_det i)) = (hp_new, hp_new, hp_new).
Proof.
  intros [Hc Hg Hb Hh _ _ _ _ _ _].
  injection Hb as Hb1 Hb2 Hb3. injection Hh as Hh1 Hh2 Hh3.
  destruct (ingest_formulas d zero zero (lit (-1) 1)) as (F1 & F2 & F3 & _ & F5).
  cbv zeta in *.
  rewrite Hg in F1. rewrite Hg, Hb1, Hb2, Hb3 in F2.
  rewrite Hc, Hg, Hb1, Hb2, Hb3, Hh1, Hh2, Hh3 in F3, F5.
  set (i := ingest d zero zero (lit (-1) 1)) in *. clearbody i.
  rewrite F1, F2, F3, F5. clear.
  split; [vm_compute; reflexivity|]. split; [vm_compute; reflexivity|].
  split; vm_compute; reflexivity.
Qed.

Lemma resting_counted (d : Detector B32.t) (a b : N) :
  resting d -> resting (set_cd_ a (set_total_ b d)).
Proof. intros [H1 H2 H3 H4 H5 H6 H7 H8 H9 H10]. split; assumption. Qed.

Lemma resting_total (d : Detector B32.t) (b : N) :
  resting d -> resting (set_total_ b d).
Proof. intros [H1 H2 H3 H4 H5 H6 H7 H8 H9 H10]. split; assumption. Qed.

Lemma resting_ingested (d : Detector B32.t) :
  resting d ->
  let i := ingested d zero zero (lit (-1) 1) in
  resting (i_det i) /\ i_mag i = zero.
Proof.
  intros Hd. unfold ingested.
  pose proof (resting_total d (wrap64 (total_ d + 1)) Hd) as Hd0.
  set (d0 := set_total_ (wrap64 (total_ d + 1)) d) in *. clearbody d0. clear Hd d.
  destruct (ingest_at_rest d0 Hd0) as (Hm & Hg & Hb & Hh).
  destruct (ingest_rings d0 zero zero (lit (-1) 1)) as (R1 & R2 & R3 & R4).
  destruct (ingest_machine d0 zero zero (lit (-1) 1)) as (M1 & M2 & _).
  cbv zeta in *.
  destruct Hd0 as [H1 H2 H3 H4 H5 H6 H7 H8 H9 H10].
  set (i := ingest d0 zero zero (lit (-1) 1)) in *. clearbody i.
  rewrite Hm in R1, R2, R3, R4.
  split; [|exact Hm]. split.
  - congruence.
  - exact Hg.
  - exact Hb.
  - exact Hh.
  - rewrite R1. now apply push_silent.
  - rewrite R2. now apply push_silent.
  - rewrite R3. now apply push_silent.
  - rewrite R4. now apply push_silent.
  - rewrite R2. exact H9.
  - congruence.
Qed.

(** One sample at rest keeps the detector at rest and calls at most the
    debug callback, with zeros. *)
Lemma step_at_rest (d : Detector B32.t) (k : nat) :
  resting d ->
  resting (step d (rest_sample k)).1 /\ Forall quiet (step d (rest_sample k)).2.
Proof.
  intros Hd. unfold step.
  change (process_sample d (s_ax (rest_sample k)) (s_ay (rest_sample k))
            (s_az (rest_sample k)) (s_ts (rest_sample k)))
    with (process_sample d zero zero (lit (-1) 1) (s_ts (rest_sample k))).
  set (ts := s_ts (rest_sample k)). clearbody ts.
  rewrite process_sample_cases. cbv zeta.
  destruct (0 <? cd_ d)%N.
  { cbn [fst snd]. split; [now apply resting_counted | constructor]. }
  destruct (resting_ingested d Hd) as (Hr & Hm). cbv zeta in Hr, Hm.
  set (i := ingested d zero zero (lit (-1) 1)) in *. clearbody i.
  set (d1 := i_det i) in *. clearbody d1. rewrite Hm.
  destruct (full (lta_ d1)) eqn:Hfull; cbn [negb].
  2: { cbn [fst snd]. split; [exact Hr | constructor]. }
  assert (Havg : avg (lta_ d1) = zero).
  { destruct Hr as [_ _ _ _ _ H6 _ _ H9 _].
    apply silent_avg; [exact H6|].
    unfold full in Hfull. apply N.eqb_eq in Hfull. congruence. }
  assert (Hcfg : cfg_ d1 = default_config) by (now destruct Hr).
  rewrite Havg, Hcfg.
  change (zero <? min_amplitude_g default_config)%num with true.
  cbn [fst snd]. split; [exact Hr|].
  destruct (total_ d1 mod 10 =? 0)%N; [|constructor].
  unfold emit_dbg. destruct (on_dbg_ d1); [|constructor].
  constructor; [|constructor]. cbn. repeat split.
Qed.

Lemma run_at_rest (n from : nat) (d : Detector B32.t) :
  resting d ->
  resting (run d (rest from n)).1 /\ Forall quiet (run d (rest from n)).2.
Proof.
  revert from d. induction n as [|n IH]; intros from d Hd.
  - split; [exact Hd | constructor].
  - change (rest from (S n)) with (rest_sample from :: rest (S from) n).
    cbn [run]. cbv zeta.
    destruct (step_at_rest d from Hd) as (Hs1 & Hs2).
    set (p := step d (rest_sample from)) in *. clearbody p.
    destruct (IH (S from) p.1 Hs1) as (Hr1 & Hr2).
    set (r := run p.1 (rest (S from) n)) in *. clearbody r.
    cbn [fst snd]. split; [exact Hr1|]. now apply Forall_app.
Qed.

Lemma silent_set_cap (MAX_N c : N) (r : Ring B32.t) : silent (set_cap MAX_N c r).
Proof.
  unfold silent, set_cap, ring_reset. cbn. now rewrite length_replicate.
Qed.

Lemma resting_new (on_ev on_dbg : bool) : resting (new on_ev on_dbg).
Proof.
  split; try reflexivity.
  - apply (silent_set_cap STA_MAX).
  - apply (silent_set_cap LTA_MAX).
  - apply (silent_set_cap CAL_MAX).
  - apply (silent_set_cap PER_MAX).
Qed.

Lemma quiet_only_debug (l : list (Call B32.t)) :
  Forall quiet l -> filter is_event l = [] /\ filter is_checked l = [].
Proof.
  induction 1 as [|c l Hc Hl IH]; [split; reflexivity|].
  destruct c; cbn in Hc; try contradiction.
  rewrite !filter_cons. cbn. exact IH.
Qed.

(** X13.  A phone lying still, face up, reads (0, 0, -1) g.  Fed any
    number of such samples after construction, the detector never
    emits an event and never reaches the cascade: the gravity estimate
    and the filters stay at their initial values, every magnitude is
    0, the state stays IDLE, and the only calls are telemetry records
    with zero magnitudes, zero LTA and zero ratio. *)
Theorem at_rest_never_fires (on_ev on_dbg : bool) (from n : nat) :
  let r := run (new on_ev on_dbg) (rest from n) in
  filter is_event r.2 = [] /\ filter is_checked r.2 = [] /\
  Forall quiet r.2 /\
  st_ r.1 = IDLE /\ grav_ r.1 = grav_new /\
  (bpx_ r.1, bpy_ r.1, bpz_ r.1) = (bp_new, bp_new, bp_new).
Proof.
  cbv zeta.
  destruct (run_at_rest n from (new on_ev on_dbg) (resting_new on_ev on_dbg))
    as (Hr & Hq).
  set (r := run (new on_ev on_dbg) (rest from n)) in *. clearbody r.
  destruct (quiet_only_debug _ Hq) as (He & Hc).
  destruct Hr as [_ Hg Hb _ _ _ _ _ _ Hst].
  repeat split; assumption.
Qed.
End AtRest.

(** * The further properties at concrete inputs *)

Module Instances.
Import B32 Scenario RingSpec Sign.

Lemma pair_inv {A B} (a a' : A) (b b' : B) : (a, b) = (a', b') -> a = a' /\ b = b'.
Proof. intros H. injection H. auto. Qed.

Lemma tuple4_inv {A B C D} (a a' : A) (b b' : B) (c c' : C) (d d' : D) :
  (a, b, c, d) = (a', b', c', d') -> a = a' /\ b = b' /\ c = c' /\ d = d'.
Proof. intros H. injection H. auto. Qed.

(** Five pushes into a ring of four slots bound to three. *)
Lemma ring_at_is_window_witness :
  (0 < 4 <= 2 ^ 31)%N /\
  length (b_ (ring_new (T := B32.t) 4)) = N.to_nat 4 /\
  at_ (pushes [lit 1 1; lit 2 1; lit 3 1; lit 4 1; lit 5 1]
              (set_cap 4 3 (ring_new (T := B32.t) 4))) 1 = lit 4 1.
Proof.
  assert (H1 : (0 < 4 <= 2 ^ 31)%N) by (vm_compute; split; [reflexivity | discriminate]).
  assert (H2 : length (b_ (ring_new (T := B32.t) 4)) = N.to_nat 4) by reflexivity.
  pose proof (ring_at_is_window 4 3 (ring_new 4)
                [lit 1 1; lit 2 1; lit 3 1; lit 4 1; lit 5 1] 1 H1 H2) as H.
  cbv zeta in H.
  assert (Hw : default zero
                 (window (cap_ (pushes [lit 1 1; lit 2 1; lit 3 1; lit 4 1; lit 5 1]
                                       (set_cap 4 3 (ring_new (T := B32.t) 4))))
                         [lit 1 1; lit 2 1; lit 3 1; lit 4 1; lit 5 1] !! N.to_nat 1)
               = lit 4 1) by (vm_compute; reflexivity).
  exact (conj H1 (conj H2 (eq_trans H Hw))).
Defined.

Lemma ring_count_and_bounds_witness :
  let r := pushes [lit 1 1; lit 2 1; lit 3 1; lit 4 1; lit 5 1]
                  (set_cap 4 9 (ring_new (T := B32.t) 4)) in
  (0 < 4 < 2 ^ 32)%N /\
  length (b_ (ring_new (T := B32.t) 4)) = N.to_nat 4 /\
  cap_ r = 4%N /\ size r = 4%N /\ in_bounds 4 r.
Proof.
  cbv zeta.
  assert (H1 : (0 < 4 < 2 ^ 32)%N) by (vm_compute; split; reflexivity).
  assert (H2 : length (b_ (ring_new (T := B32.t) 4)) = N.to_nat 4) by reflexivity.
  destruct (ring_count_and_bounds 4 9 (ring_new 4)
              [lit 1 1; lit 2 1; lit 3 1; lit 4 1; lit 5 1] H1 H2) as (Hc & Hs & _ & Hb).
  set (r := pushes _ _) in *. clearbody r.
  rewrite Hc in Hs.
  exact (conj H1 (conj H2 (conj Hc (conj Hs Hb)))).
Defined.

(** The detector in the middle of the event of stream [quake]. *)
Lemma reachable_detectors_are_sound_witness :
  let d := (run (new true true) (quake 1 520)).1 in
  reachable d /\ sound d /\
  Forall (fun r => (N.to_nat (h_ r) < length (b_ r))%nat /\ (cap_ r <> 0)%N)
         [sta_ d; lta_ d; cal_ d; per_ d].
Proof.
  cbv zeta. set (d := (run (new true true) (quake 1 520)).1).
  assert (Hd : reachable d) by apply reachable_run, reach_new.
  destruct (reachable_detectors_are_sound d Hd) as (Hs & _ & Hf).
  exact (conj Hd (conj Hs Hf)).
Defined.

Lemma reset_forgets_history_witness :
  let d := (run (new true false) (quake 1 520)).1 in
  reachable d /\ reset d = pristine (cfg_ d) (on_ev_ d) (on_dbg_ d).
Proof.
  cbv zeta. set (d := (run (new true false) (quake 1 520)).1).
  assert (Hd : reachable d) by apply reachable_run, reach_new.
  exact (conj Hd (reset_forgets_history d Hd)).
Defined.

(** Stream [quake]: sample 519 makes the trigger edge. *)
Lemma events_mark_the_edges_witness :
  let d := (run (new true true) (quake 1 518)).1 in
  let p := step d (quake_sample 519) in
  filter is_event p.2 <> [] /\
  ((st_ d = CONFIRM /\ st_ p.1 = TRIGGERED) \/ (st_ d = TRIGGERED /\ st_ p.1 = IDLE)).
Proof.
  cbv zeta. set (d := (run (new true true) (quake 1 518)).1).
  assert (H1 : filter is_event (step d (quake_sample 519)).2 <> [])
    by (vm_compute; discriminate).
  destruct (events_mark_the_edges d (quake_sample 519)) as (_ & _ & _ & H).
  exact (conj H1 (H H1)).
Defined.

(** The event of sample 519 of stream [quake]. *)
Lemma event_fields_witness :
  let d := (run (new true true) (quake 1 518)).1 in
  let x := quake_sample 519 in
  let e := {| level := CRITICAL;
              peak_g := S754_finite false 8890582 (-21);
              sta_lta := S754_finite false 16602073 (-20);
              freq_hz := S754_finite false 10485761 (-21);
              time_ms := 10100; duration := 15 |} in
  OnEvent e ∈ (process_sample d (s_ax x) (s_ay x) (s_az x) (s_ts x)).2 /\
  is_confirm (st_ d) = true /\
  level e = severity (peak_g e) /\ time_ms e = t0_ d /\
  (min_sustained (cfg_ d) <= duration e)%N.
Proof.
  cbv zeta. set (d := (run (new true true) (quake 1 518)).1).
  set (x := quake_sample 519).
  set (e := {| level := CRITICAL;
               peak_g := S754_finite false 8890582 (-21);
               sta_lta := S754_finite false 16602073 (-20);
               freq_hz := S754_finite false 10485761 (-21);
               time_ms := 10100; duration := 15 |}).
  assert (HH : ((process_sample d (s_ax x) (s_ay x) (s_az x) (s_ts x)).2,
                is_confirm (st_ d)) = ([Checked RC_NONE; OnEvent e], true))
    by (vm_compute; reflexivity).
  clearbody d x. destruct (pair_inv _ _ _ _ HH) as (Hp & H2).
  assert (H1 : OnEvent e ∈ (process_sample d (s_ax x) (s_ay x) (s_az x) (s_ts x)).2).
  { rewrite Hp. right. left. }
  destruct (event_fields d (s_ax x) (s_ay x) (s_az x) (s_ts x) e H1)
    as (Hl & _ & _ & Ht & _ & Hm).
  exact (conj H1 (conj H2 (conj Hl (conj Ht (Hm H2))))).
Defined.

(** A detector configured for 10 Hz: the periodicity ring is bound to
    40 slots. *)
Lemma periodicity_skipped_below_60_witness :
  let d := (run (update_config (with_sample_rate (lit 10 1) default_config)
                               (new true true)) (quake 1 3)).1 in
  reachable d /\
  (bound_cap PER_MAX (to_u32 (lit 4 1 * sample_rate_hz (cfg_ d))%num) < 60)%N /\
  autocorr d = zero /\ check_reject d <> PERIODICITY.
Proof.
  cbv zeta.
  set (d := (run (update_config (with_sample_rate (lit 10 1) default_config)
                                (new true true)) (quake 1 3)).1).
  assert (Hd : reachable d) by apply reachable_run, reach_update_config, reach_new.
  assert (H2 : (bound_cap PER_MAX (to_u32 (lit 4 1 * sample_rate_hz (cfg_ d))%num) < 60)%N)
    by (vm_compute; reflexivity).
  assert (H3 : (zero >? periodicity_thresh (cfg_ d))%num = false)
    by (vm_compute; reflexivity).
  destruct (periodicity_skipped_below_60 d Hd H2) as (Ha & Hc).
  exact (conj Hd (conj H2 (conj Ha (Hc H3)))).
Defined.

(** [nativeSetTrigger] in the middle of the event of stream [quake],
    then three strong samples. *)
Lemma native_set_trigger_disarms_witness :
  let d := (run (new true true) (quake 1 520)).1 in
  let xs := [mkJSample (lit 3 1) (lit 3 1) (lit 3 1) 10420%Z;
             mkJSample (lit (-3) 1) (lit (-3) 1) (lit (-3) 1) 10440%Z;
             mkJSample (lit 3 1) (lit 3 1) (lit 3 1) 10460%Z] in
  reachable d /\ (N.of_nat (length xs) < cap_ (lta_ d))%N /\
  st_ d = TRIGGERED /\
  exists d',
    nativeSetTrigger (Some d) (lit 5 1) = Some d' /\
    st_ d' = TRIGGERED /\ (native_run (Some d') xs).2 = [].
Proof.
  cbv zeta. set (d := (run (new true true) (quake 1 520)).1).
  set (xs := [mkJSample (lit 3 1) (lit 3 1) (lit 3 1) 10420%Z;
              mkJSample (lit (-3) 1) (lit (-3) 1) (lit (-3) 1) 10440%Z;
              mkJSample (lit 3 1) (lit 3 1) (lit 3 1) 10460%Z]).
  assert (Hd : reachable d) by apply reachable_run, reach_new.
  assert (HH : ((N.of_nat (length xs) ?= cap_ (lta_ d))%N, st_ d) = (Lt, TRIGGERED))
    by (vm_compute; reflexivity).
  clearbody d xs. destruct (pair_inv _ _ _ _ HH) as (H2 & H3).
  change (N.of_nat (length xs) < cap_ (lta_ d))%N in H2.
  destruct (native_set_trigger_disarms d (lit 5 1) xs Hd H2)
    as (d' & E1 & _ & E3 & _ & _ & E6 & _).
  assert (E4 : st_ d' = TRIGGERED).
  { injection E3 as E _ _ _. rewrite E. exact H3. }
  exact (conj Hd (conj H2 (conj H3 (ex_intro _ d' (conj E1 (conj E4 E6)))))).
Defined.

(** The default configuration: the bounds 3.0 and 8.0 are in order. *)
Lemma dyn_threshold_within_bounds_witness :
  let d := (run (new true true) (quake 1 520)).1 in
  (adaptive_trig_max (cfg_ d) <? adaptive_trig_min (cfg_ d))%num = false /\
  (dyn_threshold d <? adaptive_trig_min (cfg_ d))%num = false /\
  (adaptive_trig_max (cfg_ d) <? dyn_threshold d)%num = false.
Proof.
  cbv zeta. set (d := (run (new true true) (quake 1 520)).1).
  assert (H1 : (adaptive_trig_max (cfg_ d) <? adaptive_trig_min (cfg_ d))%num = false)
    by (vm_compute; reflexivity).
  exact (conj H1 (Safeguards.dyn_threshold_within_bounds d H1)).
Defined.

(** Stream [quake] up to the middle of the event: one event so far. *)
Lemma events_come_in_pairs_witness :
  let d := new (F := B32.t) true true in
  let r := run d (quake 1 520) in
  on_ev_ d = true /\
  Nat.even (length (filter is_event r.2)) =
    Bool.eqb (is_triggered (st_ d)) (is_triggered (st_ r.1)).
Proof.
  cbv zeta.
  assert (H1 : on_ev_ (new (F := B32.t) true true) = true) by reflexivity.
  exact (conj H1 (events_come_in_pairs (new true true) (quake 1 520) H1)).
Defined.

(** 0.03 g and 0.2 g. *)
Lemma severity_monotone_witness :
  (lit 3 100 <=? lit 20 100)%num = true /\
  (AlertLevel_code (severity (lit 3 100 : B32.t))
   <= AlertLevel_code (severity (lit 20 100 : B32.t)))%N.
Proof.
  assert (H1 : ((lit 3 100 : B32.t) <=? lit 20 100)%num = true) by (vm_compute; reflexivity).
  exact (conj H1 (proj1 (Safeguards.severity_monotone (lit 3 100) (lit 20 100) H1))).
Defined.

(** Stream [quake] up to the middle of the event, a reconfiguration,
    eight seconds at rest, another reconfiguration and ten seconds at
    rest: the LTA ring is full of a faded signal and the event in
    progress does not end. *)
Lemma amplitude_gate_freezes_state_witness :
  let d0 := (run (new true true) (quake 1 520)).1 in
  let d1 := (run (update_config default_config d0) (rest 521 400)).1 in
  let d := (run (update_config default_config d1) (rest 921 499)).1 in
  let x := rest_sample 1420 in
  let i := ingested d (s_ax x) (s_ay x) (s_az x) in
  let p := process_sample d (s_ax x) (s_ay x) (s_az x) (s_ts x) in
  cd_ d = 0%N /\ full (lta_ (i_det i)) = true /\
  (avg (lta_ (i_det i)) <? min_amplitude_g (cfg_ d))%num = true /\
  st_ d = TRIGGERED /\ st_ p.1 = TRIGGERED /\ filter is_event p.2 = [].
Proof.
  cbv zeta.
  set (d := (run (update_config default_config
                    (run (update_config default_config
                            (run (new true true) (quake 1 520)).1) (rest 521 400)).1)
                 (rest 921 499)).1).
  set (x := rest_sample 1420).
  assert (HH : (cd_ d, full (lta_ (i_det (ingested d (s_ax x) (s_ay x) (s_az x)))),
                (avg (lta_ (i_det (ingested d (s_ax x) (s_ay x) (s_az x))))
                 <? min_amplitude_g (cfg_ d))%num, st_ d) =
               (0%N, true, true, TRIGGERED)) by (vm_compute; reflexivity).
  clearbody d x. destruct (tuple4_inv _ _ _ _ _ _ _ _ HH) as (H1 & H2 & H3 & H4).
  destruct (amplitude_gate_freezes_state d (s_ax x) (s_ay x) (s_az x) (s_ts x) H1 H2 H3)
    as (Hk & He & _).
  assert (H5 : st_ (process_sample d (s_ax x) (s_ay x) (s_az x) (s_ts x)).1 = TRIGGERED).
  { set (p := process_sample d (s_ax x) (s_ay x) (s_az x) (s_ts x)) in *. clearbody p.
    injection Hk as E _ _ _ _ _. rewrite E. exact H4. }
  exact (conj H1 (conj H2 (conj H3 (conj H4 (conj H5 He))))).
Defined.

(** A phone lying on its side: gravity along the x axis. *)
Lemma gravity_fixed_point_witness :
  let g : GravityEstimator B32.t := {| gx := lit 1 1; gy := lit 0 1; gz := lit 1 100 |} in
  is_settled (gx g) && is_settled (gy g) && is_settled (gz g) = true /\
  grav_update g (gx g) (gy g) (gz g) = g.
Proof.
  cbv zeta.
  set (g := {| gx := lit 1 1; gy := lit 0 1; gz := lit 1 100 |} : GravityEstimator B32.t).
  assert (H1 : is_settled (gx g) && is_settled (gy g) && is_settled (gz g) = true)
    by (vm_compute; reflexivity).
  exact (conj H1 (proj1 (Safeguards.gravity_fixed_point g H1))).
Defined.
End Instances.
